(** * Quote lifecycle and pricing of the manufacturing marketplace

    A shallow embedding of [quotes/pricing.py], [quotes/serializers.py],
    [quotes/views.py] and [reviews/views.py], with the model classes they
    use, and the properties of the quote lifecycle, of the pricing and of
    the reviews proved on it. *)

From Stdlib Require Import Ascii.
From stdpp Require Import gmap strings list fin_maps.

Open Scope string_scope.
Open Scope Z_scope.

(** ** Exceptions

    A computation either returns a value or raises.  Only the signals that
    the decimal context traps ([InvalidOperation], [DivisionByZero],
    [Overflow]) can be raised by the conversions, the comparisons and the
    arithmetic of [pricing.py]. *)

Inductive signal :=
  | InvalidOperation
  | DivisionByZero
  | Overflow.

Inductive result (A : Type) :=
  | Return (a : A)
  | Raise (s : signal).

Arguments Return {A} a.
Arguments Raise {A} s.

#[global] Instance result_bind : MBind result := λ A B k m,
  match m with
  | Return a => k a
  | Raise s => Raise s
  end.

#[global] Instance result_ret : MRet result := λ A a, Return a.

(** ** Python's [decimal] module

    A finite [Decimal] is a signed coefficient and an exponent; its value is
    [coef * 10 ^ exp].  A [number] is a finite decimal, an infinity or a NaN.
    The arithmetic is that of the default context: 28 significant digits,
    [ROUND_HALF_EVEN], exponent limits ±999999, and the three trapped signals
    above.  The sign of a zero and the sign and payload of a NaN are not
    kept (they are never observed by the pricing). *)

Module decimal.

Record Decimal := mk { coef : Z; exp : Z }.

#[global] Instance Decimal_eq_dec : EqDecision Decimal.
Proof. solve_decision. Defined.

Definition prec : Z := 28.
Definition Emax : Z := 999999.
Definition Emin : Z := -999999.
Definition Etiny : Z := Emin - prec + 1.
Definition Etop : Z := Emax - prec + 1.

(** [len(self._int)]: the number of decimal digits of the coefficient;
    the coefficient of a zero is the one digit ['0']. *)
Fixpoint digits_fuel (fuel : nat) (n : Z) : Z :=
  match fuel with
  | O => 1
  | S fuel' => if bool_decide (n < 10) then 1 else 1 + digits_fuel fuel' (n / 10)
  end.

Definition digits (n : Z) : Z :=
  digits_fuel (S (Z.to_nat (Z.log2 (Z.abs n)))) (Z.abs n).

(** [self.adjusted()] *)
Definition adjusted (d : Decimal) : Z := exp d + digits (coef d) - 1.

(** Comparisons of a finite decimal with the integer [0]. *)
Definition le0 (d : Decimal) : bool := bool_decide (coef d ≤ 0).
Definition lt0 (d : Decimal) : bool := bool_decide (coef d < 0).
Definition is_zero (d : Decimal) : bool := bool_decide (coef d = 0).

(** Drop the last [k] digits of the non-negative [n], rounding the
    result half to even ([_round_half_even]) or half up
    ([_round_half_up], ties away from zero on the magnitude). *)
Definition round_half_even (n k : Z) : Z :=
  let q := n / 10 ^ k in
  let r := n mod 10 ^ k in
  if bool_decide (10 ^ k < 2 * r) then q + 1
  else if bool_decide (2 * r = 10 ^ k) && Z.odd q then q + 1
  else q.

Definition round_half_up (n k : Z) : Z :=
  let q := n / 10 ^ k in
  let r := n mod 10 ^ k in
  if bool_decide (10 ^ k ≤ 2 * r) then q + 1 else q.

(** [Decimal._fix]: round to the precision of the context. *)
Definition fix_ (d : Decimal) : result Decimal :=
  if is_zero d then
    Return (mk 0 (Z.min (Z.max (exp d) Etiny) Emax))
  else
    let exp_min := digits (coef d) + exp d - prec in
    if bool_decide (Etop < exp_min) then Raise Overflow
    else
      let exp_min := Z.max exp_min Etiny in
      if bool_decide (exp d < exp_min) then
        let q := round_half_even (Z.abs (coef d)) (exp_min - exp d) in
        let '(q, exp_min) :=
          if bool_decide (prec < digits q) then (q / 10, exp_min + 1)
          else (q, exp_min) in
        if bool_decide (Etop < exp_min) then Raise Overflow
        else Return (mk (Z.sgn (coef d) * q) exp_min)
      else Return d.

(** [Decimal.__mul__] of finite operands *)
Definition mul (a b : Decimal) : result Decimal :=
  fix_ (mk (coef a * coef b) (exp a + exp b)).

(** [_normalize], on (coefficient, exponent) pairs: [tmp] is the operand
    of larger exponent; an [other] too small to matter after rounding is
    replaced by [1] at an exponent just below the precision. *)
Definition normalize (tmp other : Decimal) : Decimal * Decimal :=
  let e := exp tmp + Z.min (-1) (digits (coef tmp) - prec - 2) in
  let other :=
    if bool_decide (digits (coef other) + exp other - 1 < e)
    then mk (Z.sgn (coef other)) e else other in
  (mk (coef tmp * 10 ^ (exp tmp - exp other)) (exp other), other).

(** [Decimal.__add__] of finite operands *)
Definition add (a b : Decimal) : result Decimal :=
  let e := Z.min (exp a) (exp b) in
  if is_zero a && is_zero b then fix_ (mk 0 e)
  else if is_zero a then
    let e := Z.max e (exp b - prec - 1) in
    fix_ (mk (coef b * 10 ^ (exp b - e)) e)
  else if is_zero b then
    let e := Z.max e (exp a - prec - 1) in
    fix_ (mk (coef a * 10 ^ (exp a - e)) e)
  else
    let '(x, y) :=
      if bool_decide (exp a < exp b) then normalize b a else normalize a b in
    fix_ (mk (coef x + coef y) (exp y)).

(** [Decimal.__truediv__] of finite operands *)
Definition div (a b : Decimal) : result Decimal :=
  if is_zero b then
    Raise (if is_zero a then InvalidOperation else DivisionByZero)
  else if is_zero a then fix_ (mk 0 (exp a - exp b))
  else
    let sign := Z.sgn (coef a) * Z.sgn (coef b) in
    let shift := digits (coef b) - digits (coef a) + prec + 1 in
    let e := exp a - exp b - shift in
    let '(c, r) :=
      if bool_decide (0 ≤ shift)
      then (Z.abs (coef a) * 10 ^ shift / Z.abs (coef b),
            (Z.abs (coef a) * 10 ^ shift) mod Z.abs (coef b))
      else (Z.abs (coef a) / (Z.abs (coef b) * 10 ^ (- shift)),
            Z.abs (coef a) mod (Z.abs (coef b) * 10 ^ (- shift))) in
    if bool_decide (r ≠ 0) then
      fix_ (mk (sign * (if bool_decide (c mod 5 = 0) then c + 1 else c)) e)
    else
      (* exact: strip zeros up to the ideal exponent *)
      let ideal := exp a - exp b in
      let strip :=
        fix go (fuel : nat) (c e : Z) : Z * Z :=
          match fuel with
          | O => (c, e)
          | S fuel' =>
              if bool_decide (e < ideal) && bool_decide (c mod 10 = 0)
              then go fuel' (c / 10) (e + 1) else (c, e)
          end in
      let '(c, e) := strip (Z.to_nat (ideal - e)) c e in
      fix_ (mk (sign * c) e).

(** [Decimal._rescale(exp, ROUND_HALF_UP)] *)
Definition rescale_half_up (d : Decimal) (e : Z) : Decimal :=
  if is_zero d then mk 0 e
  else if bool_decide (e ≤ exp d) then mk (coef d * 10 ^ (exp d - e)) e
  else mk (Z.sgn (coef d) * round_half_up (Z.abs (coef d)) (e - exp d)) e.

(** [self.quantize(Decimal("0.01"), ROUND_HALF_UP)] of a finite [self]:
    the exponent of the second operand is [-2]. *)
Definition quantize_cents (d : Decimal) : result Decimal :=
  let e := -2 in
  if is_zero d then fix_ (mk 0 e)
  else if bool_decide (Emax < adjusted d) then Raise InvalidOperation
  else if bool_decide (prec < adjusted d - e + 1) then Raise InvalidOperation
  else
    let ans := rescale_half_up d e in
    if bool_decide (Emax < adjusted ans) then Raise InvalidOperation
    else if bool_decide (prec < digits (coef ans)) then Raise InvalidOperation
    else fix_ ans.

(** [Decimal(str(n))] of an integer. *)
Definition of_Z (n : Z) : Decimal := mk n 0.

(** *** Special values

    Besides the finite decimals there are the two infinities and the
    NaNs, quiet and signaling. *)
Inductive number :=
  | Fin (d : Decimal)
  | Inf (negative : bool)
  | NaN
  | sNaN.

Coercion Fin : Decimal >-> number.

#[global] Instance number_eq_dec : EqDecision number.
Proof. solve_decision. Defined.

(** [self._sign] of a finite decimal: [true] is negative. *)
Definition sign (d : Decimal) : bool := bool_decide (coef d < 0).

(** [self <= 0] and [self < 0]: a comparison that involves a NaN signals
    [InvalidOperation] ([_compare_check_nans]); an infinity compares by
    its sign. *)
Definition le_zero (x : number) : result bool :=
  match x with
  | Fin d => Return (le0 d)
  | Inf negative => Return negative
  | NaN | sNaN => Raise InvalidOperation
  end.

Definition lt_zero (x : number) : result bool :=
  match x with
  | Fin d => Return (lt0 d)
  | Inf negative => Return negative
  | NaN | sNaN => Raise InvalidOperation
  end.

(** [Decimal.__mul__]: a signaling NaN signals [InvalidOperation] and a
    quiet one is the result ([_check_nans]); zero times an infinity
    signals [InvalidOperation]. *)
Definition __mul__ (a b : number) : result number :=
  match a, b with
  | sNaN, _ | _, sNaN => Raise InvalidOperation
  | NaN, _ | _, NaN => Return NaN
  | Inf s, Inf t => Return (Inf (xorb s t))
  | Inf s, Fin y =>
      if is_zero y then Raise InvalidOperation
      else Return (Inf (xorb s (sign y)))
  | Fin x, Inf t =>
      if is_zero x then Raise InvalidOperation
      else Return (Inf (xorb (sign x) t))
  | Fin x, Fin y => r ← mul x y; mret (Fin r)
  end.

(** [Decimal.__add__]: the sum of two infinities of opposite signs
    signals [InvalidOperation]. *)
Definition __add__ (a b : number) : result number :=
  match a, b with
  | sNaN, _ | _, sNaN => Raise InvalidOperation
  | NaN, _ | _, NaN => Return NaN
  | Inf s, Inf t =>
      if bool_decide (s = t) then Return (Inf s) else Raise InvalidOperation
  | Inf s, Fin _ => Return (Inf s)
  | Fin _, Inf t => Return (Inf t)
  | Fin x, Fin y => r ← add x y; mret (Fin r)
  end.

(** [Decimal.__truediv__]: an infinity by an infinity signals
    [InvalidOperation]; a finite decimal by an infinity is a zero at the
    smallest exponent ([Clamped] is not trapped). *)
Definition __truediv__ (a b : number) : result number :=
  match a, b with
  | sNaN, _ | _, sNaN => Raise InvalidOperation
  | NaN, _ | _, NaN => Return NaN
  | Inf _, Inf _ => Raise InvalidOperation
  | Inf s, Fin y => Return (Inf (xorb s (sign y)))
  | Fin _, Inf _ => Return (Fin (mk 0 Etiny))
  | Fin x, Fin y => r ← div x y; mret (Fin r)
  end.

(** [self.quantize(Decimal("0.01"), ROUND_HALF_UP)]: a quiet NaN is the
    result, an infinity signals [InvalidOperation] (the second operand is
    finite). *)
Definition quantize (x : number) : result number :=
  match x with
  | sNaN => Raise InvalidOperation
  | NaN => Return NaN
  | Inf _ => Raise InvalidOperation
  | Fin d => r ← quantize_cents d; mret (Fin r)
  end.

(** *** Members of a JSON document

    What [Decimal(str(x))] makes of a member [x]: the number that the
    string of [x] spells, for an integer, a float ([nan] and [inf]
    included) or a string in the syntax of a number; for any other
    member ([null], [true], [false], an array, an object, another
    string) the conversion signals [InvalidOperation]. *)
Inductive member :=
  | Number (x : number)
  | NotANumber.

Coercion Number : number >-> member.

#[global] Instance member_eq_dec : EqDecision member.
Proof. solve_decision. Defined.

Definition of_member (m : member) : result number :=
  match m with
  | Number x => Return x
  | NotANumber => Raise InvalidOperation
  end.

End decimal.

Export decimal (Decimal).

(** ** Model classes

    Primary keys are UUIDs, that is 128-bit numbers; a foreign key holds the
    primary key of the row it refers to, and two model instances are equal
    when their primary keys are. *)

Definition uuid := N.

(** Modelled from the spec: [accounts/models.py] is not among the sources.
    [UserRole] has the roles the views name, and a [User] the attributes
    they read ([is_staff], [role]); [request.user] is either such a user or
    Django's [AnonymousUser], which is not authenticated and not staff. *)
Inductive UserRole :=
  | CUSTOMER
  | MANUFACTURER
  | OTHER_ROLE (value : string).

#[global] Instance UserRole_eq_dec : EqDecision UserRole.
Proof. solve_decision. Defined.

Module User.
Record t := mk { pk : uuid; is_staff : bool; role : UserRole }.
End User.

Inductive RequestUser :=
  | AnonymousUser
  | Authenticated (user : User.t).

(** A JSON value where the code tests its Python type: an [int], a [bool]
    (a subclass of [int] in Python) or anything else. *)
Inductive json_scalar :=
  | JInt (n : Z)
  | JBool (b : bool)
  | JOther.

(** Modelled from the spec: [accounts/models.py] is not among the sources.
    The manufacturer profile carries the capability document read by the
    pricing (a JSON object: absent members are [None]; the members that
    the pricing converts are kept as [decimal.member]s) and the markup
    factor, a finite [Decimal] of the database. *)
Module Manufacturer.
Record PricingFactors := mkPricingFactors {
  material_properties : option (gmap string (gmap string decimal.member));
  machining : option (gmap string decimal.member);
  estimated_lead_time_base_days : option json_scalar
}.
Record Capabilities := mkCapabilities {
  pricing_factors : option PricingFactors
}.
Record t := mk {
  capabilities : option Capabilities;
  markup_factor : Decimal
}.
End Manufacturer.

(** Modelled from the spec: [designs/models.py] is not among the sources.
    [DesignStatus] has the members the views and tests name and any other
    member by its label; a [Design] has the fields the quotes application
    reads: owner, status, material name and geometric data (a JSON
    object, whose members are kept as [decimal.member]s, or [None]). *)
Inductive DesignStatus :=
  | PENDING_ANALYSIS
  | ANALYSIS_COMPLETE
  | ORDERED
  | OTHER_STATUS (label : string).

#[global] Instance DesignStatus_eq_dec : EqDecision DesignStatus.
Proof. solve_decision. Defined.

Definition DesignStatus_label (s : DesignStatus) : string :=
  match s with
  | PENDING_ANALYSIS => "Pending Analysis"
  | ANALYSIS_COMPLETE => "Analysis Complete"
  | ORDERED => "Ordered"
  | OTHER_STATUS label => label
  end.

Module Design.
Record t := mk {
  customer : uuid;
  status : DesignStatus;
  material : string;
  geometric_data : option (gmap string decimal.member)
}.
Definition get_status_display (d : t) : string := DesignStatus_label (status d).
Definition set_status (s : DesignStatus) (d : t) : t :=
  mk (customer d) s (material d) (geometric_data d).
End Design.

(** [quotes/models.py]; the timestamps [created_at] and [updated_at] of a
    quote are left out, nothing in the views reads them. *)
Inductive QuoteStatus :=
  | PENDING
  | ACCEPTED
  | REJECTED
  | EXPIRED.

#[global] Instance QuoteStatus_eq_dec : EqDecision QuoteStatus.
Proof. solve_decision. Defined.

Definition QuoteStatus_value (s : QuoteStatus) : string :=
  match s with
  | PENDING => "pending"
  | ACCEPTED => "accepted"
  | REJECTED => "rejected"
  | EXPIRED => "expired"
  end.

Module Quote.
Record t := mk {
  design : uuid;
  manufacturer : uuid;
  price_usd : Decimal;
  estimated_lead_time_days : Z;
  status : QuoteStatus;
  notes : option string
}.
Definition set_status (s : QuoteStatus) (q : t) : t :=
  mk (design q) (manufacturer q) (price_usd q) (estimated_lead_time_days q)
     s (notes q).
End Quote.

(** ** [quotes/pricing.py] *)

Module pricing.
Import decimal.

(** A value stored in [calculation_details]: the decimal handed to
    [float(...)] (the conversion to a binary double is not modelled), or
    an [int]. *)
Inductive detail :=
  | Float (x : number)
  | Int (n : Z).

Record PricingDetails := mkPricingDetails {
  price_usd : option number;
  estimated_lead_time_days : option Z;
  calculation_details : gmap string detail;
  errors : list string
}.

(** [Decimal(str(d.get(key, 0)))] *)
Definition get_decimal (d : gmap string member) (key : string)
    : result number :=
  of_member (default (Number (of_Z 0)) (d !! key)).

(** [errors.append(message)] *)
Definition append (errors : list string) (message : string) : list string :=
  (errors ++ [message])%list.

(** [not errors] *)
Definition no (errors : list string) : bool :=
  match errors with [] => true | _ => false end.

Definition zero_cost : Decimal := mk 0 (-2).         (* Decimal("0.00") *)
Definition thousand : Decimal := mk 10000 (-1).      (* Decimal("1000.0") *)

(** The part of [calculate_quote_price] under [# 2. Calculate Material
    Cost]: the material cost, and the errors and details after it. *)
Definition calculate_material_cost (volume_cm3 : number)
    (design_material_name : string)
    (material_properties_map : gmap string (gmap string member))
    (errors : list string) (calculation_details : gmap string detail)
    : result (number * list string * gmap string detail) :=
  match material_properties_map !! design_material_name with
  | Some props =>
      density_g_cm3 ← get_decimal props "density_g_cm3";
      cost_usd_kg ← get_decimal props "cost_usd_kg";
      density_not_positive ← le_zero density_g_cm3;
      let errors :=
        if (density_not_positive : bool)
        then append errors ("Density for material '" +:+ design_material_name
                            +:+ "' must be positive.")
        else errors in
      cost_negative ← lt_zero cost_usd_kg;
      let errors :=
        if (cost_negative : bool)
        then append errors ("Cost per kg for material '" +:+ design_material_name
                            +:+ "' must be non-negative.")
        else errors in
      if no errors then
        cost_usd_g ← __truediv__ cost_usd_kg thousand;
        volume_mass ← __mul__ volume_cm3 density_g_cm3;
        material_cost ← __mul__ volume_mass cost_usd_g;
        rounded ← quantize material_cost;
        mret (material_cost, errors,
              <["calculated_material_cost_usd" := Float rounded]>
              (<["material_cost_usd_kg" := Float cost_usd_kg]>
              (<["material_density_g_cm3" := Float density_g_cm3]>
              (<["material_volume_cm3" := Float volume_cm3]>
               calculation_details))))
      else mret (Fin zero_cost, errors, calculation_details)
  | None =>
      mret (Fin zero_cost,
            append errors ("Manufacturer does not have pricing information for material: "
                           +:+ design_material_name),
            calculation_details)
  end.

(** The part under [# 3. Calculate Machine Time Cost]. *)
Definition calculate_machine_time_cost (complexity_score : number)
    (machining_factors : gmap string member)
    (errors : list string) (calculation_details : gmap string detail)
    : result (number * list string * gmap string detail) :=
  base_time_cost_unit ← get_decimal machining_factors "base_time_cost_unit";
  time_multiplier_complexity_cost_unit ←
    get_decimal machining_factors "time_multiplier_complexity_cost_unit";
  base_negative ← lt_zero base_time_cost_unit;
  let errors :=
    if (base_negative : bool)
    then append errors "Base time cost unit cannot be negative." else errors in
  multiplier_negative ← lt_zero time_multiplier_complexity_cost_unit;
  let errors :=
    if (multiplier_negative : bool)
    then append errors "Time multiplier cost unit cannot be negative." else errors in
  if no errors then
    complexity_cost ← __mul__ complexity_score time_multiplier_complexity_cost_unit;
    machine_time_cost ← __add__ base_time_cost_unit complexity_cost;
    rounded ← quantize machine_time_cost;
    mret (machine_time_cost, errors,
          <["calculated_machine_time_cost_units" := Float rounded]>
          (<["machining_time_multiplier_cost_unit" :=
               Float time_multiplier_complexity_cost_unit]>
          (<["design_complexity_score" := Float complexity_score]>
          (<["machining_base_time_cost_unit" := Float base_time_cost_unit]>
           calculation_details))))
  else mret (Fin zero_cost, errors, calculation_details).

(** The part under [# 4. Calculate Total Price]: the final price, or
    [None] when there are errors. *)
Definition calculate_total_price (material_cost machine_time_cost : number)
    (manufacturer_markup : Decimal)
    (errors : list string) (calculation_details : gmap string detail)
    : result (option number * list string * gmap string detail) :=
  total_price_before_markup ← __add__ material_cost machine_time_cost;
  rounded ← quantize total_price_before_markup;
  let calculation_details :=
    <["total_price_before_markup_usd" := Float rounded]> calculation_details in
  let errors :=
    if le0 manufacturer_markup
    then append errors "Manufacturer markup factor must be positive." else errors in
  if no errors then
    total_price ← __mul__ total_price_before_markup manufacturer_markup;
    final_price_usd ← quantize total_price;
    mret (Some final_price_usd, errors,
          <["final_total_price_usd" := Float final_price_usd]>
          (<["manufacturer_markup_factor" := Float manufacturer_markup]>
           calculation_details))
  else mret (None, errors, calculation_details).

(** The part under [# 5. Determine Estimated Lead Time]: the value of the
    manufacturer, or 7 when it is missing, not an [int] or negative. *)
Definition determine_estimated_lead_time
    (pricing_factors : Manufacturer.PricingFactors) : Z :=
  match default (JInt 7)
          (Manufacturer.estimated_lead_time_base_days pricing_factors) with
  | JInt n => if bool_decide (n < 0) then 7 else n
  | JBool b => Z.b2z b
  | JOther => 7
  end.

Definition calculate_quote_price (design : Design.t)
    (manufacturer : Manufacturer.t) : result PricingDetails :=
  let errors : list string := [] in
  let calculation_details : gmap string detail := ∅ in
  (* 1. Validate inputs *)
  let geometric_data := default ∅ (Design.geometric_data design) in
  if bool_decide (geometric_data = ∅) then
    let errors := append errors "Design geometric data is missing or incomplete." in
    mret (mkPricingDetails None None calculation_details errors)
  else
  volume_cm3 ← get_decimal geometric_data "volume_cm3";
  complexity_score ← get_decimal geometric_data "complexity_score";
  let design_material_name := Design.material design in
  volume_not_positive ← le_zero volume_cm3;
  let errors :=
    if (volume_not_positive : bool)
    then append errors "Design volume must be a positive value." else errors in
  let capabilities :=
    default (Manufacturer.mkCapabilities None)
            (Manufacturer.capabilities manufacturer) in
  let pricing_factors :=
    default (Manufacturer.mkPricingFactors None None None)
            (Manufacturer.pricing_factors capabilities) in
  let material_properties_map :=
    default ∅ (Manufacturer.material_properties pricing_factors) in
  let machining_factors :=
    default ∅ (Manufacturer.machining pricing_factors) in
  let manufacturer_markup := Manufacturer.markup_factor manufacturer in
  '(material_cost, errors, calculation_details) ←
    calculate_material_cost volume_cm3 design_material_name
      material_properties_map errors calculation_details;
  '(machine_time_cost, errors, calculation_details) ←
    calculate_machine_time_cost complexity_score machining_factors
      errors calculation_details;
  '(final_price_usd, errors, calculation_details) ←
    calculate_total_price material_cost machine_time_cost manufacturer_markup
      errors calculation_details;
  let estimated_lead_time_days := determine_estimated_lead_time pricing_factors in
  let calculation_details :=
    <["estimated_lead_time_days" := Int estimated_lead_time_days]>
    calculation_details in
  if no errors then
    mret (mkPricingDetails final_price_usd (Some estimated_lead_time_days)
            calculation_details [])
  else
    mret (mkPricingDetails None None calculation_details errors).

End pricing.

(** Modelled from the spec: [orders/models.py] is not among the sources.
    An [Order] references the accepted quote one-to-one (the view reads
    the reverse accessor [order_created_from]), the design, the customer
    and the manufacturer; it copies the quote's price, starts in status
    pending-payment, and [calculate_and_set_estimated_delivery] sets the
    estimated delivery date to the order's creation date plus the quote's
    lead time in calendar days.  Timestamps count seconds and dates count
    days. *)
Inductive OrderStatus :=
  | PENDING_PAYMENT
  | OTHER_ORDER_STATUS (value : string).

Module Order.
Record t := mk {
  design : uuid;
  accepted_quote : uuid;
  customer : uuid;
  manufacturer : uuid;
  order_total_price_usd : Decimal;
  status : OrderStatus;
  created_at : Z;
  estimated_delivery_date : option Z
}.

(** [created_at.date()] *)
Definition date (timestamp : Z) : Z := timestamp / 86400.

Definition calculate_and_set_estimated_delivery (order : t)
    (quote_lead_time_days : Z) : t :=
  mk (design order) (accepted_quote order) (customer order)
     (manufacturer order) (order_total_price_usd order) (status order)
     (created_at order)
     (Some (date (created_at order) + quote_lead_time_days)).
End Order.

(** ** The database: one table per model, keyed by primary key

    The table of users is not modelled: a request carries its user, and
    the rows refer to users by primary key. *)

Record Database := mkDatabase {
  designs : gmap uuid Design.t;
  quotes : gmap uuid Quote.t;
  orders : gmap uuid Order.t
}.

(** [uuid.uuid4()], the default of a primary key: a key not in the table. *)
Definition uuid4 {A} (table : gmap uuid A) : uuid := fresh (dom table).

(** [hasattr(quote, 'order_created_from')]: some order has this quote as
    its [accepted_quote]. *)
Definition order_created_from (orders : gmap uuid Order.t) (quote_id : uuid) : Prop :=
  map_Exists (λ _ order, Order.accepted_quote order = quote_id) orders.

(** ** Requests and responses

    [request.data] of a POST or PATCH on a quote: the members the
    serializer reads, each present or not, and the number of other members
    (read-only or unknown ones, which [len(request.data)] counts too).
    [status] is the raw string sent; the other members hold the values
    their field validators return. *)
Module Data.
Record t := mk {
  status : option string;
  price_usd : option Decimal;
  estimated_lead_time_days : option Z;
  notes : option (option string);
  others : nat
}.

Definition present {A} (member : option A) : nat :=
  match member with Some _ => 1 | None => 0 end.

Definition len (data : t) : nat :=
  (present (status data) + present (price_usd data)
   + present (estimated_lead_time_days data) + present (notes data)
   + others data)%nat.
End Data.

(** The exceptions of the REST framework that end a request:
    401 [NotAuthenticated], 403 [PermissionDenied] (the spec's
    AuthorizationDenied), 400 [ValidationError] (ValidationFailed) and
    404 [Http404] (NotFound). *)
Inductive APIException :=
  | NotAuthenticated
  | PermissionDenied (detail : string)
  | ValidationError (detail : string)
  | Http404.

Inductive Response (A : Type) :=
  | OK (body : A)
  | Error (e : APIException).

Arguments OK {A} body.
Arguments Error {A} e.

(** What a permission class answers: granted, or denied with its
    [message]. *)
Inductive permission :=
  | Granted
  | Denied (message : string).

(** ** [quotes/serializers.py] *)

Module QuoteSerializer.

(** [validated_data]: the writable fields that were sent. *)
Record validated_data := mkValidated {
  status : option QuoteStatus;
  price_usd : option Decimal;
  estimated_lead_time_days : option Z;
  notes : option (option string)
}.

(** The choice field of [status]: the string must be one of the values
    of [QuoteStatus]. *)
Definition to_internal_value (raw : string) : option QuoteStatus :=
  if bool_decide (raw = "pending") then Some PENDING
  else if bool_decide (raw = "accepted") then Some ACCEPTED
  else if bool_decide (raw = "rejected") then Some REJECTED
  else if bool_decide (raw = "expired") then Some EXPIRED
  else None.

Definition missing {A} (member : option A) : bool :=
  match member with Some _ => false | None => true end.

Definition quoted (raw : string) : string :=
  String "034"%char raw +:+ String "034"%char EmptyString.

(** Field validation of a request body; [partial] is [True] for PATCH,
    and a POST must carry the fields that have no default.  The checks of
    the values of the price ([max_digits=10], [decimal_places=2]) and of
    the lead time are those of the framework's fields and are not
    modelled: [Data] holds the values these fields return, so a body
    that one of them refuses has no representation here. *)
Definition run_field_validation (partial : bool) (data : Data.t)
    : Response validated_data :=
  if negb partial && (missing (Data.price_usd data)
                      || missing (Data.estimated_lead_time_days data))
  then Error (ValidationError "This field is required.")
  else
    match Data.status data with
    | Some raw =>
        match to_internal_value raw with
        | Some s =>
            OK (mkValidated (Some s) (Data.price_usd data)
                  (Data.estimated_lead_time_days data) (Data.notes data))
        | None =>
            Error (ValidationError (quoted raw +:+ " is not a valid choice."))
        end
    | None =>
        OK (mkValidated None (Data.price_usd data)
              (Data.estimated_lead_time_days data) (Data.notes data))
    end.

(** [QuoteSerializer.validate].  [instance] is the quote being updated
    with its design, [None] on creation; [design] and [manufacturer] are
    read-only, so they are never in [data]. *)
Definition validate (request_user : RequestUser)
    (instance : option (Quote.t * Design.t)) (data : validated_data)
    : Response validated_data :=
  match instance with
  | None => OK data
  | Some (quote, design) =>
      let manufacturer_user := Quote.manufacturer quote in
      if bool_decide (Design.customer design = manufacturer_user) then
        Error (ValidationError
                 "A manufacturer cannot create a quote for their own design.")
      else
        match status data with
        | Some new_status =>
            let current_status := Quote.status quote in
            match request_user with
            | Authenticated user =>
                if bool_decide (User.pk user = Design.customer design) then
                  if bool_decide (current_status = PENDING)
                     && negb (bool_decide (new_status = ACCEPTED)
                              || bool_decide (new_status = REJECTED))
                  then Error (ValidationError
                    ("Customer can only change status to Accepted or Rejected from Pending. Invalid transition to "
                     +:+ QuoteStatus_value new_status +:+ "."))
                  else OK data
                else if bool_decide (User.pk user = manufacturer_user) then
                  if bool_decide (new_status ≠ current_status)
                     && bool_decide (new_status ≠ EXPIRED)
                  then Error (ValidationError
                    ("Manufacturer cannot change status to "
                     +:+ QuoteStatus_value new_status +:+ " this way."))
                  else OK data
                else Error (ValidationError
                  "You do not have permission to change the status of this quote.")
            | AnonymousUser =>
                Error (ValidationError
                  "You do not have permission to change the status of this quote.")
            end
        | None => OK data
        end
  end.

(** [serializer.save()] on an instance: the fields sent replace the
    quote's. *)
Definition update (quote : Quote.t) (data : validated_data) : Quote.t :=
  Quote.mk (Quote.design quote) (Quote.manufacturer quote)
    (default (Quote.price_usd quote) (price_usd data))
    (default (Quote.estimated_lead_time_days quote) (estimated_lead_time_days data))
    (default (Quote.status quote) (status data))
    (default (Quote.notes quote) (notes data)).

(** [serializer.save(design=design, manufacturer=user)] without an
    instance: a new quote; [status] defaults to pending. *)
Definition create (design manufacturer : uuid) (data : validated_data)
    : option Quote.t :=
  price ← price_usd data;
  lead_time ← estimated_lead_time_days data;
  Some (Quote.mk design manufacturer price lead_time
          (default PENDING (status data)) (default None (notes data))).

End QuoteSerializer.

(** ** [quotes/views.py]: permissions *)

Module IsAuthenticated.
Definition has_permission (request_user : RequestUser) : bool :=
  match request_user with
  | Authenticated _ => true
  | AnonymousUser => false
  end.
End IsAuthenticated.

(** The detail of a [PermissionDenied] raised for a permission class that
    sets no [message]: the default of the REST framework. *)
Definition default_detail : string :=
  "You do not have permission to perform this action.".

Module IsQuoteOwnerOrDesignOwnerOrAdmin.
(** [obj] is the quote, [design] its design ([obj.design]). *)
Definition has_object_permission (user : User.t) (obj : Quote.t)
    (design : Design.t) : bool :=
  if User.is_staff user then true
  else bool_decide (Quote.manufacturer obj = User.pk user)
       || bool_decide (Design.customer design = User.pk user).
End IsQuoteOwnerOrDesignOwnerOrAdmin.

Module CanCreateQuoteForDesign.
Definition message : string :=
  "You do not have permission to create a quote for this design.".

(** [design_id] is [view.kwargs.get('design_id')]. *)
Definition has_permission (request_user : RequestUser)
    (design_id : option uuid) (designs : gmap uuid Design.t) : permission :=
  match request_user with
  | Authenticated user =>
      if bool_decide (User.role user = MANUFACTURER) then
        match design_id with
        | None => Denied "Design ID not provided in URL."
        | Some design_id =>
            match designs !! design_id with
            | None => Denied "Design not found."
            | Some design =>
                if bool_decide (Design.customer design = User.pk user) then
                  Denied "Manufacturers cannot quote their own designs."
                else if bool_decide (Design.status design ≠ ANALYSIS_COMPLETE) then
                  Denied ("Design must be in '"
                          +:+ DesignStatus_label ANALYSIS_COMPLETE
                          +:+ "' status to receive quotes. Current status: "
                          +:+ Design.get_status_display design +:+ ".")
                else Granted
            end
        end
      else Denied "Only authenticated manufacturers can create quotes."
  | AnonymousUser => Denied "Only authenticated manufacturers can create quotes."
  end.
End CanCreateQuoteForDesign.

Module CanUpdateQuote.
Definition message : string :=
  "You do not have permission to update this quote or perform this status change.".

Definition customer_message (current : QuoteStatus) (new_status : string) : string :=
  "Customer can only change status from Pending to Accepted/Rejected. Invalid transition from '"
  +:+ QuoteStatus_value current +:+ "' to '" +:+ new_status +:+ "'.".

Definition manufacturer_message (current : QuoteStatus) (new_status : string) : string :=
  "Manufacturer cannot make this status transition from '"
  +:+ QuoteStatus_value current +:+ "' to '" +:+ new_status +:+ "'.".

(** [obj] is the quote, [design] its design ([obj.design]). *)
Definition has_object_permission (user : User.t) (data : Data.t)
    (obj : Quote.t) (design : Design.t) : permission :=
  if User.is_staff user then Granted
  else
    let is_design_owner := bool_decide (Design.customer design = User.pk user) in
    let is_quote_creator := bool_decide (Quote.manufacturer obj = User.pk user) in
    if negb (is_design_owner || is_quote_creator) then Denied message
    else
      match Data.status data with
      | Some new_status =>
          if bool_decide (Data.len data = 1%nat) then
            (* only status is being updated *)
            if is_design_owner then
              if bool_decide (Quote.status obj = PENDING)
                 && (bool_decide (new_status = QuoteStatus_value ACCEPTED)
                     || bool_decide (new_status = QuoteStatus_value REJECTED))
              then Granted
              else Denied (customer_message (Quote.status obj) new_status)
            else
              if bool_decide (Quote.status obj = PENDING)
                 && bool_decide (new_status = QuoteStatus_value EXPIRED)
              then Granted
              else Denied (manufacturer_message (Quote.status obj) new_status)
          else if is_quote_creator && bool_decide (Quote.status obj = PENDING) then
            if bool_decide (new_status ≠ QuoteStatus_value (Quote.status obj)) then
              Denied "Manufacturer can only update details of a PENDING quote, or mark it EXPIRED."
            else Granted
          else
            Denied "You cannot update this quote in its current state or with the provided data."
      | None =>
          if is_quote_creator && bool_decide (Quote.status obj = PENDING) then Granted
          else
            Denied "You cannot update this quote in its current state or with the provided data."
      end.
End CanUpdateQuote.

(** ** [quotes/views.py]: views

    A view takes the database and answers with a response and the
    database after the request.  Logging is not modelled. *)

Module QuoteListCreateView.

Definition duplicate_message : string :=
  "You have already submitted a quote for this design.".

(** [Quote.objects.filter(design=design, manufacturer=user).exists()] *)
Definition quote_exists (quotes : gmap uuid Quote.t)
    (design manufacturer : uuid) : Prop :=
  map_Exists (λ _ quote, Quote.design quote = design
                         ∧ Quote.manufacturer quote = manufacturer) quotes.

Definition perform_create (db : Database) (user : User.t)
    (design_id : option uuid) (serializer : QuoteSerializer.validated_data)
    : Response (uuid * Quote.t) * Database :=
  (* get_object_or_404(Design, pk=design_id) *)
  match design_id with
  | None => (Error Http404, db)
  | Some design_id =>
      match designs db !! design_id with
      | None => (Error Http404, db)
      | Some _ =>
          if bool_decide (quote_exists (quotes db) design_id (User.pk user)) then
            (Error (ValidationError duplicate_message), db)
          else
            match QuoteSerializer.create design_id (User.pk user) serializer with
            | Some quote =>
                let id := uuid4 (quotes db) in
                (OK (id, quote),
                 mkDatabase (designs db) (<[id := quote]> (quotes db)) (orders db))
            | None => (Error (ValidationError "This field is required."), db)
            end
      end
  end.

(** POST /api/designs/{design_id}/quotes/ *)
Definition post (db : Database) (request_user : RequestUser)
    (design_id : option uuid) (data : Data.t)
    : Response (uuid * Quote.t) * Database :=
  match request_user with
  | AnonymousUser => (Error NotAuthenticated, db)
  | Authenticated user =>
      match CanCreateQuoteForDesign.has_permission request_user design_id
              (designs db) with
      | Denied message => (Error (PermissionDenied message), db)
      | Granted =>
          match QuoteSerializer.run_field_validation false data with
          | Error e => (Error e, db)
          | OK validated =>
              match QuoteSerializer.validate request_user None validated with
              | Error e => (Error e, db)
              | OK validated => perform_create db user design_id validated
              end
          end
      end
  end.

(** [get_queryset]: the rows of the queryset by primary key; the order of
    the rows ([-created_at]) is not modelled. *)
Definition get_queryset (db : Database) (user : User.t)
    (design_id : option uuid) : Response (gmap uuid Quote.t) :=
  (* get_object_or_404(Design, pk=design_id) *)
  match design_id with
  | None => Error Http404
  | Some design_id =>
      match designs db !! design_id with
      | None => Error Http404
      | Some design =>
          if User.is_staff user then
            OK (filter (λ row, Quote.design row.2 = design_id) (quotes db))
          else if bool_decide (Design.customer design = User.pk user) then
            OK (filter (λ row, Quote.design row.2 = design_id) (quotes db))
          else if bool_decide (User.role user = MANUFACTURER) then
            OK (filter (λ row, Quote.design row.2 = design_id
                               ∧ Quote.manufacturer row.2 = User.pk user)
                  (quotes db))
          else OK ∅
      end
  end.

(** GET /api/designs/{design_id}/quotes/: the quotes listed. *)
Definition get (db : Database) (request_user : RequestUser)
    (design_id : option uuid) : Response (gmap uuid Quote.t) :=
  match request_user with
  | AnonymousUser => Error NotAuthenticated
  | Authenticated user => get_queryset db user design_id
  end.

End QuoteListCreateView.

Module QuoteDetailView.

(** [get_object()] on the queryset
    [Quote.objects.select_related('design', ...)]: the quote joined with
    its design. *)
Definition get_object (db : Database) (id : uuid) : option (Quote.t * Design.t) :=
  quote ← quotes db !! id;
  design ← designs db !! Quote.design quote;
  Some (quote, design).

(** [Quote.objects.filter(design_id=design_pk, status=PENDING)
    .exclude(id=updated_quote.id)] *)
Definition other_pending_quotes (quotes : gmap uuid Quote.t)
    (design_pk id : uuid) : list (uuid * Quote.t) :=
  map_to_list
    (filter (λ row, Quote.design row.2 = design_pk
                    ∧ Quote.status row.2 = PENDING ∧ row.1 ≠ id) quotes).

(** [perform_update]; [quote_instance] is [serializer.instance], the
    row of key [id], and [design] its design.  Nothing in the atomic
    block raises in this model, so the [except] clause is never taken. *)
Definition perform_update (db : Database) (now : Z) (id : uuid)
    (quote_instance : Quote.t) (design : Design.t)
    (validated : QuoteSerializer.validated_data) : Database :=
  let original_status := Quote.status quote_instance in
  let new_status := default original_status (QuoteSerializer.status validated) in
  (* Save the quote update *)
  let updated_quote := QuoteSerializer.update quote_instance validated in
  let db := mkDatabase (designs db) (<[id := updated_quote]> (quotes db)) (orders db) in
  (* If status changed to ACCEPTED, create an Order *)
  if bool_decide (original_status ≠ ACCEPTED) && bool_decide (new_status = ACCEPTED) then
    if bool_decide (order_created_from (orders db) id) then db
    else
      let order :=
        Order.mk (Quote.design updated_quote) id (Design.customer design)
          (Quote.manufacturer updated_quote) (Quote.price_usd updated_quote)
          PENDING_PAYMENT now None in
      let order :=
        Order.calculate_and_set_estimated_delivery order
          (Quote.estimated_lead_time_days updated_quote) in
      let orders' := <[uuid4 (orders db) := order]> (orders db) in
      let design_pk := Quote.design updated_quote in
      let designs' :=
        if bool_decide (Design.status design ≠ ORDERED)
        then alter (Design.set_status ORDERED) design_pk (designs db)
        else designs db in
      let quotes' :=
        foldl (λ quotes row, alter (Quote.set_status REJECTED) row.1 quotes)
              (quotes db) (other_pending_quotes (quotes db) design_pk id) in
      mkDatabase designs' quotes' orders'
  else db.

(** PATCH /api/quotes/{id}/ *)
Definition patch (db : Database) (now : Z) (request_user : RequestUser)
    (id : uuid) (data : Data.t) : Response Quote.t * Database :=
  match request_user with
  | AnonymousUser => (Error NotAuthenticated, db)
  | Authenticated user =>
      match get_object db id with
      | None => (Error Http404, db)
      | Some (quote, design) =>
          match CanUpdateQuote.has_object_permission user data quote design with
          | Denied message => (Error (PermissionDenied message), db)
          | Granted =>
              match QuoteSerializer.run_field_validation true data with
              | Error e => (Error e, db)
              | OK validated =>
                  match QuoteSerializer.validate request_user
                          (Some (quote, design)) validated with
                  | Error e => (Error e, db)
                  | OK validated =>
                      (OK (QuoteSerializer.update quote validated),
                       perform_update db now id quote design validated)
                  end
              end
          end
      end
  end.

(** PUT /api/quotes/{id}/: the update of PATCH with [partial=False], so
    the body must carry the fields that have no default. *)
Definition put (db : Database) (now : Z) (request_user : RequestUser)
    (id : uuid) (data : Data.t) : Response Quote.t * Database :=
  match request_user with
  | AnonymousUser => (Error NotAuthenticated, db)
  | Authenticated user =>
      match get_object db id with
      | None => (Error Http404, db)
      | Some (quote, design) =>
          match CanUpdateQuote.has_object_permission user data quote design with
          | Denied message => (Error (PermissionDenied message), db)
          | Granted =>
              match QuoteSerializer.run_field_validation false data with
              | Error e => (Error e, db)
              | OK validated =>
                  match QuoteSerializer.validate request_user
                          (Some (quote, design)) validated with
                  | Error e => (Error e, db)
                  | OK validated =>
                      (OK (QuoteSerializer.update quote validated),
                       perform_update db now id quote design validated)
                  end
              end
          end
      end
  end.

(** GET /api/quotes/{id}/ *)
Definition retrieve (db : Database) (request_user : RequestUser) (id : uuid)
    : Response Quote.t :=
  match request_user with
  | AnonymousUser => Error NotAuthenticated
  | Authenticated user =>
      match get_object db id with
      | None => Error Http404
      | Some (quote, design) =>
          if IsQuoteOwnerOrDesignOwnerOrAdmin.has_object_permission user quote
               design
          then OK quote
          else Error (PermissionDenied default_detail)
      end
  end.

Definition destroy_message : string :=
  "You can only delete PENDING quotes that you created.".

(** [perform_destroy]; [instance] is the row of key [id].
    [instance.delete()] removes the row of a quote that no order refers
    to.  What it does to an order that refers to the quote is decided by
    the [on_delete] rule of [Order.accepted_quote] in [orders/models.py],
    which is not among the sources: the model stops there, with [None]. *)
Definition perform_destroy (db : Database) (user : User.t) (id : uuid)
    (instance : Quote.t) : option (Response unit * Database) :=
  if negb (User.is_staff user
           || (bool_decide (Quote.manufacturer instance = User.pk user)
               && bool_decide (Quote.status instance = PENDING)))
  then Some (Error (PermissionDenied destroy_message), db)
  else
    (* super().perform_destroy(instance) *)
    if bool_decide (order_created_from (orders db) id) then None
    else Some (OK tt,
               mkDatabase (designs db) (delete id (quotes db)) (orders db)).

(** DELETE /api/quotes/{id}/ *)
Definition destroy (db : Database) (request_user : RequestUser) (id : uuid)
    : option (Response unit * Database) :=
  match request_user with
  | AnonymousUser => Some (Error NotAuthenticated, db)
  | Authenticated user =>
      match get_object db id with
      | None => Some (Error Http404, db)
      | Some (quote, design) =>
          if IsQuoteOwnerOrDesignOwnerOrAdmin.has_object_permission user quote
               design
          then perform_destroy db user id quote
          else Some (Error (PermissionDenied default_detail), db)
      end
  end.

End QuoteDetailView.

(** ** [reviews/views.py]

    Modelled from the spec: [reviews/models.py] and
    [reviews/serializers.py] are not among the sources.  A [Review] has
    the fields that the views and [reviews/tests.py] name: the customer who
    wrote it, the manufacturer it is about, a rating, a comment, and the
    order it refers to, if any.  The views look users up, so the table of
    users is an argument here: the rows of [User] by primary key. *)
Module Review.
Record t := mk {
  customer : uuid;
  manufacturer : uuid;
  rating : Z;
  comment : string;
  order_id : option uuid
}.
End Review.

(** [request.method] and [permissions.SAFE_METHODS] *)
Inductive method := GET | HEAD | OPTIONS | POST | PUT | PATCH | DELETE.

#[global] Instance method_eq_dec : EqDecision method.
Proof. solve_decision. Defined.

Definition SAFE_METHODS : list method := [GET; HEAD; OPTIONS].

(** [User.objects.get(pk=manufacturer_id, role=UserRole.MANUFACTURER)] *)
Definition get_manufacturer (users : gmap uuid User.t)
    (manufacturer_id : option uuid) : option User.t :=
  id ← manufacturer_id;
  user ← users !! id;
  if bool_decide (User.role user = MANUFACTURER) then Some user else None.

(** What [permission_denied] raises: 401 for a request that is not
    authenticated, 403 otherwise. *)
Definition permission_denied (request_user : RequestUser) (message : string)
    : APIException :=
  match request_user with
  | AnonymousUser => NotAuthenticated
  | Authenticated _ => PermissionDenied message
  end.

Module CanCreateReviewForManufacturer.
Definition message : string :=
  "You do not have permission to create this review.".

(** [manufacturer_id] is [view.kwargs.get('manufacturer_id')]. *)
Definition has_permission (request_user : RequestUser)
    (manufacturer_id : option uuid) (users : gmap uuid User.t) : permission :=
  match request_user with
  | Authenticated user =>
      if bool_decide (User.role user = CUSTOMER) then
        match manufacturer_id with
        | None => Denied "Manufacturer ID not provided in URL."
        | Some _ =>
            match get_manufacturer users manufacturer_id with
            | Some manufacturer_user => Granted
            | None =>
                Denied "Manufacturer to be reviewed not found or is not a valid manufacturer."
            end
        end
      else Denied "Only authenticated customers can submit reviews."
  | AnonymousUser => Denied "Only authenticated customers can submit reviews."
  end.
End CanCreateReviewForManufacturer.

Module IsReviewOwnerOrReadOnly.
Definition has_object_permission (request_method : method)
    (request_user : RequestUser) (obj : Review.t) : bool :=
  if bool_decide (request_method ∈ SAFE_METHODS) then true
  else
    match request_user with
    | Authenticated user =>
        User.is_staff user || bool_decide (Review.customer obj = User.pk user)
    | AnonymousUser => false
    end.
End IsReviewOwnerOrReadOnly.

Module ReviewListCreateView.

(** [serializer.validated_data] *)
Record validated_data := mkValidated {
  rating : Z;
  comment : string;
  order_id : option uuid
}.

(** [get_queryset]: the rows of the queryset by primary key; their order
    ([-created_at]) is not modelled. *)
Definition get_queryset (users : gmap uuid User.t)
    (reviews : gmap uuid Review.t) (manufacturer_id : option uuid)
    : Response (gmap uuid Review.t) :=
  match get_manufacturer users manufacturer_id with
  | None => Error Http404
  | Some manufacturer =>
      OK (filter (λ row, Review.manufacturer row.2 = User.pk manufacturer)
            reviews)
  end.

(** [existing_review_query.exists()]: a review of the customer for the
    manufacturer with this [order_id], or, for [None], with none. *)
Definition review_exists (reviews : gmap uuid Review.t)
    (customer manufacturer : uuid) (order_id : option uuid) : Prop :=
  map_Exists (λ _ review, Review.customer review = customer
                          ∧ Review.manufacturer review = manufacturer
                          ∧ Review.order_id review = order_id) reviews.

Definition duplicate_message (order_id : option uuid) : string :=
  "You have already submitted a review for this manufacturer "
  +:+ (if order_id is Some _ then "for this order." else "(general review).").

Definition perform_create (users : gmap uuid User.t)
    (reviews : gmap uuid Review.t) (user : User.t)
    (manufacturer_id : option uuid) (serializer : validated_data)
    : Response (uuid * Review.t) * gmap uuid Review.t :=
  match get_manufacturer users manufacturer_id with
  | None => (Error Http404, reviews)
  | Some manufacturer =>
      let order_id := order_id serializer in
      if bool_decide (review_exists reviews (User.pk user)
                        (User.pk manufacturer) order_id)
      then (Error (ValidationError (duplicate_message order_id)), reviews)
      else
        (* serializer.save(customer=user, manufacturer=manufacturer) *)
        let review :=
          Review.mk (User.pk user) (User.pk manufacturer) (rating serializer)
            (comment serializer) order_id in
        let id := uuid4 reviews in
        (OK (id, review), <[id := review]> reviews)
  end.

End ReviewListCreateView.

Module ReviewDetailView.

(** GET /api/reviews/{id}/ *)
Definition retrieve (reviews : gmap uuid Review.t) (request_user : RequestUser)
    (id : uuid) : Response Review.t :=
  match reviews !! id with
  | None => Error Http404
  | Some review =>
      if IsReviewOwnerOrReadOnly.has_object_permission GET request_user review
      then OK review
      else Error (permission_denied request_user default_detail)
  end.

(** DELETE /api/reviews/{id}/; the sources show no model that refers to
    a review, so deleting one removes its row. *)
Definition destroy (reviews : gmap uuid Review.t) (request_user : RequestUser)
    (id : uuid) : Response unit * gmap uuid Review.t :=
  match reviews !! id with
  | None => (Error Http404, reviews)
  | Some review =>
      if IsReviewOwnerOrReadOnly.has_object_permission DELETE request_user
           review
      then (OK tt, delete id reviews)
      else (Error (permission_denied request_user default_detail), reviews)
  end.

End ReviewDetailView.

(** * Specification vocabulary *)

(** ** Invariants of the tables *)

Definition one_order_per_quote (orders : gmap uuid Order.t) : Prop :=
  ∀ i j order1 order2,
    orders !! i = Some order1 → orders !! j = Some order2 →
    Order.accepted_quote order1 = Order.accepted_quote order2 → i = j.

Definition one_quote_per_pair (quotes : gmap uuid Quote.t) : Prop :=
  ∀ i j quote1 quote2,
    quotes !! i = Some quote1 → quotes !! j = Some quote2 →
    Quote.design quote1 = Quote.design quote2 →
    Quote.manufacturer quote1 = Quote.manufacturer quote2 → i = j.

(** The loop that rejects the other pending quotes of a design. *)
Definition rejected_siblings (quotes : gmap uuid Quote.t) (design_pk id : uuid)
    : gmap uuid Quote.t :=
  foldl (λ quotes row, alter (Quote.set_status REJECTED) row.1 quotes) quotes
        (QuoteDetailView.other_pending_quotes quotes design_pk id).

(** The order that [perform_update] creates for an accepted quote. *)
Definition order_for (now : Z) (id : uuid) (updated_quote : Quote.t)
    (design : Design.t) : Order.t :=
  Order.mk (Quote.design updated_quote) id (Design.customer design)
    (Quote.manufacturer updated_quote) (Quote.price_usd updated_quote)
    PENDING_PAYMENT now
    (Some (Order.date now + Quote.estimated_lead_time_days updated_quote)).

(** ** The acceptance cascade and the invariants it keeps *)

(** [perform_update] runs the acceptance cascade: the status moves to
    accepted from another status, and no order is linked to the quote. *)
Definition cascades (db : Database) (id : uuid) (quote : Quote.t)
    (validated : QuoteSerializer.validated_data) : Prop :=
  Quote.status quote ≠ ACCEPTED
  ∧ QuoteSerializer.status validated = Some ACCEPTED
  ∧ ¬ order_created_from (orders db) id.

#[global] Instance cascades_dec db id quote validated :
  Decision (cascades db id quote validated).
Proof. unfold cascades. apply _. Defined.

(** The design of every order is there and is ordered. *)
Definition orders_on_ordered_designs (db : Database) : Prop :=
  ∀ i order, orders db !! i = Some order →
    ∃ design, designs db !! Order.design order = Some design
              ∧ Design.status design = ORDERED.

(** No quote of an ordered design is pending. *)
Definition ordered_designs_have_no_pending_quote (db : Database) : Prop :=
  ∀ k quote design,
    quotes db !! k = Some quote →
    designs db !! Quote.design quote = Some design →
    Design.status design = ORDERED → Quote.status quote ≠ PENDING.

(** ** Reviews *)

(** At most one review of a customer for a manufacturer and an order, and
    at most one with no order. *)
Definition one_review_per_order (reviews : gmap uuid Review.t) : Prop :=
  ∀ i j review1 review2,
    reviews !! i = Some review1 → reviews !! j = Some review2 →
    Review.customer review1 = Review.customer review2 →
    Review.manufacturer review1 = Review.manufacturer review2 →
    Review.order_id review1 = Review.order_id review2 → i = j.

(** ** Pricing: the checks and the shapes of a result *)

Module pricing_spec.
Import decimal pricing.

(** [d.get(key, 0)]: the member that a conversion reads. *)
Definition get (d : gmap string member) (key : string) : member :=
  default (Number (of_Z 0)) (d !! key).

(** A member whose conversion returns, and one whose comparison with 0
    returns as well: any number, and any number that is no NaN. *)
Definition converts (m : member) : bool :=
  match m with
  | Number _ => true
  | NotANumber => false
  end.

Definition compares (m : member) : bool :=
  match m with
  | Number (Fin _) | Number (Inf _) => true
  | _ => false
  end.

(** The members on which the checks [x <= 0] and [x < 0] answer [True],
    and those on which they answer [False]. *)
Definition not_positive (m : member) : bool :=
  match m with
  | Number (Fin d) => le0 d
  | Number (Inf negative) => negative
  | _ => false
  end.

Definition negative (m : member) : bool :=
  match m with
  | Number (Fin d) => lt0 d
  | Number (Inf negative) => negative
  | _ => false
  end.

Definition positive (m : member) : bool :=
  match m with
  | Number (Fin d) => bool_decide (0 < coef d)
  | Number (Inf negative) => negb negative
  | _ => false
  end.

Definition not_negative (m : member) : bool :=
  match m with
  | Number (Fin d) => bool_decide (0 ≤ coef d)
  | Number (Inf negative) => negb negative
  | _ => false
  end.

(** The validation errors of each section, as the spec lists them. *)
Definition volume_errors (volume_cm3 : member) : list string :=
  if not_positive volume_cm3
  then ["Design volume must be a positive value."] else [].

Definition material_errors (design_material_name : string)
    (material_properties_map : gmap string (gmap string member)) : list string :=
  match material_properties_map !! design_material_name with
  | Some props =>
      ((if not_positive (get props "density_g_cm3")
        then ["Density for material '" +:+ design_material_name
              +:+ "' must be positive."] else [])
       ++ (if negative (get props "cost_usd_kg")
           then ["Cost per kg for material '" +:+ design_material_name
                 +:+ "' must be non-negative."] else []))%list
  | None =>
      ["Manufacturer does not have pricing information for material: "
       +:+ design_material_name]
  end.

Definition machining_errors (machining_factors : gmap string member)
    : list string :=
  ((if negative (get machining_factors "base_time_cost_unit")
    then ["Base time cost unit cannot be negative."] else [])
   ++ (if negative (get machining_factors "time_multiplier_complexity_cost_unit")
       then ["Time multiplier cost unit cannot be negative."] else []))%list.

Definition markup_errors (manufacturer_markup : Decimal) : list string :=
  if le0 manufacturer_markup
  then ["Manufacturer markup factor must be positive."] else [].

(** The inputs that [calculate_quote_price] reads. *)
Definition geometric_data (design : Design.t) : gmap string member :=
  default ∅ (Design.geometric_data design).
Definition volume_cm3 (design : Design.t) : member :=
  get (geometric_data design) "volume_cm3".
Definition complexity_score (design : Design.t) : member :=
  get (geometric_data design) "complexity_score".
Definition pricing_factors (manufacturer : Manufacturer.t)
    : Manufacturer.PricingFactors :=
  default (Manufacturer.mkPricingFactors None None None)
    (Manufacturer.pricing_factors
       (default (Manufacturer.mkCapabilities None)
          (Manufacturer.capabilities manufacturer))).
Definition material_properties_map (manufacturer : Manufacturer.t)
    : gmap string (gmap string member) :=
  default ∅ (Manufacturer.material_properties (pricing_factors manufacturer)).
Definition machining_factors (manufacturer : Manufacturer.t)
    : gmap string member :=
  default ∅ (Manufacturer.machining (pricing_factors manufacturer)).

(** Every conversion of [calculate_quote_price] returns and every
    comparison answers: the members it converts are numbers, and those it
    compares with 0 are no NaN.  The members of a material are read when
    the manufacturer prices the material of the design. *)
Definition material_answers (design_material_name : string)
    (material_properties_map : gmap string (gmap string member)) : bool :=
  match material_properties_map !! design_material_name with
  | Some props =>
      converts (get props "density_g_cm3")
      && converts (get props "cost_usd_kg")
      && compares (get props "density_g_cm3")
      && compares (get props "cost_usd_kg")
  | None => true
  end.

Definition machining_answers (machining_factors : gmap string member) : bool :=
  converts (get machining_factors "base_time_cost_unit")
  && converts (get machining_factors "time_multiplier_complexity_cost_unit")
  && compares (get machining_factors "base_time_cost_unit")
  && compares (get machining_factors "time_multiplier_complexity_cost_unit").

Definition checks_answer (design : Design.t) (manufacturer : Manufacturer.t)
    : bool :=
  converts (volume_cm3 design)
  && converts (complexity_score design)
  && compares (volume_cm3 design)
  && material_answers (Design.material design)
       (material_properties_map manufacturer)
  && machining_answers (machining_factors manufacturer).

(** The errors recorded once the material section, the machining section
    and the markup check are done. *)
Definition errors_after_material (design : Design.t)
    (manufacturer : Manufacturer.t) : list string :=
  (volume_errors (volume_cm3 design)
   ++ material_errors (Design.material design)
        (material_properties_map manufacturer))%list.
Definition errors_after_machining (design : Design.t)
    (manufacturer : Manufacturer.t) : list string :=
  (errors_after_material design manufacturer
   ++ machining_errors (machining_factors manufacturer))%list.
Definition validation_errors (design : Design.t)
    (manufacturer : Manufacturer.t) : list string :=
  (errors_after_machining design manufacturer
   ++ markup_errors (Manufacturer.markup_factor manufacturer))%list.

End pricing_spec.

(** ** Fixtures *)

Module fixtures.
Import decimal.
(** The fixtures of [QuoteAPITests.setUp] and [test_customer_accept_quote]. *)
Definition customer1 := User.mk 1%N false CUSTOMER.
Definition manufacturer1 := User.mk 2%N false MANUFACTURER.
Definition manufacturer2 := User.mk 3%N false MANUFACTURER.
Definition manufacturer3 := User.mk 5%N false MANUFACTURER.
Definition admin_user := User.mk 4%N true (OTHER_ROLE "admin").
Definition design_c1_analyzed :=
  Design.mk 1%N ANALYSIS_COMPLETE "PLA"
    (Some {["volume_cm3" := Number (of_Z 100)]}).
Definition design_c1_pending := Design.mk 1%N PENDING_ANALYSIS "ABS" None.
Definition quote_mf1_design_c1 :=
  Quote.mk 10%N 2%N (mk 15000 (-2)) 10 PENDING None.
Definition quote_mf2_design_c1 :=
  Quote.mk 10%N 3%N (mk 18000 (-2)) 12 PENDING None.
Definition db : Database :=
  mkDatabase {[ 10%N := design_c1_analyzed; 11%N := design_c1_pending ]}
             {[ 20%N := quote_mf1_design_c1; 21%N := quote_mf2_design_c1 ]} ∅.
(** The pricing example of the spec: 2 g/cm3 and 10 $/kg for PLA, base
    time cost 5, time multiplier 2, markup factor 1.5; a design of
    100 cm3 and complexity 3. *)
Definition manufacturer_profile : Manufacturer.t :=
  Manufacturer.mk
    (Some (Manufacturer.mkCapabilities
       (Some (Manufacturer.mkPricingFactors
          (Some {[ "PLA" := {[ "density_g_cm3" := Number (of_Z 2);
                               "cost_usd_kg" := Number (of_Z 10) ]} ]})
          (Some {[ "base_time_cost_unit" := Number (of_Z 5);
                   "time_multiplier_complexity_cost_unit" := Number (of_Z 2) ]})
          None))))
    (mk 15 (-1)).
Definition design_pla : Design.t :=
  Design.mk 1%N ANALYSIS_COMPLETE "PLA"
    (Some {[ "volume_cm3" := Number (of_Z 100);
             "complexity_score" := Number (of_Z 3) ]}).
Definition design_huge : Design.t :=
  Design.mk 1%N ANALYSIS_COMPLETE "PLA"
    (Some {[ "volume_cm3" := Number (mk 1 30);
             "complexity_score" := Number (of_Z 3) ]}).
Definition design_negative : Design.t :=
  Design.mk 1%N ANALYSIS_COMPLETE "PLA"
    (Some {[ "volume_cm3" := Number (of_Z (-1));
             "complexity_score" := Number (of_Z 3) ]}).
Definition manufacturer_null : Manufacturer.t :=
  Manufacturer.mk
    (Some (Manufacturer.mkCapabilities
       (Some (Manufacturer.mkPricingFactors
          (Some {[ "PLA" := {[ "density_g_cm3" := Number (of_Z 2);
                               "cost_usd_kg" := Number (of_Z 10) ]} ]})
          (Some {[ "base_time_cost_unit" := NotANumber;
                   "time_multiplier_complexity_cost_unit" := Number (of_Z 2) ]})
          None))))
    (mk 15 (-1)).
(** A manufacturer with a negative base time cost, a negative time
    multiplier and a markup factor of 0. *)
Definition manufacturer_faulty : Manufacturer.t :=
  Manufacturer.mk
    (Some (Manufacturer.mkCapabilities
       (Some (Manufacturer.mkPricingFactors
          (Some {[ "PLA" := {[ "density_g_cm3" := Number (of_Z 2);
                               "cost_usd_kg" := Number (of_Z 10) ]} ]})
          (Some {[ "base_time_cost_unit" := Number (of_Z (-5));
                   "time_multiplier_complexity_cost_unit" :=
                     Number (of_Z (-2)) ]})
          None))))
    (mk 0 0).
(** [{"status": "accepted"}] and other request bodies *)
Definition only_status (raw : string) : Data.t :=
  Data.mk (Some raw) None None None 0.
(** A design owner who is also staff accepts the first quote, then sets
    both quotes back to pending. *)
Definition staff_owner := User.mk 1%N true CUSTOMER.
Definition db_accepted : Database :=
  (QuoteDetailView.patch db 1000000 (Authenticated staff_owner) 20%N
     (only_status "accepted")).2.
Definition db_reopened : Database :=
  (QuoteDetailView.patch
     (QuoteDetailView.patch db_accepted 1000060 (Authenticated staff_owner)
        20%N (only_status "pending")).2
     1000120 (Authenticated staff_owner) 21%N (only_status "pending")).2.
(** The fixtures of [ReviewAPITests.setUp]. *)
Definition customer2 := User.mk 6%N false CUSTOMER.
Definition users : gmap uuid User.t :=
  {[ 1%N := customer1; 2%N := manufacturer1; 3%N := manufacturer2;
     4%N := admin_user; 6%N := customer2 ]}.
Definition review_c1_mf1 := Review.mk 1%N 2%N 5 "Excellent service!" None.
Definition review_c2_mf1_order :=
  Review.mk 6%N 2%N 4 "Good, but a bit slow." (Some 40%N).
Definition reviews : gmap uuid Review.t :=
  {[ 30%N := review_c1_mf1; 31%N := review_c2_mf1_order ]}.
End fixtures.

(** * Properties *)

(** ** Tables *)

Lemma uuid4_fresh {A} (table : gmap uuid A) : table !! uuid4 table = None.
Proof. apply not_elem_of_dom, is_fresh. Qed.

Lemma order_created_from_insert orders order_id order quote_id :
  orders !! order_id = None →
  order_created_from (<[order_id := order]> orders) quote_id
  ↔ Order.accepted_quote order = quote_id ∨ order_created_from orders quote_id.
Proof. intros Hfresh. unfold order_created_from. by rewrite map_Exists_insert. Qed.

(** Saving a fixed change to the rows of a list of keys, one by one, changes
    exactly the rows of these keys. *)
Lemma foldl_alter_lookup {A} (f : A → A) (rows : list (uuid * A))
    (table : gmap uuid A) (k : uuid) :
  (∀ x, f (f x) = f x) →
  foldl (λ table row, alter f row.1 table) table rows !! k
  = if decide (k ∈ rows.*1) then f <$> table !! k else table !! k.
Proof.
  intros Hidem. revert table.
  induction rows as [|row rows IH]; intros table; cbn [foldl fmap list_fmap].
  - destruct (decide (k ∈ [])) as [Hin|_]; [by apply elem_of_nil in Hin | done].
  - rewrite IH, lookup_alter.
    destruct (decide (k ∈ rows.*1)) as [Hin|Hin];
      destruct (decide (row.1 = k)) as [Heq|Hne].
    + rewrite decide_True by (rewrite <- Heq; left).
      rewrite Heq. destruct (table !! k); simpl; by rewrite ?Hidem.
    + by rewrite decide_True by (by right).
    + rewrite decide_True by (rewrite <- Heq; left). by rewrite Heq.
    + rewrite decide_False; [done|].
      intros [?|?]%elem_of_cons; congruence.
Qed.

Lemma elem_of_other_pending_quotes quotes design_pk id k :
  k ∈ (QuoteDetailView.other_pending_quotes quotes design_pk id).*1
  ↔ ∃ quote, quotes !! k = Some quote ∧ Quote.design quote = design_pk
             ∧ Quote.status quote = PENDING ∧ k ≠ id.
Proof.
  unfold QuoteDetailView.other_pending_quotes. rewrite list_elem_of_fmap. split.
  - intros [[k' quote] [-> Hin]]. apply elem_of_map_to_list in Hin.
    apply map_lookup_filter_Some in Hin as [Hlook Hp]. simpl in *. eauto.
  - intros (quote & Hlook & Hp). exists (k, quote). split; [done|].
    apply elem_of_map_to_list, map_lookup_filter_Some. by split.
Qed.

Lemma rejected_siblings_self quotes design_pk id :
  rejected_siblings quotes design_pk id !! id = quotes !! id.
Proof.
  unfold rejected_siblings. rewrite foldl_alter_lookup by by intros [].
  rewrite decide_False; [done|].
  rewrite elem_of_other_pending_quotes. by intros (? & _ & _ & _ & ?).
Qed.

Lemma rejected_siblings_pending quotes design_pk id k quote :
  quotes !! k = Some quote → Quote.design quote = design_pk →
  Quote.status quote = PENDING → k ≠ id →
  rejected_siblings quotes design_pk id !! k
  = Some (Quote.set_status REJECTED quote).
Proof.
  intros Hlook Hd Hs Hne.
  unfold rejected_siblings. rewrite foldl_alter_lookup by by intros [].
  rewrite decide_True; [by rewrite Hlook|].
  rewrite elem_of_other_pending_quotes. eauto.
Qed.

Lemma rejected_siblings_other quotes design_pk id k quote :
  quotes !! k = Some quote →
  Quote.design quote ≠ design_pk ∨ Quote.status quote ≠ PENDING →
  rejected_siblings quotes design_pk id !! k = Some quote.
Proof.
  intros Hlook Hnot.
  unfold rejected_siblings. rewrite foldl_alter_lookup by by intros [].
  rewrite decide_False; [done|].
  rewrite elem_of_other_pending_quotes.
  intros (quote' & Hlook' & Hd & Hs & _).
  rewrite Hlook in Hlook'. injection Hlook' as <-. by destruct Hnot.
Qed.

Lemma rejected_siblings_keeps_pair quotes design_pk id k quote :
  rejected_siblings quotes design_pk id !! k = Some quote →
  ∃ quote0, quotes !! k = Some quote0
            ∧ Quote.design quote = Quote.design quote0
            ∧ Quote.manufacturer quote = Quote.manufacturer quote0.
Proof.
  unfold rejected_siblings. rewrite foldl_alter_lookup by by intros [].
  case_decide; destruct (quotes !! k) as [quote0|] eqn:Hlook;
    simpl; intros [= <-]; eauto.
Qed.

(** ** The serializer *)


Lemma to_internal_value_Some raw s :
  QuoteSerializer.to_internal_value raw = Some s → raw = QuoteStatus_value s.
Proof.
  unfold QuoteSerializer.to_internal_value.
  repeat case_bool_decide; intros [= <-]; done.
Qed.

Lemma run_field_validation_patch data validated :
  QuoteSerializer.run_field_validation true data = OK validated →
  validated = QuoteSerializer.mkValidated
                (Data.status data ≫= QuoteSerializer.to_internal_value)
                (Data.price_usd data) (Data.estimated_lead_time_days data)
                (Data.notes data)
  ∧ (∀ raw, Data.status data = Some raw →
            ∃ s, QuoteSerializer.to_internal_value raw = Some s).
Proof.
  unfold QuoteSerializer.run_field_validation. simpl.
  destruct (Data.status data) as [raw|]; simpl.
  - destruct (QuoteSerializer.to_internal_value raw) as [s|] eqn:Hraw;
      intros [= <-]. split; [done|]. intros ? [= <-]. eauto.
  - intros [= <-]. split; [done|]. intros ? [=].
Qed.

Lemma validate_OK request_user instance data validated :
  QuoteSerializer.validate request_user instance data = OK validated →
  validated = data.
Proof.
  unfold QuoteSerializer.validate.
  destruct instance as [[quote design]|]; [|by intros [= <-]].
  case_bool_decide; [done|].
  destruct (QuoteSerializer.status data); [|by intros [= <-]].
  destruct request_user as [|user]; [done|].
  repeat case_bool_decide;
    repeat (match goal with |- context [if ?b then _ else _] => destruct b end);
    by intros [= <-].
Qed.

(** ** [QuoteDetailView]: what a successful PATCH went through *)

Lemma patch_OK db now request_user id data body db' :
  QuoteDetailView.patch db now request_user id data = (OK body, db') →
  ∃ user quote design validated,
    request_user = Authenticated user
    ∧ QuoteDetailView.get_object db id = Some (quote, design)
    ∧ CanUpdateQuote.has_object_permission user data quote design = Granted
    ∧ QuoteSerializer.run_field_validation true data = OK validated
    ∧ QuoteSerializer.validate request_user (Some (quote, design)) validated
      = OK validated
    ∧ body = QuoteSerializer.update quote validated
    ∧ db' = QuoteDetailView.perform_update db now id quote design validated.
Proof.
  unfold QuoteDetailView.patch.
  destruct request_user as [|user]; [done|].
  destruct (QuoteDetailView.get_object db id) as [[quote design]|]; [|done].
  destruct (CanUpdateQuote.has_object_permission _ _ _ _) eqn:Hperm; [|done].
  destruct (QuoteSerializer.run_field_validation _ _) as [validated|] eqn:Hfields;
    [|done].
  destruct (QuoteSerializer.validate _ _ _) as [validated'|] eqn:Hvalid; [|done].
  intros [= <- <-].
  pose proof (validate_OK _ _ _ _ Hvalid) as ->.
  by exists user, quote, design, validated.
Qed.

Lemma patch_Error db now request_user id data e db' :
  QuoteDetailView.patch db now request_user id data = (Error e, db') → db' = db.
Proof.
  unfold QuoteDetailView.patch.
  repeat (match goal with
          | |- context [match ?x with _ => _ end] => destruct x
          end); by intros [= <-].
Qed.

Lemma get_object_Some db id quote design :
  QuoteDetailView.get_object db id = Some (quote, design)
  ↔ quotes db !! id = Some quote ∧ designs db !! Quote.design quote = Some design.
Proof.
  unfold QuoteDetailView.get_object. split.
  - destruct (quotes db !! id) as [quote'|]; simpl; [|done].
    destruct (designs db !! Quote.design quote') as [design'|] eqn:Hd;
      simpl; [|done].
    by intros [= <- <-].
  - intros [-> Hd]. simpl. by rewrite Hd.
Qed.

(** ** The acceptance cascade of [perform_update] *)

Section perform_update.
Variables (db : Database) (now : Z) (id : uuid).
Variables (quote : Quote.t) (design : Design.t).
Variable validated : QuoteSerializer.validated_data.

Let updated_quote := QuoteSerializer.update quote validated.
Let db' := QuoteDetailView.perform_update db now id quote design validated.

(** Off the edge to accepted, or when an order is already linked to the
    quote, only the quote's row is written. *)
Lemma perform_update_no_cascade :
  Quote.status quote = ACCEPTED
  ∨ default (Quote.status quote) (QuoteSerializer.status validated) ≠ ACCEPTED
  ∨ order_created_from (orders db) id →
  db' = mkDatabase (designs db) (<[id := updated_quote]> (quotes db)) (orders db).
Proof.
  intros Hoff. unfold db', QuoteDetailView.perform_update. cbn [quotes orders designs].
  destruct Hoff as [Hacc|[Hnew|Hguard]].
  - by rewrite bool_decide_false by (by intros []).
  - rewrite (bool_decide_false (_ = ACCEPTED)) by done.
    by rewrite andb_false_r.
  - rewrite (bool_decide_true (order_created_from _ _)) by done.
    by destruct (_ && _).
Qed.

(** On the edge, with no order linked yet, the whole cascade runs. *)
Lemma perform_update_cascade :
  Quote.status quote ≠ ACCEPTED →
  QuoteSerializer.status validated = Some ACCEPTED →
  ¬ order_created_from (orders db) id →
  db' = mkDatabase
          (if bool_decide (Design.status design ≠ ORDERED)
           then alter (Design.set_status ORDERED) (Quote.design quote) (designs db)
           else designs db)
          (rejected_siblings (<[id := updated_quote]> (quotes db))
             (Quote.design quote) id)
          (<[uuid4 (orders db) := order_for now id updated_quote design]>
             (orders db)).
Proof.
  intros Hedge Hnew Hguard.
  unfold db', QuoteDetailView.perform_update. cbn [quotes orders designs].
  rewrite Hnew. cbn [default].
  rewrite !bool_decide_true by done. cbn [andb].
  by rewrite bool_decide_false by done.
Qed.

(** Either way the orders are unchanged, or one order was added under a
    fresh key, for this quote, on the edge, with no order linked before. *)
Lemma perform_update_orders :
  orders db' = orders db
  ∨ (Quote.status quote ≠ ACCEPTED
     ∧ QuoteSerializer.status validated = Some ACCEPTED
     ∧ ¬ order_created_from (orders db) id
     ∧ orders db'
       = <[uuid4 (orders db) := order_for now id updated_quote design]>
           (orders db)).
Proof.
  destruct (decide (Quote.status quote = ACCEPTED)) as [Hacc|Hedge].
  { left. by rewrite perform_update_no_cascade by auto. }
  destruct (decide (default (Quote.status quote)
                      (QuoteSerializer.status validated) = ACCEPTED))
    as [Hnew|Hnew]; [|left; by rewrite perform_update_no_cascade by auto].
  destruct (decide (order_created_from (orders db) id)) as [Hguard|Hguard].
  { left. by rewrite perform_update_no_cascade by auto. }
  assert (QuoteSerializer.status validated = Some ACCEPTED) as Hsome.
  { destruct (QuoteSerializer.status validated); simpl in Hnew; congruence. }
  right. by rewrite perform_update_cascade.
Qed.

(** The quotes keep their design and manufacturer. *)
Lemma perform_update_keeps_pair k quote' :
  quotes db !! id = Some quote →
  quotes db' !! k = Some quote' →
  ∃ quote0, quotes db !! k = Some quote0
            ∧ Quote.design quote' = Quote.design quote0
            ∧ Quote.manufacturer quote' = Quote.manufacturer quote0.
Proof.
  intros Hid.
  assert (∀ quote1, <[id := updated_quote]> (quotes db) !! k = Some quote1 →
            ∃ quote0, quotes db !! k = Some quote0
                      ∧ Quote.design quote1 = Quote.design quote0
                      ∧ Quote.manufacturer quote1 = Quote.manufacturer quote0)
    as Hsaved.
  { intros quote1. rewrite lookup_insert. case_decide as Hk.
    - intros [= <-]. subst k. by exists quote.
    - intros ?. by exists quote1. }
  destruct (decide (Quote.status quote ≠ ACCEPTED
                    ∧ QuoteSerializer.status validated = Some ACCEPTED
                    ∧ ¬ order_created_from (orders db) id)) as [(?&?&?)|Hoff].
  - rewrite perform_update_cascade by done. cbn [quotes].
    intros (quote1 & Hlook & -> & ->)%rejected_siblings_keeps_pair.
    by apply Hsaved.
  - rewrite perform_update_no_cascade; [by apply Hsaved|].
    destruct (decide (Quote.status quote = ACCEPTED)); [by left|].
    destruct (decide (order_created_from (orders db) id)); [by auto|].
    right; left. intros Hnew. apply Hoff. split_and!; [done| |done].
    destruct (QuoteSerializer.status validated); simpl in Hnew; congruence.
Qed.

End perform_update.

(** ** [QuoteListCreateView]: what a POST does *)

Lemma perform_create_duplicate db user design_id design serializer :
  designs db !! design_id = Some design →
  QuoteListCreateView.quote_exists (quotes db) design_id (User.pk user) →
  QuoteListCreateView.perform_create db user (Some design_id) serializer
  = (Error (ValidationError QuoteListCreateView.duplicate_message), db).
Proof.
  intros Hdesign Hexists. unfold QuoteListCreateView.perform_create.
  by rewrite Hdesign, bool_decide_true.
Qed.

Lemma perform_create_OK db user design_id serializer id quote db' :
  QuoteListCreateView.perform_create db user design_id serializer
  = (OK (id, quote), db') →
  ∃ design_pk,
    design_id = Some design_pk
    ∧ ¬ QuoteListCreateView.quote_exists (quotes db) design_pk (User.pk user)
    ∧ quotes db !! id = None
    ∧ Quote.design quote = design_pk ∧ Quote.manufacturer quote = User.pk user
    ∧ db' = mkDatabase (designs db) (<[id := quote]> (quotes db)) (orders db).
Proof.
  unfold QuoteListCreateView.perform_create.
  destruct design_id as [design_pk|]; [|done].
  destruct (designs db !! design_pk); [|done].
  case_bool_decide as Hexists; [done|].
  destruct (QuoteSerializer.create _ _ _) as [quote'|] eqn:Hcreate; [|done].
  intros [= <- <- <-]. exists design_pk. split_and!; try done.
  - apply uuid4_fresh.
  - unfold QuoteSerializer.create in Hcreate.
    destruct (QuoteSerializer.price_usd serializer),
      (QuoteSerializer.estimated_lead_time_days serializer);
      simpl in Hcreate; by simplify_eq.
  - unfold QuoteSerializer.create in Hcreate.
    destruct (QuoteSerializer.price_usd serializer),
      (QuoteSerializer.estimated_lead_time_days serializer);
      simpl in Hcreate; by simplify_eq.
Qed.

Lemma perform_create_Error db user design_id serializer e db' :
  QuoteListCreateView.perform_create db user design_id serializer = (Error e, db') →
  db' = db.
Proof.
  unfold QuoteListCreateView.perform_create.
  repeat (match goal with
          | |- context [match ?x with _ => _ end] => destruct x
          end); by intros [= <-].
Qed.

(** What a POST does to the database: nothing, or one quote is added under
    a fresh key, by the actor, for a design the actor had not quoted yet. *)
Lemma post_quotes db request_user design_id data :
  let result := QuoteListCreateView.post db request_user design_id data in
  (∃ e, result = (Error e, db))
  ∨ ∃ user design_pk id quote,
      request_user = Authenticated user ∧ design_id = Some design_pk
      ∧ CanCreateQuoteForDesign.has_permission request_user design_id (designs db)
        = Granted
      ∧ ¬ QuoteListCreateView.quote_exists (quotes db) design_pk (User.pk user)
      ∧ quotes db !! id = None
      ∧ Quote.design quote = design_pk ∧ Quote.manufacturer quote = User.pk user
      ∧ result = (OK (id, quote),
                  mkDatabase (designs db) (<[id := quote]> (quotes db)) (orders db)).
Proof.
  unfold QuoteListCreateView.post.
  destruct request_user as [|user]; [left; eauto|].
  destruct (CanCreateQuoteForDesign.has_permission _ _ _) eqn:Hcheck;
    [|left; eauto].
  destruct (QuoteSerializer.run_field_validation _ _) as [validated|];
    [|left; eauto].
  cbn [QuoteSerializer.validate].
  destruct (QuoteListCreateView.perform_create db user design_id validated)
    as [[[id quote]|e] db'] eqn:Hcreate.
  - right. apply perform_create_OK in Hcreate
      as (design_pk & -> & Hnew & Hfresh & Hd & Hm & ->).
    by exists user, design_pk, id, quote.
  - left. apply perform_create_Error in Hcreate as ->. eauto.
Qed.

Lemma one_quote_per_pair_insert quotes id quote :
  one_quote_per_pair quotes →
  quotes !! id = None →
  ¬ QuoteListCreateView.quote_exists quotes (Quote.design quote)
      (Quote.manufacturer quote) →
  one_quote_per_pair (<[id := quote]> quotes).
Proof.
  intros Hone Hfresh Hnew i j quote1 quote2.
  rewrite !lookup_insert. repeat case_decide; subst.
  - done.
  - intros [= <-] Hj Hd Hm. destruct Hnew. by exists j, quote2.
  - intros Hi [= <-] Hd Hm. destruct Hnew. by exists i, quote1.
  - apply Hone.
Qed.

Lemma post_keeps_one_quote_per_pair db request_user design_id data :
  one_quote_per_pair (quotes db) →
  one_quote_per_pair
    (quotes (QuoteListCreateView.post db request_user design_id data).2).
Proof.
  intros Hone.
  destruct (post_quotes db request_user design_id data)
    as [[e ->]|(user & design_pk & id & quote & _ & _ & _ & Hnew & Hfresh
                & Hd & Hm & ->)]; [done|].
  apply one_quote_per_pair_insert; [done..|]. by rewrite Hd, Hm.
Qed.

Lemma patch_keeps_one_quote_per_pair db now request_user id data :
  one_quote_per_pair (quotes db) →
  one_quote_per_pair
    (quotes (QuoteDetailView.patch db now request_user id data).2).
Proof.
  intros Hone.
  destruct (QuoteDetailView.patch db now request_user id data)
    as [[body|e] db'] eqn:Hpatch; cbn [snd].
  - apply patch_OK in Hpatch
      as (user & quote & design & validated & _ & Hobj & _ & _ & _ & _ & ->).
    apply get_object_Some in Hobj as [Hquote _].
    intros i j quote1 quote2
      (quote1' & Hi & -> & ->)%perform_update_keeps_pair
      (quote2' & Hj & -> & ->)%perform_update_keeps_pair; [|done..].
    by apply Hone.
  - by apply patch_Error in Hpatch as ->.
Qed.

(** ** Accepting a quote (C1, C2) *)

(** C1, as amended: for every quote Q in status pending with no order linked
    to it yet, when a PATCH that sets status to accepted succeeds (the actor
    is authorized and the body valid), then after the update Q is accepted;
    one order was added, referencing Q, with Q's price as total, Q's
    manufacturer, the customer of Q's design and the acceptance date plus
    Q's lead-time days as estimated delivery date; Q's design is ordered;
    every other quote of the design that was pending is rejected, and the
    remaining quotes are as they were. *)
Theorem accept_pending_quote_creates_order
    db now request_user id data quote design body db' :
  quotes db !! id = Some quote →
  designs db !! Quote.design quote = Some design →
  Quote.status quote = PENDING →
  Data.status data = Some "accepted" →
  ¬ order_created_from (orders db) id →
  QuoteDetailView.patch db now request_user id data = (OK body, db') →
  (quotes db' !! id = Some body ∧ Quote.status body = ACCEPTED
   ∧ (Data.price_usd data = None → Quote.price_usd body = Quote.price_usd quote)
   ∧ (Data.estimated_lead_time_days data = None →
      Quote.estimated_lead_time_days body = Quote.estimated_lead_time_days quote))
  ∧ (∃ order_id order,
       orders db !! order_id = None
       ∧ orders db' = <[order_id := order]> (orders db)
       ∧ Order.accepted_quote order = id
       ∧ Order.design order = Quote.design quote
       ∧ Order.order_total_price_usd order = Quote.price_usd body
       ∧ Order.manufacturer order = Quote.manufacturer quote
       ∧ Order.customer order = Design.customer design
       ∧ Order.status order = PENDING_PAYMENT
       ∧ Order.estimated_delivery_date order
         = Some (Order.date now + Quote.estimated_lead_time_days body))
  ∧ (∃ design', designs db' !! Quote.design quote = Some design'
                ∧ Design.status design' = ORDERED)
  ∧ (∀ k other, k ≠ id → quotes db !! k = Some other →
       Quote.design other = Quote.design quote → Quote.status other = PENDING →
       quotes db' !! k = Some (Quote.set_status REJECTED other))
  ∧ (∀ k other, k ≠ id → quotes db !! k = Some other →
       Quote.design other ≠ Quote.design quote ∨ Quote.status other ≠ PENDING →
       quotes db' !! k = Some other).
Proof.
  intros Hquote Hdesign Hpending Hdata Hguard Hpatch.
  apply patch_OK in Hpatch
    as (user & quote' & design' & validated & -> & Hobj & _ & Hfields & _ & -> & ->).
  apply get_object_Some in Hobj as [Hquote' Hdesign'].
  rewrite Hquote in Hquote'. injection Hquote' as <-.
  rewrite Hdesign in Hdesign'. injection Hdesign' as <-.
  apply run_field_validation_patch in Hfields as [-> _].
  rewrite Hdata. cbn [mbind option_bind].
  change (QuoteSerializer.to_internal_value "accepted") with (Some ACCEPTED).
  set (validated := QuoteSerializer.mkValidated _ _ _ _).
  rewrite perform_update_cascade by (done || by rewrite Hpending).
  cbn [quotes orders designs].
  split; [|split; [|split; [|split]]].
  - rewrite rejected_siblings_self, lookup_insert_eq. split; [done|].
    split; [done|]. split; intros Hnone; simpl; by rewrite Hnone.
  - exists (uuid4 (orders db)), (order_for now id (QuoteSerializer.update quote validated) design).
    split; [apply uuid4_fresh|done].
  - case_bool_decide as Hordered.
    + exists (Design.set_status ORDERED design).
      by rewrite lookup_alter_eq, Hdesign.
    + exists design. split; [done|].
      by destruct (decide (Design.status design = ORDERED)).
  - intros k other Hk Hother Hsame Hpend.
    apply rejected_siblings_pending; [|done..].
    by rewrite lookup_insert_ne.
  - intros k other Hk Hother Hnot.
    apply rejected_siblings_other; [|done].
    by rewrite lookup_insert_ne.
Qed.

Lemma accept_pending_quote_creates_order_witness :
  let db := fixtures.db in
  let result :=
    QuoteDetailView.patch db 1000000 (Authenticated fixtures.customer1) 20%N
      (fixtures.only_status "accepted") in
  quotes db !! 20%N = Some fixtures.quote_mf1_design_c1
  ∧ result.1 = OK (Quote.set_status ACCEPTED fixtures.quote_mf1_design_c1)
  ∧ (∃ order_id order,
       orders result.2 = <[order_id := order]> ∅
       ∧ Order.accepted_quote order = 20%N
       ∧ Order.order_total_price_usd order = decimal.mk 15000 (-2)
       ∧ Order.estimated_delivery_date order = Some 21)
  ∧ (∃ design', designs result.2 !! 10%N = Some design'
                ∧ Design.status design' = ORDERED)
  ∧ quotes result.2 !! 21%N
    = Some (Quote.set_status REJECTED fixtures.quote_mf2_design_c1).
Proof.
  pose proof (accept_pending_quote_creates_order
                fixtures.db 1000000 (Authenticated fixtures.customer1) 20%N
                (fixtures.only_status "accepted")
                fixtures.quote_mf1_design_c1 fixtures.design_c1_analyzed
                _ _ eq_refl eq_refl eq_refl eq_refl (map_Exists_empty _) eq_refl)
    as (_ & (order_id & order & _ & Horders & Hq & _ & Htotal & _ & _ & _ & Hdate)
          & Hdesign & Hothers & _).
  cbv zeta. split; [done|]. split; [done|]. split; [|split].
  - exists order_id, order. by rewrite Hq, Htotal, Hdate.
  - exact Hdesign.
  - by apply Hothers.
Defined.

(** C1, as stated, fails when an order is already linked to the pending
    quote: the staff owner of the design reopened quotes 20 and 21 after
    accepting 20; accepting 20 again succeeds, but no order is created and
    quote 21 stays pending. *)
Lemma accept_with_linked_order_counterexample :
  let db := fixtures.db_reopened in
  let result :=
    QuoteDetailView.patch db 2000000 (Authenticated fixtures.staff_owner) 20%N
      (fixtures.only_status "accepted") in
  quotes db !! 20%N = Some fixtures.quote_mf1_design_c1
  ∧ quotes db !! 21%N = Some fixtures.quote_mf2_design_c1
  ∧ Quote.status fixtures.quote_mf1_design_c1 = PENDING
  ∧ Quote.status fixtures.quote_mf2_design_c1 = PENDING
  ∧ result.1 = OK (Quote.set_status ACCEPTED fixtures.quote_mf1_design_c1)
  ∧ orders result.2 = orders db
  ∧ quotes result.2 !! 21%N = Some fixtures.quote_mf2_design_c1.
Proof. vm_compute. repeat split. Qed.

Lemma patch_orders db now request_user id data :
  let db' := (QuoteDetailView.patch db now request_user id data).2 in
  orders db' = orders db
  ∨ ∃ quote design validated,
      quotes db !! id = Some quote
      ∧ Quote.status quote ≠ ACCEPTED
      ∧ Data.status data = Some "accepted"
      ∧ ¬ order_created_from (orders db) id
      ∧ orders db'
        = <[uuid4 (orders db) :=
              order_for now id (QuoteSerializer.update quote validated) design]>
            (orders db).
Proof.
  destruct (QuoteDetailView.patch db now request_user id data)
    as [[body|e] db'] eqn:Hpatch; cbn [snd].
  - apply patch_OK in Hpatch
      as (user & quote & design & validated & -> & Hobj & _ & Hfields & _ & _ & ->).
    apply get_object_Some in Hobj as [Hquote _].
    destruct (perform_update_orders db now id quote design validated)
      as [Hsame|(Hedge & Hnew & Hguard & Hadded)]; [by left|right].
    exists quote, design, validated. split_and!; try done.
    apply run_field_validation_patch in Hfields as [-> _].
    cbn [QuoteSerializer.status] in Hnew.
    destruct (Data.status data) as [raw|]; [|done]. cbn in Hnew.
    by apply to_internal_value_Some in Hnew as ->.
  - left. by apply patch_Error in Hpatch as ->.
Qed.

Lemma one_order_per_quote_insert orders order_id order :
  one_order_per_quote orders →
  orders !! order_id = None →
  ¬ order_created_from orders (Order.accepted_quote order) →
  one_order_per_quote (<[order_id := order]> orders).
Proof.
  intros Hone Hfresh Hguard i j order1 order2.
  rewrite !lookup_insert. repeat case_decide; subst.
  - done.
  - intros [= <-] Hj Heq. destruct Hguard. by exists j, order2.
  - intros Hi [= <-] Heq. destruct Hguard. by exists i, order1.
  - apply Hone.
Qed.

(** C2: sending the accept update again to an accepted quote creates no
    order (the orders are unchanged, whatever the actor); an order is
    added only on the edge from a non-accepted status to accepted and only
    when no order is linked to the quote yet; so a PATCH keeps at most one
    order per quote; a POST creates no order at all. *)
Theorem reaccept_creates_no_second_order db now request_user id data :
  one_order_per_quote (orders db) →
  let db' := (QuoteDetailView.patch db now request_user id data).2 in
  (∀ quote, quotes db !! id = Some quote → Quote.status quote = ACCEPTED →
            Data.status data = Some "accepted" → orders db' = orders db)
  ∧ (orders db' ≠ orders db →
     ∃ quote, quotes db !! id = Some quote ∧ Quote.status quote ≠ ACCEPTED
              ∧ Data.status data = Some "accepted"
              ∧ ¬ order_created_from (orders db) id)
  ∧ one_order_per_quote (orders db')
  ∧ (∀ design_id data',
       orders (QuoteListCreateView.post db request_user design_id data').2
       = orders db).
Proof.
  intros Hone db'.
  assert (∀ design_id data',
            orders (QuoteListCreateView.post db request_user design_id data').2
            = orders db) as Hpost.
  { intros design_id data'.
    by destruct (post_quotes db request_user design_id data')
      as [[e ->]|(? & ? & ? & ? & _ & _ & _ & _ & _ & _ & _ & ->)]. }
  destruct (patch_orders db now request_user id data)
    as [Hsame|(quote & design & validated & Hquote & Hedge & Hdata & Hguard & Hadded)];
    fold db' in Hsame || fold db' in Hadded.
  - split; [done|]. split; [done|]. split; [by rewrite Hsame|done].
  - split; [|split; [|split]].
    + intros quote' Hquote' Hacc. congruence.
    + intros _. by exists quote.
    + rewrite Hadded. apply one_order_per_quote_insert; [done|apply uuid4_fresh|done].
    + done.
Qed.

Lemma reaccept_creates_no_second_order_witness :
  let db := fixtures.db_accepted in
  let db' :=
    (QuoteDetailView.patch db 2000000 (Authenticated fixtures.staff_owner) 20%N
       (fixtures.only_status "accepted")).2 in
  one_order_per_quote (orders db)
  ∧ quotes db !! 20%N = Some (Quote.set_status ACCEPTED fixtures.quote_mf1_design_c1)
  ∧ orders db' = orders db
  ∧ one_order_per_quote (orders db').
Proof.
  assert (one_order_per_quote (orders fixtures.db_accepted)) as Hone.
  { intros i j order1 order2.
    change (orders fixtures.db_accepted)
      with (<[uuid4 (∅ : gmap uuid Order.t) :=
                order_for 1000000 20%N
                  (Quote.set_status ACCEPTED fixtures.quote_mf1_design_c1)
                  fixtures.design_c1_analyzed]> (∅ : gmap uuid Order.t)).
    rewrite !lookup_insert, !lookup_empty.
    repeat case_decide; intros; congruence. }
  pose proof (reaccept_creates_no_second_order fixtures.db_accepted 2000000
                (Authenticated fixtures.staff_owner) 20%N
                (fixtures.only_status "accepted") Hone) as (Hsame & _ & Hone' & _).
  cbv zeta. split; [done|]. split; [done|]. split; [|done].
  by eapply Hsame.
Defined.

(** ** Who may change a status (C3) *)

Lemma status_only_data data new_status :
  Data.status data = Some new_status → Data.len data = 1%nat →
  data = fixtures.only_status new_status.
Proof.
  destruct data as [status price lead notes others]. unfold Data.len. simpl.
  intros ->. destruct price, lead, notes, others; simpl; by intros [=].
Qed.

Section has_object_permission.
Variables (user : User.t) (data : Data.t) (quote : Quote.t) (design : Design.t).
Variable new_status : string.
Hypothesis Hstaff : User.is_staff user = false.
Hypothesis Hdata : Data.status data = Some new_status.

Lemma permission_owner_status_only :
  Design.customer design = User.pk user → Data.len data = 1%nat →
  CanUpdateQuote.has_object_permission user data quote design
  = if bool_decide (Quote.status quote = PENDING
                    ∧ (new_status = "accepted" ∨ new_status = "rejected"))
    then Granted
    else Denied (CanUpdateQuote.customer_message (Quote.status quote) new_status).
Proof.
  intros Howner Hlen. unfold CanUpdateQuote.has_object_permission.
  rewrite Hstaff, Hdata, Hlen, (bool_decide_true (_ = User.pk user)) by done.
  cbn [orb negb]. rewrite (bool_decide_true (1%nat = 1%nat)) by done.
  cbn [QuoteStatus_value].
  repeat case_bool_decide; cbn [andb orb]; try done; exfalso; intuition congruence.
Qed.

Lemma permission_creator_status_only :
  Quote.manufacturer quote = User.pk user →
  Design.customer design ≠ User.pk user → Data.len data = 1%nat →
  CanUpdateQuote.has_object_permission user data quote design
  = if bool_decide (Quote.status quote = PENDING ∧ new_status = "expired")
    then Granted
    else Denied (CanUpdateQuote.manufacturer_message (Quote.status quote)
                   new_status).
Proof.
  intros Hcreator Hnot_owner Hlen. unfold CanUpdateQuote.has_object_permission.
  rewrite Hstaff, Hdata, Hlen, (bool_decide_false (_ = User.pk user)),
    (bool_decide_true (Quote.manufacturer quote = _)) by done.
  cbn [orb negb]. rewrite (bool_decide_true (1%nat = 1%nat)) by done.
  cbn [QuoteStatus_value].
  repeat case_bool_decide; cbn [andb orb]; try done; exfalso; intuition congruence.
Qed.

Lemma permission_mixed_update :
  Data.len data ≠ 1%nat →
  new_status ≠ QuoteStatus_value (Quote.status quote) →
  ∃ message,
    CanUpdateQuote.has_object_permission user data quote design = Denied message.
Proof.
  intros Hlen Hchange. unfold CanUpdateQuote.has_object_permission.
  rewrite Hstaff, Hdata, (bool_decide_false (Data.len data = _)) by done.
  rewrite (bool_decide_true (new_status ≠ _)) by done.
  repeat (match goal with |- context [if ?b then _ else _] => destruct b end);
    eauto.
Qed.
End has_object_permission.

(** C3, as amended: for a request by an actor who is not staff, on a quote
    whose design is not owned by its manufacturer: a status-only update by
    the design owner succeeds exactly when the quote is pending and the
    requested status is accepted or rejected, and is otherwise denied with
    the message naming the transition; a status-only update by the
    manufacturer who created the quote succeeds exactly when the quote is
    pending and the requested status is expired, and is otherwise denied
    with the message naming the transition; and a mixed update (a status
    change bundled with other members) is denied, whatever the role and the
    transition.  (The manufacturer's withdrawal of a pending quote bundled
    with other changes is left out of the statement.) *)
Theorem status_change_rules db now user id data quote design new_status :
  User.is_staff user = false →
  quotes db !! id = Some quote →
  designs db !! Quote.design quote = Some design →
  Design.customer design ≠ Quote.manufacturer quote →
  Data.status data = Some new_status →
  let result := QuoteDetailView.patch db now (Authenticated user) id data in
  (User.pk user = Design.customer design → Data.len data = 1%nat →
     if bool_decide (Quote.status quote = PENDING
                     ∧ (new_status = "accepted" ∨ new_status = "rejected"))
     then ∃ s, new_status = QuoteStatus_value s
               ∧ result.1 = OK (Quote.set_status s quote)
     else result = (Error (PermissionDenied
                      (CanUpdateQuote.customer_message (Quote.status quote)
                         new_status)), db))
  ∧ (User.pk user = Quote.manufacturer quote → Data.len data = 1%nat →
     if bool_decide (Quote.status quote = PENDING ∧ new_status = "expired")
     then result.1 = OK (Quote.set_status EXPIRED quote)
     else result = (Error (PermissionDenied
                      (CanUpdateQuote.manufacturer_message (Quote.status quote)
                         new_status)), db))
  ∧ (Data.len data ≠ 1%nat →
     new_status ≠ QuoteStatus_value (Quote.status quote) →
     ¬ (User.pk user = Quote.manufacturer quote ∧ Quote.status quote = PENDING
        ∧ new_status = "expired") →
     ∃ message, result = (Error (PermissionDenied message), db)).
Proof.
  intros Hstaff Hquote Hdesign Hinv Hdata result.
  assert (QuoteDetailView.get_object db id = Some (quote, design)) as Hobj
    by by apply get_object_Some.
  unfold result, QuoteDetailView.patch. rewrite Hobj. clear result.
  split; [|split].
  - intros Howner Hlen.
    rewrite (permission_owner_status_only _ _ _ _ new_status) by done.
    rewrite (status_only_data _ _ Hdata Hlen).
    case_bool_decide as Hrule; [|done].
    destruct Hrule as [Hpending [-> | ->]]; cbn;
      rewrite (bool_decide_false (Design.customer design = _)),
        (bool_decide_true (User.pk user = _)), Hpending by done; cbn.
    + by exists ACCEPTED.
    + by exists REJECTED.
  - intros Hcreator Hlen.
    rewrite (permission_creator_status_only _ _ _ _ new_status)
      by (done || congruence).
    rewrite (status_only_data _ _ Hdata Hlen).
    case_bool_decide as Hrule; [|done].
    destruct Hrule as [Hpending ->]; cbn.
    rewrite (bool_decide_false (Design.customer design = _)),
      (bool_decide_false (User.pk user = Design.customer design)),
      (bool_decide_true (User.pk user = _)), Hpending by (done || congruence).
    done.
  - intros Hlen Hchange _.
    destruct (permission_mixed_update user data quote design new_status)
      as [message ->]; eauto.
Qed.

Lemma status_change_rules_witness :
  let db := fixtures.db in
  let patch user data :=
    QuoteDetailView.patch db 1000000 (Authenticated user) 20%N data in
  (patch fixtures.customer1 (fixtures.only_status "rejected")).1
    = OK (Quote.set_status REJECTED fixtures.quote_mf1_design_c1)
  ∧ patch fixtures.customer1 (fixtures.only_status "expired")
    = (Error (PermissionDenied
               (CanUpdateQuote.customer_message PENDING "expired")), db)
  ∧ (patch fixtures.manufacturer1 (fixtures.only_status "expired")).1
    = OK (Quote.set_status EXPIRED fixtures.quote_mf1_design_c1)
  ∧ patch fixtures.manufacturer1 (fixtures.only_status "accepted")
    = (Error (PermissionDenied
               (CanUpdateQuote.manufacturer_message PENDING "accepted")), db)
  ∧ ∃ message,
      patch fixtures.manufacturer1
        (Data.mk (Some "accepted") (Some (decimal.mk 16000 (-2))) None None 0)
      = (Error (PermissionDenied message), db).
Proof.
  pose proof (λ user data new_status Hstaff,
              status_change_rules fixtures.db 1000000 user 20%N data
                fixtures.quote_mf1_design_c1 fixtures.design_c1_analyzed
                new_status Hstaff eq_refl eq_refl ltac:(by vm_compute))
    as Hrules.
  cbv zeta. split_and!.
  - destruct (Hrules fixtures.customer1 (fixtures.only_status "rejected")
                "rejected" eq_refl eq_refl) as [Howner _].
    destruct (Howner eq_refl eq_refl) as (s & Hs & ->).
    by destruct s.
  - destruct (Hrules fixtures.customer1 (fixtures.only_status "expired")
                "expired" eq_refl eq_refl) as [Howner _].
    exact (Howner eq_refl eq_refl).
  - destruct (Hrules fixtures.manufacturer1 (fixtures.only_status "expired")
                "expired" eq_refl eq_refl) as (_ & Hcreator & _).
    exact (Hcreator eq_refl eq_refl).
  - destruct (Hrules fixtures.manufacturer1 (fixtures.only_status "accepted")
                "accepted" eq_refl eq_refl) as (_ & Hcreator & _).
    exact (Hcreator eq_refl eq_refl).
  - destruct (Hrules fixtures.manufacturer1
                (Data.mk (Some "accepted") (Some (decimal.mk 16000 (-2)))
                   None None 0) "accepted" eq_refl eq_refl) as (_ & _ & Hmixed).
    apply Hmixed; [by vm_compute..|]. by intros (_ & _ & [=]).
Defined.

(** C3, as stated, fails for mixed updates: the design owner may accept the
    pending quote with a status-only update, but the same status change
    bundled with a note is denied. *)
Lemma mixed_update_counterexample :
  let db := fixtures.db in
  let patch data :=
    QuoteDetailView.patch db 1000000 (Authenticated fixtures.customer1) 20%N data in
  (patch (fixtures.only_status "accepted")).1
    = OK (Quote.set_status ACCEPTED fixtures.quote_mf1_design_c1)
  ∧ patch (Data.mk (Some "accepted") None None (Some (Some "agreed")) 0)
    = (Error (PermissionDenied
        "You cannot update this quote in its current state or with the provided data."),
       db).
Proof. vm_compute. by split. Qed.

(** ** Who may create a quote (C4) *)

Lemma post_denied db user design_id data message :
  CanCreateQuoteForDesign.has_permission (Authenticated user) design_id
    (designs db) = Denied message →
  QuoteListCreateView.post db (Authenticated user) design_id data
  = (Error (PermissionDenied message), db).
Proof. intros Hdenied. unfold QuoteListCreateView.post. by rewrite Hdenied. Qed.

Lemma has_permission_Granted request_user design_id designs :
  CanCreateQuoteForDesign.has_permission request_user design_id designs = Granted
  ↔ ∃ user id design,
      request_user = Authenticated user ∧ User.role user = MANUFACTURER
      ∧ design_id = Some id ∧ designs !! id = Some design
      ∧ Design.customer design ≠ User.pk user
      ∧ Design.status design = ANALYSIS_COMPLETE.
Proof.
  unfold CanCreateQuoteForDesign.has_permission. split.
  - destruct request_user as [|user]; [done|].
    case_bool_decide as Hrole; [|done].
    destruct design_id as [id|]; [|done].
    destruct (designs !! id) as [design|] eqn:Hdesign; [|done].
    case_bool_decide as Howner; [done|].
    case_bool_decide as Hstatus; [done|]. intros _.
    exists user, id, design. split_and!; try done.
    all: by destruct (decide (Design.status design = ANALYSIS_COMPLETE)).
  - intros (user & id & design & -> & Hrole & -> & Hdesign & Howner & Hstatus).
    rewrite Hdesign, bool_decide_true, (bool_decide_false (_ = User.pk user)),
      (bool_decide_false (_ ≠ _)) by (done || by intros []).
    done.
Qed.

Lemma post_not_granted db user design_id data :
  CanCreateQuoteForDesign.has_permission (Authenticated user) design_id
    (designs db) ≠ Granted →
  ∃ message, QuoteListCreateView.post db (Authenticated user) design_id data
             = (Error (PermissionDenied message), db).
Proof.
  destruct (CanCreateQuoteForDesign.has_permission _ _ _) as [|message] eqn:Hcheck;
    [done|]. intros _. exists message. by apply post_denied.
Qed.

(** C4: the create check passes exactly when the actor is authenticated
    with the manufacturer role, the design exists, the actor does not own
    it and its status is analysis complete; so for a design in another
    status, and for a design the actor owns whatever its status, a POST by
    any authenticated user (any manufacturer) fails with PermissionDenied
    and writes nothing. *)
Theorem create_check_passes_exactly db request_user design_id :
  (CanCreateQuoteForDesign.has_permission request_user design_id (designs db)
   = Granted
   ↔ ∃ user id design,
       request_user = Authenticated user ∧ User.role user = MANUFACTURER
       ∧ design_id = Some id ∧ designs db !! id = Some design
       ∧ Design.customer design ≠ User.pk user
       ∧ Design.status design = ANALYSIS_COMPLETE)
  ∧ (∀ user id design data,
       request_user = Authenticated user → design_id = Some id →
       designs db !! id = Some design →
       Design.status design ≠ ANALYSIS_COMPLETE →
       ∃ message, QuoteListCreateView.post db request_user design_id data
                  = (Error (PermissionDenied message), db))
  ∧ (∀ user id design data,
       request_user = Authenticated user → design_id = Some id →
       designs db !! id = Some design →
       Design.customer design = User.pk user →
       ∃ message, QuoteListCreateView.post db request_user design_id data
                  = (Error (PermissionDenied message), db)).
Proof.
  split; [apply has_permission_Granted|].
  split; intros user id design data -> -> Hdesign Hnot;
    apply post_not_granted;
    intros (user' & id' & design' & [= <-] & _ & [= <-] & Hdesign' & Howner & Hstatus)
      %has_permission_Granted;
    rewrite Hdesign in Hdesign'; injection Hdesign' as <-; done.
Qed.

Example create_check_on_fixtures :
  let post user design_id :=
    (QuoteListCreateView.post fixtures.db (Authenticated user) (Some design_id)
       (Data.mk None (Some (decimal.mk 20000 (-2))) (Some 7) None 0)).1 in
  post fixtures.manufacturer3 10%N
    = OK (22%N, Quote.mk 10%N 5%N (decimal.mk 20000 (-2)) 7 PENDING None)
  ∧ post fixtures.manufacturer1 11%N
    = Error (PermissionDenied
        "Design must be in 'Analysis Complete' status to receive quotes. Current status: Pending Analysis.")
  ∧ post fixtures.customer1 10%N
    = Error (PermissionDenied "Only authenticated manufacturers can create quotes.").
Proof. vm_compute. by repeat split. Qed.

(** ** Duplicate quotes (C5, C8) *)

(** C5: when a quote by the manufacturer for the design already exists,
    [perform_create] raises the ValidationError saying the quote was
    already submitted and saves nothing; the POST as a whole answers with an
    error and leaves the database as it was, and the error is that
    ValidationError once the create check and the field validation have
    passed.  So, in a database with at most one quote per (design,
    manufacturer) pair, every POST and every PATCH keeps at most one. *)
Theorem second_quote_is_rejected db user design_id design id quote data :
  one_quote_per_pair (quotes db) →
  designs db !! design_id = Some design →
  quotes db !! id = Some quote →
  Quote.design quote = design_id →
  Quote.manufacturer quote = User.pk user →
  let result :=
    QuoteListCreateView.post db (Authenticated user) (Some design_id) data in
  (∀ serializer,
     QuoteListCreateView.perform_create db user (Some design_id) serializer
     = (Error (ValidationError "You have already submitted a quote for this design."),
        db))
  ∧ (∃ e, result = (Error e, db))
  ∧ (CanCreateQuoteForDesign.has_permission (Authenticated user) (Some design_id)
       (designs db) = Granted →
     (∃ validated, QuoteSerializer.run_field_validation false data = OK validated) →
     result = (Error (ValidationError
                 "You have already submitted a quote for this design."), db))
  ∧ (∀ request_user' design_id' data',
       one_quote_per_pair
         (quotes (QuoteListCreateView.post db request_user' design_id' data').2))
  ∧ (∀ now request_user' id' data',
       one_quote_per_pair
         (quotes (QuoteDetailView.patch db now request_user' id' data').2)).
Proof.
  intros Hone Hdesign Hquote Hd Hm result.
  assert (QuoteListCreateView.quote_exists (quotes db) design_id (User.pk user))
    as Hexists by by exists id, quote.
  split_and!.
  - intros serializer. by eapply perform_create_duplicate.
  - destruct (post_quotes db (Authenticated user) (Some design_id) data)
      as [He|(user' & design_pk & id' & quote' & [= <-] & [= <-] & _ & Hnew & _)];
      [done|by destruct Hnew].
  - intros Hcheck [validated Hfields].
    unfold result, QuoteListCreateView.post. rewrite Hcheck, Hfields.
    cbn [QuoteSerializer.validate]. by eapply perform_create_duplicate.
  - intros. by apply post_keeps_one_quote_per_pair.
  - intros. by apply patch_keeps_one_quote_per_pair.
Qed.

Lemma second_quote_is_rejected_witness :
  let db := fixtures.db in
  let data := Data.mk None (Some (decimal.mk 18000 (-2))) (Some 8) None 0 in
  one_quote_per_pair (quotes db)
  ∧ quotes db !! 20%N = Some fixtures.quote_mf1_design_c1
  ∧ QuoteListCreateView.post db (Authenticated fixtures.manufacturer1)
      (Some 10%N) data
    = (Error (ValidationError
                "You have already submitted a quote for this design."), db).
Proof.
  assert (one_quote_per_pair (quotes fixtures.db)) as Hone.
  { intros i j quote1 quote2. cbn [quotes fixtures.db].
    rewrite !lookup_insert, !lookup_singleton.
    repeat case_decide; intros; simplify_eq; done. }
  pose proof (second_quote_is_rejected fixtures.db fixtures.manufacturer1 10%N
                fixtures.design_c1_analyzed 20%N fixtures.quote_mf1_design_c1
                (Data.mk None (Some (decimal.mk 18000 (-2))) (Some 8) None 0)
                Hone eq_refl eq_refl eq_refl eq_refl) as (_ & _ & Hpost & _).
  cbv zeta. split; [done|]. split; [done|].
  apply Hpost; [by vm_compute|]. eexists. by vm_compute.
Defined.

(** C8, as amended: the duplicate pre-check is status-blind: whatever the
    status of the manufacturer's existing quote for the design and
    whatever orders exist, [perform_create] raises the duplicate
    ValidationError and saves nothing, and no POST by that manufacturer
    for that design creates a quote.  The POST answers with the duplicate
    error when the create check passes (the actor has the manufacturer
    role and does not own the design, and the design is in analysis
    complete) and the body is valid, so a rejected or expired quote bars
    its manufacturer from quoting the design again.  For a design in
    another status the create check, which runs first, answers with
    PermissionDenied instead; this is the case whenever an order exists
    for the design, in a database where the designs of the orders are
    ordered, as the acceptance cascade leaves them. *)
Theorem duplicate_check_is_status_blind
    db user design_id design id quote (s : QuoteStatus) (orders' : gmap uuid Order.t) :
  designs db !! design_id = Some design →
  quotes db !! id = Some quote →
  Quote.design quote = design_id →
  Quote.manufacturer quote = User.pk user →
  let db_s :=
    mkDatabase (designs db) (<[id := Quote.set_status s quote]> (quotes db))
      orders' in
  (∀ serializer,
     QuoteListCreateView.perform_create db_s user (Some design_id) serializer
     = (Error (ValidationError "You have already submitted a quote for this design."),
        db_s))
  ∧ (∀ data,
       let result :=
         QuoteListCreateView.post db_s (Authenticated user) (Some design_id) data in
       (∃ e, result = (Error e, db_s))
       ∧ (User.role user = MANUFACTURER →
          Design.customer design ≠ User.pk user →
          Design.status design = ANALYSIS_COMPLETE →
          (∃ validated,
             QuoteSerializer.run_field_validation false data = OK validated) →
          result = (Error (ValidationError
                      "You have already submitted a quote for this design."),
                    db_s))
       ∧ (Design.status design ≠ ANALYSIS_COMPLETE →
          ∃ message, result = (Error (PermissionDenied message), db_s))
       ∧ (orders_on_ordered_designs db_s →
          (∃ order_id order, orders' !! order_id = Some order
                             ∧ Order.design order = design_id) →
          ∃ message, result = (Error (PermissionDenied message), db_s))).
Proof.
  intros Hdesign Hquote Hd Hm db_s.
  assert (QuoteListCreateView.quote_exists (quotes db_s) design_id (User.pk user))
    as Hexists.
  { exists id, (Quote.set_status s quote). split; [apply lookup_insert_eq|done]. }
  assert (∀ data, Design.status design ≠ ANALYSIS_COMPLETE →
            ∃ message,
              QuoteListCreateView.post db_s (Authenticated user) (Some design_id)
                data
              = (Error (PermissionDenied message), db_s)) as Hclosed.
  { intros data Hstatus. apply post_not_granted.
    intros (? & ? & design' & _ & _ & [= <-] & Hdesign' & _ & Hstatus')
      %has_permission_Granted.
    cbn [designs db_s] in Hdesign'. congruence. }
  split.
  - intros serializer. by eapply perform_create_duplicate.
  - intros data result. split_and!.
    + destruct (post_quotes db_s (Authenticated user) (Some design_id) data)
        as [He|(user' & design_pk & id' & quote' & [= <-] & [= <-] & _ & Hnew & _)];
        [done|by destruct Hnew].
    + intros Hrole Howner Hstatus [validated Hfields].
      assert (CanCreateQuoteForDesign.has_permission (Authenticated user)
                (Some design_id) (designs db) = Granted) as Hcheck.
      { apply has_permission_Granted. by exists user, design_id, design. }
      unfold result, QuoteListCreateView.post. cbn [designs db_s].
      rewrite Hcheck, Hfields.
      cbn [QuoteSerializer.validate]. by eapply perform_create_duplicate.
    + apply Hclosed.
    + intros Hinv (order_id & order & Horder & Hod). apply Hclosed.
      destruct (Hinv order_id order Horder) as (design' & Hdesign' & Hordered).
      cbn [designs db_s] in Hdesign'. rewrite Hod, Hdesign in Hdesign'.
      injection Hdesign' as <-. by rewrite Hordered.
Qed.

Lemma duplicate_check_is_status_blind_witness :
  let data := Data.mk None (Some (decimal.mk 18000 (-2))) (Some 8) None 0 in
  let db_rejected :=
    (QuoteDetailView.patch fixtures.db 1000000 (Authenticated fixtures.customer1)
       20%N (fixtures.only_status "rejected")).2 in
  let db_expired :=
    (QuoteDetailView.patch fixtures.db 1000000
       (Authenticated fixtures.manufacturer1) 20%N
       (fixtures.only_status "expired")).2 in
  quotes db_rejected !! 20%N
  = Some (Quote.set_status REJECTED fixtures.quote_mf1_design_c1)
  ∧ QuoteListCreateView.post db_rejected (Authenticated fixtures.manufacturer1)
      (Some 10%N) data
    = (Error (ValidationError
                "You have already submitted a quote for this design."),
       db_rejected)
  ∧ quotes db_expired !! 20%N
    = Some (Quote.set_status EXPIRED fixtures.quote_mf1_design_c1)
  ∧ QuoteListCreateView.post db_expired (Authenticated fixtures.manufacturer1)
      (Some 10%N) data
    = (Error (ValidationError
                "You have already submitted a quote for this design."),
       db_expired).
Proof.
  pose proof (λ s,
              duplicate_check_is_status_blind fixtures.db fixtures.manufacturer1
                10%N fixtures.design_c1_analyzed 20%N
                fixtures.quote_mf1_design_c1 s (orders fixtures.db)
                eq_refl eq_refl eq_refl eq_refl) as Hblind.
  cbv zeta in *.
  assert ((QuoteDetailView.patch fixtures.db 1000000
             (Authenticated fixtures.customer1) 20%N
             (fixtures.only_status "rejected")).2
          = mkDatabase (designs fixtures.db)
              (<[20%N := Quote.set_status REJECTED fixtures.quote_mf1_design_c1]>
                 (quotes fixtures.db)) (orders fixtures.db)) as ->
    by (vm_compute; reflexivity).
  assert ((QuoteDetailView.patch fixtures.db 1000000
             (Authenticated fixtures.manufacturer1) 20%N
             (fixtures.only_status "expired")).2
          = mkDatabase (designs fixtures.db)
              (<[20%N := Quote.set_status EXPIRED fixtures.quote_mf1_design_c1]>
                 (quotes fixtures.db)) (orders fixtures.db)) as ->
    by (vm_compute; reflexivity).
  split; [reflexivity|]. split; [|split; [reflexivity|]].
  - destruct (Hblind REJECTED) as [_ Hpost].
    apply Hpost; [reflexivity|intros [=]|reflexivity|].
    eexists. vm_compute. reflexivity.
  - destruct (Hblind EXPIRED) as [_ Hpost].
    apply Hpost; [reflexivity|intros [=]|reflexivity|].
    eexists. vm_compute. reflexivity.
Defined.

(** C8, as stated, fails once an order was created from the quote: the
    owner of the design accepted quote 20 of manufacturer 1, the cascade
    created the order and set the design to ordered; a further POST by
    manufacturer 1 for the design is refused by the create check with
    PermissionDenied, not with the duplicate error. *)
Lemma duplicate_after_acceptance_counterexample :
  let db := fixtures.db_accepted in
  let data := Data.mk None (Some (decimal.mk 18000 (-2))) (Some 8) None 0 in
  quotes db !! 20%N
  = Some (Quote.set_status ACCEPTED fixtures.quote_mf1_design_c1)
  ∧ order_created_from (orders db) 20%N
  ∧ QuoteListCreateView.post db (Authenticated fixtures.manufacturer1)
      (Some 10%N) data
    = (Error (PermissionDenied
         "Design must be in 'Analysis Complete' status to receive quotes. Current status: Ordered."),
       db).
Proof.
  cbv zeta. split; [vm_compute; reflexivity|]. split.
  - apply (bool_decide_unpack (order_created_from _ _)). vm_compute. exact I.
  - vm_compute. reflexivity.
Qed.

(** ** Staff (C9) *)




(** A staff actor who is neither the owner of the design nor the
    manufacturer of the quote asks for the rejected quote 21 to be
    accepted.  The permission check grants it, but the serializer refuses
    the request: the quote stays rejected and no order is created. *)
Lemma staff_accept_refused_by_serializer :
  let db := fixtures.db_accepted in
  let data := fixtures.only_status "accepted" in
  quotes db !! 21%N = Some (Quote.set_status REJECTED fixtures.quote_mf2_design_c1)
  ∧ User.is_staff fixtures.admin_user = true
  ∧ CanUpdateQuote.has_object_permission fixtures.admin_user data
      (Quote.set_status REJECTED fixtures.quote_mf2_design_c1)
      (Design.set_status ORDERED fixtures.design_c1_analyzed) = Granted
  ∧ QuoteDetailView.patch db 2000000 (Authenticated fixtures.admin_user) 21%N data
    = (Error (ValidationError
                "You do not have permission to change the status of this quote."),
       db).
Proof. vm_compute. by repeat split. Qed.


(** ** Pricing (C6, C7, C10) *)

Section pricing_lemmas.
Import decimal pricing pricing_spec.
Implicit Types (errors : list string) (details : gmap string detail).
Implicit Types (x y : number) (m : member).

Lemma no_true errors : no errors = true ↔ errors = [].
Proof. by destruct errors. Qed.



Lemma no_append errors message : no (append errors message) = false.
Proof. unfold append. by destruct errors. Qed.

Lemma bind_Return {A B} (c : result A) (k : A → result B) b :
  c ≫= k = Return b ↔ ∃ a, c = Return a ∧ k a = Return b.
Proof.
  destruct c as [a|s]; cbn [mbind result_bind].
  - split; [by exists a|by intros (? & [= <-] & ?)].
  - split; [done|by intros (? & ? & ?)].
Qed.

Lemma quantize_cents_exp d q :
  quantize_cents d = Return q → exp q = -2 ∧ digits (coef q) ≤ 28.
Proof.
  unfold quantize_cents.
  assert (∀ ans, exp ans = -2 → digits (coef ans) ≤ 28 →
                 fix_ ans = Return q → exp q = -2 ∧ digits (coef q) ≤ 28)
    as Hfix.
  { intros ans He Hdigits. unfold fix_, is_zero.
    case_bool_decide as Hzero.
    - rewrite He. intros [= <-]. by vm_compute.
    - unfold prec, Etop, Etiny, Emax, Emin. rewrite He.
      case_bool_decide; [done|].
      rewrite bool_decide_false by (unfold prec in *; lia).
      by intros [= <-]. }
  case_match.
  - by apply Hfix.
  - repeat (case_bool_decide; [done|]).
    apply Hfix; [|unfold prec in *; lia].
    unfold rescale_half_up. by repeat case_match.
Qed.

(** The conversions and the comparisons: when they return, and what. *)
Lemma get_decimal_Return d key x :
  get_decimal d key = Return x ↔ get d key = Number x.
Proof.
  unfold get_decimal. fold (get d key).
  destruct (get d key); cbn [of_member]; split; congruence.
Qed.


Lemma le_zero_Return x b :
  le_zero x = Return b ↔ compares x = true ∧ b = not_positive x.
Proof. destruct x; cbn; split; try intros [? ?]; try congruence; by intros [= <-]. Qed.

Lemma lt_zero_Return x b :
  lt_zero x = Return b ↔ compares x = true ∧ b = negative x.
Proof. destruct x; cbn; split; try intros [? ?]; try congruence; by intros [= <-]. Qed.

(** [quantize] returns a decimal at exponent [-2] within the precision,
    or the NaN it was given. *)
Lemma quantize_Return x q :
  quantize x = Return q →
  (x = NaN ∧ q = NaN)
  ∨ ∃ d p : Decimal, x = Fin d ∧ q = Fin p ∧ quantize_cents d = Return p.
Proof.
  destruct x as [d|s| |]; cbn [quantize]; try done.
  - intros (p & Hp & [= <-])%bind_Return. right. by exists d, p.
  - intros [= <-]. by left.
Qed.


(** The material section, when it returns: every check has answered and
    added its message; the cost is computed when no error is recorded by
    then, and is [0.00] otherwise. *)
Lemma calculate_material_cost_Return volume name properties errors details
    cost errors' details' :
  calculate_material_cost volume name properties errors details
  = Return (cost, errors', details') →
  material_answers name properties = true
  ∧ errors' = (errors ++ material_errors name properties)%list
  ∧ if no errors' then
      ∃ props (density cost_kg cost_g mass rounded : number),
        properties !! name = Some props
        ∧ get props "density_g_cm3" = Number density
        ∧ get props "cost_usd_kg" = Number cost_kg
        ∧ __truediv__ cost_kg thousand = Return cost_g
        ∧ __mul__ volume density = Return mass
        ∧ __mul__ mass cost_g = Return cost
        ∧ quantize cost = Return rounded
        ∧ details' = <["calculated_material_cost_usd" := Float rounded]>
                     (<["material_cost_usd_kg" := Float cost_kg]>
                     (<["material_density_g_cm3" := Float density]>
                     (<["material_volume_cm3" := Float volume]> details)))
    else cost = Fin zero_cost ∧ details' = details.
Proof.
  unfold calculate_material_cost, material_answers, material_errors.
  destruct (properties !! name) as [props|].
  2:{ intros [= <- <- <-]. by rewrite no_append. }
  intros (density & Hdensity%get_decimal_Return & H)%bind_Return.
  apply bind_Return in H as (cost_kg & Hcost%get_decimal_Return & H).
  apply bind_Return in H as (b1 & [Hc1 ->]%le_zero_Return & H).
  apply bind_Return in H as (b2 & [Hc2 ->]%lt_zero_Return & H).
  rewrite Hdensity, Hcost. cbn [converts andb]. rewrite Hc1, Hc2.
  split; [done|].
  assert ((if negative cost_kg
           then append (if not_positive density then append errors
                          ("Density for material '" +:+ name +:+ "' must be positive.")
                        else errors)
                  ("Cost per kg for material '" +:+ name +:+ "' must be non-negative.")
           else if not_positive density then append errors
                  ("Density for material '" +:+ name +:+ "' must be positive.")
                else errors)
          = (errors
             ++ (if not_positive density
                 then ["Density for material '" +:+ name +:+ "' must be positive."]
                 else [])
             ++ (if negative cost_kg
                 then ["Cost per kg for material '" +:+ name
                       +:+ "' must be non-negative."]
                 else []))%list) as Herrors.
  { unfold append. destruct (negative cost_kg), (not_positive density);
      by rewrite <- ?app_assoc, ?app_nil_r. }
  rewrite Herrors in H. clear Herrors.
  set (e := (errors ++ _)%list) in *.
  destruct (no e) eqn:Hno.
  - apply bind_Return in H as (cost_g & Hg & H).
    apply bind_Return in H as (mass & Hmass & H).
    apply bind_Return in H as (material & Hmaterial & H).
    apply bind_Return in H as (rounded & Hrounded & H).
    injection H as <- <- <-. split; [done|]. rewrite Hno.
    exists props, density, cost_kg, cost_g, mass, rounded. by split_and!.
  - injection H as <- <- <-. split; [done|]. by rewrite Hno.
Qed.


Lemma calculate_machine_time_cost_Return complexity factors errors details
    cost errors' details' :
  calculate_machine_time_cost complexity factors errors details
  = Return (cost, errors', details') →
  machining_answers factors = true
  ∧ errors' = (errors ++ machining_errors factors)%list
  ∧ if no errors' then
      ∃ base multiplier complexity_cost rounded : number,
        get factors "base_time_cost_unit" = Number base
        ∧ get factors "time_multiplier_complexity_cost_unit" = Number multiplier
        ∧ __mul__ complexity multiplier = Return complexity_cost
        ∧ __add__ base complexity_cost = Return cost
        ∧ quantize cost = Return rounded
        ∧ details' = <["calculated_machine_time_cost_units" := Float rounded]>
                     (<["machining_time_multiplier_cost_unit" := Float multiplier]>
                     (<["design_complexity_score" := Float complexity]>
                     (<["machining_base_time_cost_unit" := Float base]> details)))
    else cost = Fin zero_cost ∧ details' = details.
Proof.
  unfold calculate_machine_time_cost, machining_answers, machining_errors.
  intros (base & Hbase%get_decimal_Return & H)%bind_Return.
  apply bind_Return in H as (multiplier & Hmultiplier%get_decimal_Return & H).
  apply bind_Return in H as (b1 & [Hc1 ->]%lt_zero_Return & H).
  apply bind_Return in H as (b2 & [Hc2 ->]%lt_zero_Return & H).
  rewrite Hbase, Hmultiplier. cbn [converts andb]. rewrite Hc1, Hc2.
  split; [done|].
  assert ((if negative multiplier
           then append (if negative base
                        then append errors "Base time cost unit cannot be negative."
                        else errors)
                  "Time multiplier cost unit cannot be negative."
           else if negative base
                then append errors "Base time cost unit cannot be negative."
                else errors)
          = (errors
             ++ (if negative base
                 then ["Base time cost unit cannot be negative."] else [])
             ++ (if negative multiplier
                 then ["Time multiplier cost unit cannot be negative."]
                 else []))%list) as Herrors.
  { unfold append. destruct (negative multiplier), (negative base);
      by rewrite <- ?app_assoc, ?app_nil_r. }
  rewrite Herrors in H. clear Herrors.
  set (e := (errors ++ _)%list) in *.
  destruct (no e) eqn:Hno.
  - apply bind_Return in H as (complexity_cost & Hcost & H).
    apply bind_Return in H as (machine & Hmachine & H).
    apply bind_Return in H as (rounded & Hrounded & H).
    injection H as <- <- <-. split; [done|]. rewrite Hno.
    exists base, multiplier, complexity_cost, rounded. by split_and!.
  - injection H as <- <- <-. split; [done|]. by rewrite Hno.
Qed.


Lemma calculate_total_price_Return material_cost machine_cost markup errors
    details price errors' details' :
  calculate_total_price material_cost machine_cost markup errors details
  = Return (price, errors', details') →
  errors' = (errors ++ markup_errors markup)%list
  ∧ ∃ subtotal rounded : number,
      __add__ material_cost machine_cost = Return subtotal
      ∧ quantize subtotal = Return rounded
      ∧ if no errors' then
          ∃ total final : number,
            __mul__ subtotal markup = Return total
            ∧ quantize total = Return final
            ∧ price = Some final
            ∧ details' = <["final_total_price_usd" := Float final]>
                         (<["manufacturer_markup_factor" := Float markup]>
                         (<["total_price_before_markup_usd" := Float rounded]>
                          details))
        else price = None
             ∧ details' = <["total_price_before_markup_usd" := Float rounded]>
                            details.
Proof.
  unfold calculate_total_price, markup_errors.
  intros (subtotal & Hsubtotal & H)%bind_Return.
  apply bind_Return in H as (rounded & Hrounded & H).
  assert ((if le0 markup
           then append errors "Manufacturer markup factor must be positive."
           else errors)
          = (errors
             ++ (if le0 markup
                 then ["Manufacturer markup factor must be positive."]
                 else []))%list) as Herrors.
  { unfold append. destruct (le0 markup); by rewrite ?app_nil_r. }
  rewrite Herrors in H. clear Herrors.
  set (e := (errors ++ _)%list) in *.
  destruct (no e) eqn:Hno.
  - apply bind_Return in H as (total & Htotal & H).
    apply bind_Return in H as (final & Hfinal & H).
    injection H as <- <- <-. split; [done|].
    exists subtotal, rounded. split_and!; try done. rewrite Hno.
    by exists total, final.
  - injection H as <- <- <-. split; [done|].
    exists subtotal, rounded. split_and!; try done. by rewrite Hno.
Qed.

End pricing_lemmas.

Section calculate_quote_price.
Import decimal pricing pricing_spec.

Local Ltac present :=
  split; [intros _; by apply no_true|intros _; by eexists].

Variables (design : Design.t) (manufacturer : Manufacturer.t).

Lemma calculate_quote_price_no_geometric_data :
  geometric_data design = ∅ →
  calculate_quote_price design manufacturer
  = Return (mkPricingDetails None None ∅
              ["Design geometric data is missing or incomplete."]).
Proof.
  intros Hempty. unfold calculate_quote_price.
  fold (geometric_data design). by rewrite bool_decide_true.
Qed.

(** The sections of a run that returns, one after the other. *)
Lemma calculate_quote_price_sections r :
  geometric_data design ≠ ∅ →
  calculate_quote_price design manufacturer = Return r →
  ∃ (volume complexity material_cost machine_cost : number) price
    details1 details2 details3,
    volume_cm3 design = Number volume
    ∧ complexity_score design = Number complexity
    ∧ compares volume = true
    ∧ calculate_material_cost volume (Design.material design)
        (material_properties_map manufacturer)
        (volume_errors (volume_cm3 design)) ∅
      = Return (material_cost, errors_after_material design manufacturer,
                details1)
    ∧ calculate_machine_time_cost complexity (machining_factors manufacturer)
        (errors_after_material design manufacturer) details1
      = Return (machine_cost, errors_after_machining design manufacturer,
                details2)
    ∧ calculate_total_price material_cost machine_cost
        (Manufacturer.markup_factor manufacturer)
        (errors_after_machining design manufacturer) details2
      = Return (price, validation_errors design manufacturer, details3)
    ∧ r = if no (validation_errors design manufacturer)
          then mkPricingDetails price
                 (Some (determine_estimated_lead_time
                          (pricing_factors manufacturer)))
                 (<["estimated_lead_time_days" :=
                      Int (determine_estimated_lead_time
                             (pricing_factors manufacturer))]> details3) []
          else mkPricingDetails None None
                 (<["estimated_lead_time_days" :=
                      Int (determine_estimated_lead_time
                             (pricing_factors manufacturer))]> details3)
                 (validation_errors design manufacturer).
Proof.
  intros Hdata. unfold calculate_quote_price. fold (geometric_data design).
  rewrite bool_decide_false by done.
  fold (pricing_factors manufacturer).
  fold (material_properties_map manufacturer) (machining_factors manufacturer).
  intros (volume & Hvolume%get_decimal_Return & H)%bind_Return.
  apply bind_Return in H as (complexity & Hcomplexity%get_decimal_Return & H).
  apply bind_Return in H as (b0 & [Hc0 ->]%le_zero_Return & H).
  fold (volume_cm3 design) in Hvolume.
  fold (complexity_score design) in Hcomplexity.
  change (if not_positive volume : bool then append [] _ else [])
    with (volume_errors volume) in H.
  rewrite <- Hvolume in H.
  apply bind_Return in H as ([[material errors1] details1] & Hmaterial & H).
  apply bind_Return in H as ([[machine errors2] details2] & Hmachine & H).
  apply bind_Return in H as ([[final errors3] details3] & Htotal & H).
  pose proof (calculate_material_cost_Return _ _ _ _ _ _ _ _ Hmaterial)
    as (_ & -> & _).
  pose proof (calculate_machine_time_cost_Return _ _ _ _ _ _ _ Hmachine)
    as (_ & -> & _).
  pose proof (calculate_total_price_Return _ _ _ _ _ _ _ _ Htotal)
    as (-> & _).
  exists volume, complexity, material, machine, final, details1, details2,
    details3.
  split_and!; try done.
  unfold validation_errors, errors_after_machining, errors_after_material.
  by destruct (no _); injection H as <-.
Qed.

(** When it returns, every conversion has returned and every check has
    answered. *)
Lemma calculate_quote_price_answers r :
  geometric_data design ≠ ∅ →
  calculate_quote_price design manufacturer = Return r →
  checks_answer design manufacturer = true.
Proof.
  intros Hdata Hr.
  destruct (calculate_quote_price_sections r Hdata Hr)
    as (volume & complexity & material & machine & price & details1
        & details2 & details3 & Hvolume & Hcomplexity & Hcompares
        & [Hmaterial _]%calculate_material_cost_Return
        & [Hmachine _]%calculate_machine_time_cost_Return & _).
  unfold checks_answer. rewrite Hvolume, Hcomplexity, Hmaterial, Hmachine.
  cbn [converts andb]. by rewrite Hcompares.
Qed.


End calculate_quote_price.

Section formula.
Import decimal pricing pricing_spec.
Variables (design : Design.t) (manufacturer : Manufacturer.t).

(** The price of a run that returns one: the checks have all passed, and
    the price is the quantized product of the markup and the sum of the
    material cost, [volume * density * (cost / 1000)], and the
    machine-time cost, [base + complexity * multiplier]. *)
Lemma calculate_quote_price_formula r price :
  calculate_quote_price design manufacturer = Return r →
  price_usd r = Some price →
  ∃ props (volume complexity density cost_kg base multiplier cost_g mass
           material_cost complexity_cost machine_cost subtotal total : number),
    validation_errors design manufacturer = []
    ∧ checks_answer design manufacturer = true
    ∧ volume_cm3 design = Number volume
    ∧ complexity_score design = Number complexity
    ∧ material_properties_map manufacturer !! Design.material design
      = Some props
    ∧ get props "density_g_cm3" = Number density
    ∧ get props "cost_usd_kg" = Number cost_kg
    ∧ get (machining_factors manufacturer) "base_time_cost_unit" = Number base
    ∧ get (machining_factors manufacturer)
        "time_multiplier_complexity_cost_unit" = Number multiplier
    ∧ __truediv__ cost_kg thousand = Return cost_g
    ∧ __mul__ volume density = Return mass
    ∧ __mul__ mass cost_g = Return material_cost
    ∧ __mul__ complexity multiplier = Return complexity_cost
    ∧ __add__ base complexity_cost = Return machine_cost
    ∧ __add__ material_cost machine_cost = Return subtotal
    ∧ __mul__ subtotal (Manufacturer.markup_factor manufacturer) = Return total
    ∧ quantize total = Return price.
Proof.
  intros Hr Hprice.
  destruct (decide (geometric_data design = ∅)) as [Hdata|Hdata].
  { rewrite calculate_quote_price_no_geometric_data in Hr by done.
    by injection Hr as <-. }
  pose proof (calculate_quote_price_answers _ _ r Hdata Hr) as Hanswer.
  destruct (calculate_quote_price_sections _ _ r Hdata Hr)
    as (volume & complexity & material & machine & final & details1
        & details2 & details3 & Hvolume & Hcomplexity & _
        & (_ & _ & Hmaterial)%calculate_material_cost_Return
        & (_ & _ & Hmachine)%calculate_machine_time_cost_Return
        & (_ & subtotal & rounded & Hsubtotal & _
           & Htotal)%calculate_total_price_Return
        & ->).
  destruct (no (validation_errors design manufacturer)) eqn:Hno; [|done].
  cbn [price_usd] in Hprice.
  destruct Htotal as (total & final' & Htotal & Hfinal & Heq & _).
  rewrite Heq in Hprice. injection Hprice as ->.
  apply no_true in Hno.
  unfold validation_errors, errors_after_machining in Hno.
  apply app_eq_nil in Hno as [[H1 H2]%app_eq_nil H3].
  unfold errors_after_machining in Hmachine.
  rewrite H1 in Hmaterial. rewrite H1, H2 in Hmachine.
  cbn [no app] in Hmaterial, Hmachine.
  destruct Hmaterial as (props & density & cost_kg & cost_g & mass & rounded1
                         & ? & ? & ? & ? & ? & ? & _).
  destruct Hmachine as (base & multiplier & complexity_cost & rounded2
                        & ? & ? & ? & ? & _).
  exists props, volume, complexity, density, cost_kg, base, multiplier,
    cost_g, mass, material, complexity_cost, machine, subtotal, total.
  split_and!; try done.
  unfold validation_errors, errors_after_machining. by rewrite H1, H2, H3.
Qed.
End formula.

(** ** NaN and signs in the arithmetic *)

Section numbers.
Import decimal pricing pricing_spec.
Implicit Types (a b c : number).





Lemma compares_not_NaN m : compares m = true → m ≠ Number NaN.
Proof. by intros ? ->. Qed.
End numbers.

Section pricing_claims.
Import decimal pricing pricing_spec.



(** A run that raises reports nothing.  The volume -1 has failed its
    check when the conversion of the base time cost, [null], raises; and
    the volume 1e30 makes the material cost overflow the precision of
    [quantize] before the negative base time cost, the negative time
    multiplier and the markup of 0 are looked at. *)
Example error_is_lost_when_a_conversion_raises :
  volume_errors (volume_cm3 fixtures.design_negative)
  = ["Design volume must be a positive value."]
  ∧ get (machining_factors fixtures.manufacturer_null) "base_time_cost_unit"
    = NotANumber
  ∧ calculate_quote_price fixtures.design_negative fixtures.manufacturer_null
    = Raise InvalidOperation.
Proof. vm_compute. repeat split; reflexivity. Qed.

Example errors_are_lost_when_the_arithmetic_raises :
  checks_answer fixtures.design_huge fixtures.manufacturer_faulty = true
  ∧ (machining_errors (machining_factors fixtures.manufacturer_faulty)
     ++ markup_errors (Manufacturer.markup_factor fixtures.manufacturer_faulty))%list
    = ["Base time cost unit cannot be negative.";
       "Time multiplier cost unit cannot be negative.";
       "Manufacturer markup factor must be positive."]
  ∧ calculate_quote_price fixtures.design_huge fixtures.manufacturer_faulty
    = Raise InvalidOperation.
Proof. vm_compute. repeat split; reflexivity. Qed.



(** C10, as stated, also fails by raising: for a design of 1e30 cm3 the
    material cost, 2E+28, cannot be quantized to cents within the 28
    digits of the decimal context; [quantize] raises InvalidOperation and
    the function returns no result. *)
Example huge_volume_raises :
  volume_cm3 fixtures.design_huge = Number (mk 1 30)
  ∧ calculate_quote_price fixtures.design_huge fixtures.manufacturer_profile
    = Raise InvalidOperation.
Proof. vm_compute. split; reflexivity. Qed.

Local Ltac evaluate t :=
  let v := eval vm_compute in t in rewrite (eq_refl v <: t = v).

(** C7: for a volume of 100 cm3, a density of 2 g/cm3, a unit cost of
    10 $/kg, a base time cost of 5, a time multiplier of 2, a complexity
    score of 3 and a markup factor of 1.5 (whatever the material is
    called and whatever else the documents hold), the pricing function
    returns the material cost 2.00, the machine-time cost 11.00, the
    subtotal before markup 13.00 and the final price 19.50, with an empty
    error list. *)
Theorem pricing_example design manufacturer data props :
  Design.geometric_data design = Some data →
  data !! "volume_cm3" = Some (Number (of_Z 100)) →
  data !! "complexity_score" = Some (Number (of_Z 3)) →
  material_properties_map manufacturer !! Design.material design = Some props →
  props !! "density_g_cm3" = Some (Number (of_Z 2)) →
  props !! "cost_usd_kg" = Some (Number (of_Z 10)) →
  machining_factors manufacturer !! "base_time_cost_unit"
    = Some (Number (of_Z 5)) →
  machining_factors manufacturer !! "time_multiplier_complexity_cost_unit"
    = Some (Number (of_Z 2)) →
  Manufacturer.markup_factor manufacturer = mk 15 (-1) →
  ∃ r,
    calculate_quote_price design manufacturer = Return r
    ∧ errors r = []
    ∧ price_usd r = Some (Fin (mk 1950 (-2)))
    ∧ calculation_details r !! "calculated_material_cost_usd"
      = Some (Float (mk 200 (-2)))
    ∧ calculation_details r !! "calculated_machine_time_cost_units"
      = Some (Float (mk 1100 (-2)))
    ∧ calculation_details r !! "total_price_before_markup_usd"
      = Some (Float (mk 1300 (-2)))
    ∧ calculation_details r !! "final_total_price_usd"
      = Some (Float (mk 1950 (-2))).
Proof.
  intros Hdata Hvolume Hcomplexity Hprops Hdensity Hcost Hbase Hmultiplier Hmarkup.
  unfold calculate_quote_price.
  fold (geometric_data design).
  fold (pricing_factors manufacturer).
  fold (material_properties_map manufacturer) (machining_factors manufacturer).
  assert (geometric_data design = data) as Hgd
    by (unfold geometric_data; by rewrite Hdata).
  rewrite bool_decide_false
    by (rewrite Hgd; intros ->; by rewrite lookup_empty in Hvolume).
  unfold get_decimal. rewrite Hgd, Hvolume, Hcomplexity, Hmarkup.
  cbn [default from_option id of_member mbind result_bind le_zero].
  unfold calculate_material_cost, calculate_machine_time_cost, get_decimal.
  rewrite Hprops, Hdensity, Hcost, Hbase, Hmultiplier.
  cbn [default from_option id of_member mbind result_bind le_zero lt_zero].
  rewrite (eq_refl : le0 (of_Z 100) = false), (eq_refl : le0 (of_Z 2) = false),
    (eq_refl : lt0 (of_Z 10) = false), (eq_refl : lt0 (of_Z 5) = false),
    (eq_refl : lt0 (of_Z 2) = false).
  cbn [no].
  evaluate (__truediv__ (of_Z 10) thousand).
  cbn [mbind result_bind].
  evaluate (__mul__ (of_Z 100) (of_Z 2)).
  cbn [mbind result_bind].
  evaluate (__mul__ (mk 200 0) (mk 1 (-2))).
  cbn [mbind result_bind].
  evaluate (quantize (mk 200 (-2))).
  cbn [mbind result_bind mret result_ret no].
  evaluate (__mul__ (of_Z 3) (of_Z 2)).
  cbn [mbind result_bind].
  evaluate (__add__ (of_Z 5) (mk 6 0)).
  cbn [mbind result_bind].
  evaluate (quantize (mk 11 0)).
  cbn [mbind result_bind mret result_ret].
  unfold calculate_total_price.
  evaluate (__add__ (mk 200 (-2)) (mk 11 0)).
  cbn [mbind result_bind].
  evaluate (quantize (mk 1300 (-2))).
  cbn [mbind result_bind].
  rewrite (eq_refl : le0 (mk 15 (-1)) = false). cbn [no].
  evaluate (__mul__ (mk 1300 (-2)) (mk 15 (-1))).
  cbn [mbind result_bind].
  evaluate (quantize (mk 19500 (-3))).
  cbn [mbind result_bind mret result_ret no]. cbn [mret result_ret].
  eexists. split; [reflexivity|]. cbn [errors price_usd calculation_details].
  split; [reflexivity|]. split; [reflexivity|].
  split_and!;
    repeat first [ rewrite lookup_insert_eq
                 | rewrite lookup_insert_ne by discriminate ]; reflexivity.
Qed.

Lemma pricing_example_witness :
  ∃ r,
    calculate_quote_price fixtures.design_pla fixtures.manufacturer_profile
    = Return r
    ∧ errors r = []
    ∧ price_usd r = Some (Fin (mk 1950 (-2)))
    ∧ calculation_details r !! "calculated_material_cost_usd"
      = Some (Float (mk 200 (-2))).
Proof.
  destruct (pricing_example fixtures.design_pla fixtures.manufacturer_profile
              {[ "volume_cm3" := Number (of_Z 100);
                 "complexity_score" := Number (of_Z 3) ]}
              {[ "density_g_cm3" := Number (of_Z 2);
                 "cost_usd_kg" := Number (of_Z 10) ]}
              eq_refl ltac:(vm_compute; reflexivity)
              ltac:(vm_compute; reflexivity) ltac:(vm_compute; reflexivity)
              ltac:(vm_compute; reflexivity) ltac:(vm_compute; reflexivity)
              ltac:(vm_compute; reflexivity) ltac:(vm_compute; reflexivity)
              eq_refl) as (r & Hr & Herrors & Hprice & Hmaterial & _).
  exists r. split; [exact Hr|]. split; [exact Herrors|].
  split; [exact Hprice|exact Hmaterial].
Defined.

End pricing_claims.

(** * Further properties *)

(** ** Reading and listing quotes *)

Lemma has_object_permission_true user quote design :
  IsQuoteOwnerOrDesignOwnerOrAdmin.has_object_permission user quote design = true
  ↔ User.is_staff user = true ∨ Quote.manufacturer quote = User.pk user
    ∨ Design.customer design = User.pk user.
Proof.
  unfold IsQuoteOwnerOrDesignOwnerOrAdmin.has_object_permission.
  destruct (User.is_staff user); [tauto|].
  rewrite orb_true_iff, !bool_decide_eq_true. intuition congruence.
Qed.

Lemma has_object_permission_false user quote design :
  IsQuoteOwnerOrDesignOwnerOrAdmin.has_object_permission user quote design = false
  ↔ User.is_staff user = false ∧ Quote.manufacturer quote ≠ User.pk user
    ∧ Design.customer design ≠ User.pk user.
Proof.
  rewrite <- not_true_iff_false, has_object_permission_true.
  destruct (User.is_staff user); intuition congruence.
Qed.

Lemma retrieve_OK db user id quote design :
  quotes db !! id = Some quote →
  designs db !! Quote.design quote = Some design →
  QuoteDetailView.retrieve db (Authenticated user) id
  = if IsQuoteOwnerOrDesignOwnerOrAdmin.has_object_permission user quote design
    then OK quote else Error (PermissionDenied default_detail).
Proof.
  intros Hquote Hdesign. unfold QuoteDetailView.retrieve.
  by rewrite (proj2 (get_object_Some db id quote design)).
Qed.

Lemma get_queryset_lookup db user design_id design rows k quote :
  designs db !! design_id = Some design →
  QuoteListCreateView.get_queryset db user (Some design_id) = OK rows →
  rows !! k = Some quote
  ↔ quotes db !! k = Some quote ∧ Quote.design quote = design_id
    ∧ (User.is_staff user = true ∨ Design.customer design = User.pk user
       ∨ (User.role user = MANUFACTURER
          ∧ Quote.manufacturer quote = User.pk user)).
Proof.
  intros Hdesign. unfold QuoteListCreateView.get_queryset. rewrite Hdesign.
  destruct (User.is_staff user) eqn:Hstaff.
  { intros [= <-]. rewrite map_lookup_filter_Some. simpl. tauto. }
  case_bool_decide as Howner.
  { intros [= <-]. rewrite map_lookup_filter_Some. simpl. tauto. }
  case_bool_decide as Hrole; intros [= <-].
  - rewrite map_lookup_filter_Some. simpl. intuition congruence.
  - rewrite lookup_empty. intuition congruence.
Qed.

Lemma get_queryset_OK db user design_id design :
  designs db !! design_id = Some design →
  ∃ rows, QuoteListCreateView.get_queryset db user (Some design_id) = OK rows.
Proof.
  intros Hdesign. unfold QuoteListCreateView.get_queryset. rewrite Hdesign.
  repeat case_match; eauto.
Qed.

(** X1: for an authenticated actor and an existing design, the list view
    answers with exactly the quotes of the design that the actor may also
    retrieve one by one, provided the actor is staff, owns the design or
    has the manufacturer role; an actor of another kind is shown nothing.
    So the list never shows a quote whose detail view is refused. *)
Theorem listed_quotes_can_be_retrieved db user design_id design :
  designs db !! design_id = Some design →
  ∃ rows,
    QuoteListCreateView.get db (Authenticated user) (Some design_id) = OK rows
    ∧ ∀ k quote,
        rows !! k = Some quote
        ↔ quotes db !! k = Some quote ∧ Quote.design quote = design_id
          ∧ QuoteDetailView.retrieve db (Authenticated user) k = OK quote
          ∧ (User.is_staff user = true ∨ Design.customer design = User.pk user
             ∨ User.role user = MANUFACTURER).
Proof.
  intros Hdesign.
  destruct (get_queryset_OK db user design_id design Hdesign) as [rows Hrows].
  exists rows. split; [done|]. intros k quote.
  rewrite (get_queryset_lookup db user design_id design rows k quote) by done.
  split.
  - intros (Hquote & <- & Hwho). split; [done|]. split; [done|].
    rewrite (retrieve_OK db user k quote design) by done.
    rewrite (proj2 (has_object_permission_true user quote design))
      by intuition.
    intuition.
  - intros (Hquote & <- & Hretrieve & Hwho). split; [done|]. split; [done|].
    rewrite (retrieve_OK db user k quote design) in Hretrieve by done.
    destruct (IsQuoteOwnerOrDesignOwnerOrAdmin.has_object_permission _ _ _)
      eqn:Hperm; [|done].
    apply has_object_permission_true in Hperm. intuition.
Qed.

Lemma listed_quotes_can_be_retrieved_witness :
  ∃ rows,
    QuoteListCreateView.get fixtures.db (Authenticated fixtures.manufacturer1)
      (Some 10%N) = OK rows
    ∧ rows !! 20%N = Some fixtures.quote_mf1_design_c1
    ∧ rows !! 21%N = None.
Proof.
  destruct (listed_quotes_can_be_retrieved fixtures.db fixtures.manufacturer1
              10%N fixtures.design_c1_analyzed eq_refl)
    as (rows & Hrows & Hlookup).
  exists rows. split; [exact Hrows|]. split.
  - apply Hlookup. split; [reflexivity|]. split; [reflexivity|].
    split; [vm_compute; reflexivity|]. right; right; reflexivity.
  - destruct (rows !! 21%N) as [quote|] eqn:Hrow; [|reflexivity].
    apply Hlookup in Hrow as (Hquote & _ & Hretrieve & _).
    assert (quote = fixtures.quote_mf2_design_c1) as ->
      by (injection Hquote as <-; reflexivity).
    vm_compute in Hretrieve. discriminate Hretrieve.
Defined.

(** ** What [perform_update] writes, and what a granted update means *)

Lemma not_cascades db id quote validated :
  ¬ cascades db id quote validated →
  Quote.status quote = ACCEPTED
  ∨ default (Quote.status quote) (QuoteSerializer.status validated) ≠ ACCEPTED
  ∨ order_created_from (orders db) id.
Proof.
  intros Hoff.
  destruct (decide (Quote.status quote = ACCEPTED)); [by left|].
  destruct (decide (order_created_from (orders db) id)); [by auto|].
  right; left. intros Hnew. apply Hoff. split_and!; [done| |done].
  destruct (QuoteSerializer.status validated); simpl in Hnew; congruence.
Qed.

Lemma perform_update_quotes db now id quote design validated k :
  quotes (QuoteDetailView.perform_update db now id quote design validated) !! k
  = if decide (k = id) then Some (QuoteSerializer.update quote validated)
    else (λ other,
            if bool_decide (cascades db id quote validated
                            ∧ Quote.design other = Quote.design quote
                            ∧ Quote.status other = PENDING)
            then Quote.set_status REJECTED other else other)
         <$> quotes db !! k.
Proof.
  destruct (decide (cascades db id quote validated)) as [(?&?&?)|Hoff].
  - rewrite perform_update_cascade by done. cbn [quotes].
    case_decide as Hk.
    + subst k. by rewrite rejected_siblings_self, lookup_insert_eq.
    + destruct (quotes db !! k) as [other|] eqn:Hother; cbn [fmap option_fmap option_map].
      * case_bool_decide as Hrej.
        -- destruct Hrej as (_ & Hd & Hs).
           apply rejected_siblings_pending; [by rewrite lookup_insert_ne|done..].
        -- apply rejected_siblings_other; [by rewrite lookup_insert_ne|].
           destruct (decide (Quote.design other = Quote.design quote)); [|by left].
           right. intros Hs. apply Hrej. by repeat split.
      * unfold rejected_siblings. rewrite foldl_alter_lookup by by intros [].
        rewrite lookup_insert_ne, Hother by done. by case_decide.
  - rewrite perform_update_no_cascade by by apply not_cascades.
    cbn [quotes]. rewrite lookup_insert. case_decide as Hk.
    + by rewrite decide_True.
    + rewrite decide_False by done.
      destruct (quotes db !! k) as [other|]; cbn; [|done].
      rewrite bool_decide_false; [done|]. by intros [? _].
Qed.

Lemma perform_update_designs db now id quote design validated d :
  designs db !! Quote.design quote = Some design →
  designs (QuoteDetailView.perform_update db now id quote design validated) !! d
  = if bool_decide (cascades db id quote validated ∧ d = Quote.design quote)
    then Some (Design.set_status ORDERED design)
    else designs db !! d.
Proof.
  intros Hdesign.
  destruct (decide (cascades db id quote validated)) as [(?&?&?)|Hoff].
  - rewrite perform_update_cascade by done. cbn [designs].
    destruct (decide (d = Quote.design quote)) as [->|Hd].
    + rewrite (bool_decide_true (_ ∧ _)) by by repeat split.
      case_bool_decide as Hordered.
      * by rewrite lookup_alter_eq, Hdesign.
      * rewrite Hdesign. f_equal. destruct design as [c s m g]. simpl in *.
        destruct (decide (s = ORDERED)) as [->|]; [done|]. by destruct Hordered.
    + rewrite (bool_decide_false (_ ∧ _)) by by intros [_ ?].
      case_bool_decide; [|done]. by rewrite lookup_alter_ne.
  - rewrite perform_update_no_cascade by by apply not_cascades.
    cbn [designs]. rewrite bool_decide_false; [done|]. by intros [? _].
Qed.

Lemma perform_update_orders_cascades db now id quote design validated :
  orders (QuoteDetailView.perform_update db now id quote design validated)
  = if bool_decide (cascades db id quote validated)
    then <[uuid4 (orders db) :=
             order_for now id (QuoteSerializer.update quote validated) design]>
           (orders db)
    else orders db.
Proof.
  case_bool_decide as Hc.
  - destruct Hc as (?&?&?). by rewrite perform_update_cascade.
  - by rewrite perform_update_no_cascade by by apply not_cascades.
Qed.

(** What a granted update permission means for an actor who is not staff. *)
Lemma granted_not_staff user data quote design :
  User.is_staff user = false →
  CanUpdateQuote.has_object_permission user data quote design = Granted →
  Quote.status quote = PENDING
  ∧ ((Design.customer design = User.pk user ∧ Data.len data = 1%nat
      ∧ (Data.status data = Some "accepted" ∨ Data.status data = Some "rejected"))
     ∨ (Quote.manufacturer quote = User.pk user
        ∧ Design.customer design ≠ User.pk user ∧ Data.len data = 1%nat
        ∧ Data.status data = Some "expired")
     ∨ (Quote.manufacturer quote = User.pk user ∧ Data.len data ≠ 1%nat
        ∧ Data.status data = Some "pending")
     ∨ (Quote.manufacturer quote = User.pk user ∧ Data.status data = None)).
Proof.
  intros Hstaff. unfold CanUpdateQuote.has_object_permission. rewrite Hstaff.
  destruct (decide (Design.customer design = User.pk user)) as [Ho|Ho];
    destruct (decide (Quote.manufacturer quote = User.pk user)) as [Hc|Hc];
    rewrite ?(bool_decide_true _ Ho), ?(bool_decide_false _ Ho),
      ?(bool_decide_true _ Hc), ?(bool_decide_false _ Hc);
    cbn [negb orb andb]; try done;
    destruct (Data.status data) as [new_status|];
    cbn [QuoteStatus_value].
  all: repeat case_bool_decide; cbn [andb orb]; try done; intros _.
  all: split; [done|].
  all: try match goal with
           | H : ¬ (?x ≠ ?y) |- _ =>
               assert (x = y) by (destruct (decide (x = y)); [done|by destruct H]);
               clear H
           end.
  all: try match goal with
           | H : Quote.status _ = PENDING, H' : context [QuoteStatus_value] |- _ =>
               rewrite H in H'; cbn [QuoteStatus_value] in H'
           end.
  all: subst; try done.
  all: try (left; by auto).
  all: try (right; left; by auto).
  all: try (right; right; left; by auto).
  all: try (right; right; right; by auto).
Qed.

(** ** Deleting quotes *)

Lemma destroy_Some db request_user id r db' :
  QuoteDetailView.destroy db request_user id = Some (r, db') →
  (∃ e, r = Error e ∧ db' = db)
  ∨ ∃ user quote design,
      request_user = Authenticated user
      ∧ quotes db !! id = Some quote
      ∧ designs db !! Quote.design quote = Some design
      ∧ (User.is_staff user = true
         ∨ (Quote.manufacturer quote = User.pk user
            ∧ Quote.status quote = PENDING))
      ∧ ¬ order_created_from (orders db) id
      ∧ r = OK tt
      ∧ db' = mkDatabase (designs db) (delete id (quotes db)) (orders db).
Proof.
  unfold QuoteDetailView.destroy.
  destruct request_user as [|user]; [intros [= <- <-]; eauto|].
  destruct (QuoteDetailView.get_object db id) as [[quote design]|] eqn:Hobj;
    [|intros [= <- <-]; eauto].
  apply get_object_Some in Hobj as [Hquote Hdesign].
  destruct (IsQuoteOwnerOrDesignOwnerOrAdmin.has_object_permission _ _ _);
    [|intros [= <- <-]; eauto].
  unfold QuoteDetailView.perform_destroy.
  destruct (negb _) eqn:Hmay; [intros [= <- <-]; eauto|].
  assert (User.is_staff user = true
          ∨ (Quote.manufacturer quote = User.pk user
             ∧ Quote.status quote = PENDING)) as Hmay'.
  { apply negb_false_iff, orb_true_iff in Hmay as [Hstaff|Hmay]; [by left|right].
    apply andb_true_iff in Hmay as [Hm Hs].
    by apply bool_decide_eq_true in Hm, Hs. }
  clear Hmay.
  destruct (decide (order_created_from (orders db) id)) as [Hguard|Hguard].
  { by rewrite bool_decide_true. }
  rewrite bool_decide_false by done. intros [= <- <-]. right.
  by exists user, quote, design.
Qed.

Lemma perform_destroy_allowed db user id quote :
  User.is_staff user = true
  ∨ (Quote.manufacturer quote = User.pk user ∧ Quote.status quote = PENDING) →
  ¬ order_created_from (orders db) id →
  QuoteDetailView.perform_destroy db user id quote
  = Some (OK tt, mkDatabase (designs db) (delete id (quotes db)) (orders db)).
Proof.
  intros Hmay Hguard. unfold QuoteDetailView.perform_destroy.
  rewrite (bool_decide_false (order_created_from _ _)) by done.
  destruct Hmay as [->|[Hm Hs]]; [done|].
  rewrite !bool_decide_true by done. by destruct (User.is_staff user).
Qed.

Lemma perform_destroy_refused db user id quote :
  ¬ (User.is_staff user = true
     ∨ (Quote.manufacturer quote = User.pk user ∧ Quote.status quote = PENDING)) →
  QuoteDetailView.perform_destroy db user id quote
  = Some (Error (PermissionDenied QuoteDetailView.destroy_message), db).
Proof.
  intros Hmay. unfold QuoteDetailView.perform_destroy.
  destruct (User.is_staff user); [destruct Hmay; by left|].
  destruct (decide (Quote.manufacturer quote = User.pk user)) as [Hm|Hm];
    [|by rewrite (bool_decide_false _ Hm)].
  destruct (decide (Quote.status quote = PENDING)) as [Hs|Hs];
    [|by rewrite (bool_decide_false _ Hs), andb_false_r].
  destruct Hmay. by right.
Qed.

(** X2: a DELETE on an existing quote succeeds exactly for a staff actor
    and for the quote's manufacturer while the quote is pending; it then
    removes the row of the quote and nothing else (for a quote no order
    refers to).  The owner of the design, and the manufacturer of a quote
    that left pending, pass the object permission but are refused by
    [perform_destroy] with its own message; anybody else is refused by
    the object permission with the default message.  A refusal writes
    nothing. *)
Theorem delete_rules db user id quote design :
  quotes db !! id = Some quote →
  designs db !! Quote.design quote = Some design →
  let may_delete :=
    User.is_staff user = true
    ∨ (Quote.manufacturer quote = User.pk user ∧ Quote.status quote = PENDING) in
  let result := QuoteDetailView.destroy db (Authenticated user) id in
  (may_delete → ¬ order_created_from (orders db) id →
   result = Some (OK tt,
                  mkDatabase (designs db) (delete id (quotes db)) (orders db)))
  ∧ (¬ may_delete →
     Quote.manufacturer quote = User.pk user
     ∨ Design.customer design = User.pk user →
     result = Some (Error (PermissionDenied
                      "You can only delete PENDING quotes that you created."), db))
  ∧ (¬ may_delete →
     Quote.manufacturer quote ≠ User.pk user →
     Design.customer design ≠ User.pk user →
     result = Some (Error (PermissionDenied
                      "You do not have permission to perform this action."), db)).
Proof.
  intros Hquote Hdesign may_delete result.
  unfold result, QuoteDetailView.destroy.
  rewrite (proj2 (get_object_Some db id quote design)) by done.
  split_and!.
  - intros Hmay Hguard.
    rewrite (proj2 (has_object_permission_true user quote design))
      by (unfold may_delete in Hmay; intuition).
    by apply perform_destroy_allowed.
  - intros Hnot Hinvolved.
    rewrite (proj2 (has_object_permission_true user quote design))
      by intuition.
    by apply perform_destroy_refused.
  - intros Hnot Hm Hc.
    rewrite (proj2 (has_object_permission_false user quote design)); [done|].
    split_and!; [|done..].
    destruct (User.is_staff user); [|done]. destruct Hnot. by left.
Qed.

Lemma delete_rules_witness :
  let db := fixtures.db in
  let destroy user := QuoteDetailView.destroy db (Authenticated user) 20%N in
  quotes db !! 20%N = Some fixtures.quote_mf1_design_c1
  ∧ destroy fixtures.manufacturer1
    = Some (OK tt, mkDatabase (designs db) (delete 20%N (quotes db)) (orders db))
  ∧ destroy fixtures.customer1
    = Some (Error (PermissionDenied
                     "You can only delete PENDING quotes that you created."), db)
  ∧ destroy fixtures.manufacturer2
    = Some (Error (PermissionDenied
                     "You do not have permission to perform this action."), db).
Proof.
  pose proof (λ user,
              delete_rules fixtures.db user 20%N fixtures.quote_mf1_design_c1
                fixtures.design_c1_analyzed eq_refl eq_refl) as Hrules.
  cbv zeta in *. split; [reflexivity|]. split_and!.
  - apply (Hrules fixtures.manufacturer1).
    + right. split; reflexivity.
    + apply map_Exists_empty.
  - apply (Hrules fixtures.customer1).
    + intros [[=]|[[=] _]].
    + right. reflexivity.
  - apply (Hrules fixtures.manufacturer2).
    + intros [[=]|[[=] _]].
    + intros [=].
    + intros [=].
Defined.

(** X3: an actor who is not staff, not the manufacturer of a quote and not
    the owner of its design can neither read, nor update, nor delete the
    quote, whatever the request body: each of the three requests answers
    with PermissionDenied and writes nothing, and the quote is not in the
    list of its design that the actor gets. *)
Theorem uninvolved_actor_is_refused db now user id data quote design :
  User.is_staff user = false →
  quotes db !! id = Some quote →
  designs db !! Quote.design quote = Some design →
  Quote.manufacturer quote ≠ User.pk user →
  Design.customer design ≠ User.pk user →
  QuoteDetailView.retrieve db (Authenticated user) id
  = Error (PermissionDenied "You do not have permission to perform this action.")
  ∧ QuoteDetailView.patch db now (Authenticated user) id data
    = (Error (PermissionDenied
         "You do not have permission to update this quote or perform this status change."),
       db)
  ∧ QuoteDetailView.destroy db (Authenticated user) id
    = Some (Error (PermissionDenied
                     "You do not have permission to perform this action."), db)
  ∧ ∃ rows,
      QuoteListCreateView.get db (Authenticated user) (Some (Quote.design quote))
      = OK rows
      ∧ rows !! id = None.
Proof.
  intros Hstaff Hquote Hdesign Hm Hc.
  assert (IsQuoteOwnerOrDesignOwnerOrAdmin.has_object_permission user quote design
          = false) as Hperm by by apply has_object_permission_false.
  split_and!.
  - by rewrite (retrieve_OK db user id quote design), Hperm.
  - unfold QuoteDetailView.patch.
    rewrite (proj2 (get_object_Some db id quote design)) by done.
    unfold CanUpdateQuote.has_object_permission.
    by rewrite Hstaff, !bool_decide_false by done.
  - unfold QuoteDetailView.destroy.
    by rewrite (proj2 (get_object_Some db id quote design)), Hperm.
  - destruct (get_queryset_OK db user _ design Hdesign) as [rows Hrows].
    exists rows. split; [done|].
    destruct (rows !! id) as [quote'|] eqn:Hrow; [|done].
    apply (get_queryset_lookup db user _ design rows id quote' Hdesign Hrows)
      in Hrow as (Hquote' & _ & Hwho).
    rewrite Hquote in Hquote'. injection Hquote' as <-.
    destruct Hwho as [?|[?|[_ ?]]]; congruence.
Qed.

Lemma uninvolved_actor_is_refused_witness :
  let db := fixtures.db in
  let user := Authenticated fixtures.manufacturer3 in
  QuoteDetailView.retrieve db user 20%N
  = Error (PermissionDenied "You do not have permission to perform this action.")
  ∧ QuoteDetailView.patch db 1000000 user 20%N
      (Data.mk None (Some (decimal.mk 100 (-2))) None None 0)
    = (Error (PermissionDenied
         "You do not have permission to update this quote or perform this status change."),
       db)
  ∧ QuoteDetailView.destroy db user 20%N
    = Some (Error (PermissionDenied
                     "You do not have permission to perform this action."), db).
Proof.
  destruct (uninvolved_actor_is_refused fixtures.db 1000000
              fixtures.manufacturer3 20%N
              (Data.mk None (Some (decimal.mk 100 (-2))) None None 0)
              fixtures.quote_mf1_design_c1 fixtures.design_c1_analyzed
              eq_refl eq_refl eq_refl ltac:(intros [=]) ltac:(intros [=]))
    as (Hget & Hpatch & Hdelete & _).
  cbv zeta. split; [exact Hget|]. split; [exact Hpatch|exact Hdelete].
Defined.

(** The model of DELETE has no outcome in exactly one case: a permitted
    DELETE of a quote that an order refers to. *)
Lemma destroy_None db request_user id :
  QuoteDetailView.destroy db request_user id = None
  ↔ order_created_from (orders db) id
    ∧ ∃ user quote design,
        request_user = Authenticated user
        ∧ quotes db !! id = Some quote
        ∧ designs db !! Quote.design quote = Some design
        ∧ (User.is_staff user = true
           ∨ (Quote.manufacturer quote = User.pk user
              ∧ Quote.status quote = PENDING)).
Proof.
  unfold QuoteDetailView.destroy.
  destruct request_user as [|user].
  { split; [done|]. by intros (_ & ? & ? & ? & ? & _). }
  destruct (QuoteDetailView.get_object db id) as [[quote design]|] eqn:Hobj.
  2:{ split; [done|]. intros (_ & ? & quote & design & [= <-] & Hq & Hd & _).
      by rewrite (proj2 (get_object_Some db id quote design)) in Hobj. }
  apply get_object_Some in Hobj as [Hquote Hdesign].
  destruct (decide (User.is_staff user = true
                    ∨ (Quote.manufacturer quote = User.pk user
                       ∧ Quote.status quote = PENDING))) as [Hmay|Hmay].
  - rewrite (proj2 (has_object_permission_true user quote design))
      by intuition.
    unfold QuoteDetailView.perform_destroy.
    assert (negb (User.is_staff user
                  || bool_decide (Quote.manufacturer quote = User.pk user)
                     && bool_decide (Quote.status quote = PENDING)) = false)
      as ->.
    { apply negb_false_iff, orb_true_iff. destruct Hmay as [?|[? ?]]; [by left|].
      right. by rewrite !bool_decide_true. }
    case_bool_decide as Hguard.
    + split; [|done]. intros _. split; [done|]. by exists user, quote, design.
    + split; [done|]. by intros [? _].
  - assert (∀ outcome : option (Response unit * Database),
              outcome ≠ None →
              outcome = None
              ↔ order_created_from (orders db) id
                ∧ ∃ user0 quote0 design0,
                    Authenticated user = Authenticated user0
                    ∧ quotes db !! id = Some quote0
                    ∧ designs db !! Quote.design quote0 = Some design0
                    ∧ (User.is_staff user0 = true
                       ∨ (Quote.manufacturer quote0 = User.pk user0
                          ∧ Quote.status quote0 = PENDING))) as Hrefused.
    { intros outcome Hsome. split; [done|].
      intros (_ & ? & quote' & ? & [= <-] & Hquote' & _ & Hmay').
      rewrite Hquote in Hquote'. injection Hquote' as <-. done. }
    destruct (IsQuoteOwnerOrDesignOwnerOrAdmin.has_object_permission _ _ _);
      [|by apply Hrefused].
    rewrite perform_destroy_refused by done. by apply Hrefused.
Qed.

Lemma destroy_is_Some db request_user id :
  ¬ order_created_from (orders db) id →
  is_Some (QuoteDetailView.destroy db request_user id).
Proof.
  intros Hguard.
  destruct (QuoteDetailView.destroy db request_user id) eqn:Hdestroy; [done|].
  apply destroy_None in Hdestroy as [? _]. done.
Qed.

(** X4: a DELETE that is refused, or that addresses a quote no order
    refers to, changes no design, no order and no quote other than the
    one addressed; that one is gone after a success and as it was after a
    refusal; and at most one quote per (design, manufacturer) remains at
    most one.  The one DELETE that is left out is the permitted DELETE of
    a quote that an order refers to: what it does to the order is decided
    in [orders/models.py], which is not among the sources, and the model
    has no outcome for it, and for it alone. *)
Theorem delete_removes_one_row db request_user id :
  (QuoteDetailView.destroy db request_user id = None
   ↔ order_created_from (orders db) id
     ∧ ∃ user quote design,
         request_user = Authenticated user
         ∧ quotes db !! id = Some quote
         ∧ designs db !! Quote.design quote = Some design
         ∧ (User.is_staff user = true
            ∨ (Quote.manufacturer quote = User.pk user
               ∧ Quote.status quote = PENDING)))
  ∧ (∀ r db',
       QuoteDetailView.destroy db request_user id = Some (r, db') →
       designs db' = designs db ∧ orders db' = orders db
       ∧ (∀ k, k ≠ id → quotes db' !! k = quotes db !! k)
       ∧ quotes db' !! id = (if r is OK _ then None else quotes db !! id)
       ∧ (one_quote_per_pair (quotes db) → one_quote_per_pair (quotes db'))).
Proof.
  split; [apply destroy_None|].
  intros r db'
    [(e & -> & ->)|(user & quote & design & _ & _ & _ & _ & _ & -> & ->)]
    %destroy_Some; [done|].
  cbn [designs quotes orders]. split_and!; try done.
  - intros k Hk. by rewrite lookup_delete_ne.
  - by rewrite lookup_delete_eq.
  - intros Hone i j quote1 quote2 Hi%lookup_delete_Some Hj%lookup_delete_Some.
    apply Hone; tauto.
Qed.

Lemma delete_removes_one_row_witness :
  let db := fixtures.db in
  let db' := mkDatabase (designs db) (delete 20%N (quotes db)) (orders db) in
  QuoteDetailView.destroy db (Authenticated fixtures.manufacturer1) 20%N
  = Some (OK tt, db')
  ∧ quotes db' !! 20%N = None
  ∧ quotes db' !! 21%N = Some fixtures.quote_mf2_design_c1
  ∧ QuoteDetailView.destroy fixtures.db_accepted
      (Authenticated fixtures.admin_user) 20%N = None.
Proof.
  cbv zeta.
  assert (QuoteDetailView.destroy fixtures.db
            (Authenticated fixtures.manufacturer1) 20%N
          = Some (OK tt, mkDatabase (designs fixtures.db)
                           (delete 20%N (quotes fixtures.db))
                           (orders fixtures.db))) as Hdestroy
    by (vm_compute; reflexivity).
  destruct (proj2 (delete_removes_one_row fixtures.db
                     (Authenticated fixtures.manufacturer1) 20%N) _ _ Hdestroy)
    as (_ & _ & Hothers & Hid & _).
  split; [exact Hdestroy|]. split; [exact Hid|]. split.
  - rewrite Hothers by discriminate. reflexivity.
  - vm_compute. reflexivity.
Defined.

(** ** Creating quotes *)

Lemma run_field_validation_post data validated :
  QuoteSerializer.run_field_validation false data = OK validated
  ↔ ∃ price lead_time,
      Data.price_usd data = Some price
      ∧ Data.estimated_lead_time_days data = Some lead_time
      ∧ match Data.status data with
        | Some raw =>
            ∃ s, QuoteSerializer.to_internal_value raw = Some s
                 ∧ QuoteSerializer.status validated = Some s
        | None => QuoteSerializer.status validated = None
        end
      ∧ validated
        = QuoteSerializer.mkValidated (QuoteSerializer.status validated)
            (Some price) (Some lead_time) (Data.notes data).
Proof.
  unfold QuoteSerializer.run_field_validation. cbn [negb andb].
  destruct (Data.price_usd data) as [price|],
    (Data.estimated_lead_time_days data) as [lead_time|];
    cbn [QuoteSerializer.missing orb].
  2-4: split; [done|]; intros (? & ? & ? & ? & _); done.
  destruct (Data.status data) as [raw|].
  - destruct (QuoteSerializer.to_internal_value raw) as [s|].
    + split.
      * intros [= <-]. exists price, lead_time. eauto 10.
      * intros (? & ? & [= <-] & [= <-] & (s' & [= <-] & Hs) & ->).
        by rewrite Hs.
    + split; [done|]. by intros (? & ? & _ & _ & (s' & ? & _) & _).
  - split.
    + intros [= <-]. exists price, lead_time. eauto 10.
    + intros (? & ? & [= <-] & [= <-] & Hs & ->). by rewrite Hs.
Qed.

(** A POST that passes the create check, carries the required fields and
    a valid status, if any, and finds no quote of the pair, creates the
    quote. *)
Lemma post_creates db user design_pk data price lead_time s :
  CanCreateQuoteForDesign.has_permission (Authenticated user) (Some design_pk)
    (designs db) = Granted →
  ¬ QuoteListCreateView.quote_exists (quotes db) design_pk (User.pk user) →
  Data.price_usd data = Some price →
  Data.estimated_lead_time_days data = Some lead_time →
  match Data.status data with
  | Some raw => QuoteSerializer.to_internal_value raw = Some s
  | None => s = PENDING
  end →
  let id := uuid4 (quotes db) in
  let quote :=
    Quote.mk design_pk (User.pk user) price lead_time s
      (default None (Data.notes data)) in
  QuoteListCreateView.post db (Authenticated user) (Some design_pk) data
  = (OK (id, quote),
     mkDatabase (designs db) (<[id := quote]> (quotes db)) (orders db)).
Proof.
  intros Hcheck Hnew Hprice Hlead Hstatus id quote.
  unfold QuoteListCreateView.post. rewrite Hcheck.
  pose (validated :=
          QuoteSerializer.mkValidated
            (Data.status data ≫= QuoteSerializer.to_internal_value)
            (Some price) (Some lead_time) (Data.notes data)).
  assert (QuoteSerializer.run_field_validation false data = OK validated)
    as ->.
  { apply run_field_validation_post. exists price, lead_time.
    split_and!; try done. unfold validated.
    destruct (Data.status data) as [raw|]; cbn; [|done].
    rewrite Hstatus. eauto. }
  cbn [QuoteSerializer.validate].
  unfold QuoteListCreateView.perform_create.
  apply has_permission_Granted in Hcheck
    as (? & ? & design & [= <-] & _ & [= <-] & -> & _).
  rewrite bool_decide_false by done.
  unfold QuoteSerializer.create, validated.
  cbn [QuoteSerializer.price_usd QuoteSerializer.estimated_lead_time_days
       QuoteSerializer.notes QuoteSerializer.status mbind option_bind].
  assert (default PENDING (Data.status data ≫= QuoteSerializer.to_internal_value)
          = s) as ->.
  { destruct (Data.status data) as [raw|]; cbn; [by rewrite Hstatus|done]. }
  done.
Qed.

(** X5: for a body whose price and lead time, if present, have values
    that their fields accept (a body with a value that its field refuses
    is answered with 400 by the field and has no representation in
    [Data]), a POST creates a quote exactly when the create check passes,
    the body carries a price and a lead time, its status, if any, is one
    of the four values, and no quote of the actor for the design exists.
    The quote is then stored under a fresh key with the design of the
    URL, the actor as manufacturer, the price, lead time and notes of the
    body, and the status of the body (pending when the body has none):
    the status is writable, so a body may create a quote in any status,
    and no order or design is touched by it. *)
Theorem post_creates_exactly db request_user design_id data id quote db' :
  QuoteListCreateView.post db request_user design_id data = (OK (id, quote), db')
  ↔ ∃ user design_pk price lead_time,
      request_user = Authenticated user ∧ design_id = Some design_pk
      ∧ CanCreateQuoteForDesign.has_permission request_user design_id (designs db)
        = Granted
      ∧ ¬ QuoteListCreateView.quote_exists (quotes db) design_pk (User.pk user)
      ∧ Data.price_usd data = Some price
      ∧ Data.estimated_lead_time_days data = Some lead_time
      ∧ match Data.status data with
        | Some raw =>
            QuoteSerializer.to_internal_value raw = Some (Quote.status quote)
        | None => Quote.status quote = PENDING
        end
      ∧ id = uuid4 (quotes db)
      ∧ quote = Quote.mk design_pk (User.pk user) price lead_time
                  (Quote.status quote) (default None (Data.notes data))
      ∧ db' = mkDatabase (designs db) (<[id := quote]> (quotes db)) (orders db).
Proof.
  unfold QuoteListCreateView.post. split.
  - destruct request_user as [|user]; [done|].
    destruct (CanCreateQuoteForDesign.has_permission _ _ _) eqn:Hcheck; [|done].
    destruct (QuoteSerializer.run_field_validation false data)
      as [validated|] eqn:Hfields; [|done].
    cbn [QuoteSerializer.validate].
    apply run_field_validation_post in Hfields
      as (price & lead_time & Hprice & Hlead & Hstatus & Hvalidated).
    unfold QuoteListCreateView.perform_create.
    destruct design_id as [design_pk|]; [|done].
    destruct (designs db !! design_pk); [|done].
    case_bool_decide as Hexists; [done|].
    rewrite Hvalidated. unfold QuoteSerializer.create.
    cbn [QuoteSerializer.price_usd QuoteSerializer.estimated_lead_time_days
         QuoteSerializer.notes QuoteSerializer.status mbind option_bind].
    intros [= <- <- <-]. exists user, design_pk, price, lead_time.
    split_and!; try done. cbn [Quote.status].
    destruct (Data.status data) as [raw|].
    + destruct Hstatus as (s & -> & ->). done.
    + by rewrite Hstatus.
  - intros (user & design_pk & price & lead_time & -> & -> & Hcheck & Hnew
            & Hprice & Hlead & Hstatus & -> & -> & ->).
    by apply post_creates.
Qed.

Lemma quote_exists_delete quotes id quote :
  one_quote_per_pair quotes →
  quotes !! id = Some quote →
  ¬ QuoteListCreateView.quote_exists (delete id quotes) (Quote.design quote)
      (Quote.manufacturer quote).
Proof.
  intros Hone Hquote (j & quote' & [Hj Hquote']%lookup_delete_Some & Hd & Hm).
  apply Hj. symmetry. by eapply Hone.
Qed.

(** X6: the duplicate check gives way only to a deletion.  While the
    pending quote of a manufacturer for a design is there, another POST by
    the manufacturer is refused as a duplicate; once the manufacturer has
    deleted it, the same POST succeeds, and the quotes are again at most
    one per (design, manufacturer). *)
Theorem withdrawn_quote_can_be_submitted_again
    db user id quote design data price lead_time :
  one_quote_per_pair (quotes db) →
  quotes db !! id = Some quote →
  designs db !! Quote.design quote = Some design →
  Quote.manufacturer quote = User.pk user →
  Quote.status quote = PENDING →
  ¬ order_created_from (orders db) id →
  User.role user = MANUFACTURER →
  Design.customer design ≠ User.pk user →
  Design.status design = ANALYSIS_COMPLETE →
  Data.price_usd data = Some price →
  Data.estimated_lead_time_days data = Some lead_time →
  Data.status data = None →
  let post db :=
    QuoteListCreateView.post db (Authenticated user) (Some (Quote.design quote))
      data in
  let db1 := mkDatabase (designs db) (delete id (quotes db)) (orders db) in
  let new_quote :=
    Quote.mk (Quote.design quote) (User.pk user) price lead_time PENDING
      (default None (Data.notes data)) in
  post db
  = (Error (ValidationError "You have already submitted a quote for this design."),
     db)
  ∧ QuoteDetailView.destroy db (Authenticated user) id = Some (OK tt, db1)
  ∧ post db1
    = (OK (uuid4 (quotes db1), new_quote),
       mkDatabase (designs db) (<[uuid4 (quotes db1) := new_quote]> (quotes db1))
         (orders db))
  ∧ one_quote_per_pair (<[uuid4 (quotes db1) := new_quote]> (quotes db1)).
Proof.
  intros Hone Hquote Hdesign Hm Hs Hguard Hrole Howner Hstatus Hprice Hlead Hnone
    post db1 new_quote.
  assert (CanCreateQuoteForDesign.has_permission (Authenticated user)
            (Some (Quote.design quote)) (designs db) = Granted) as Hcheck.
  { apply has_permission_Granted. by exists user, (Quote.design quote), design. }
  assert (¬ QuoteListCreateView.quote_exists (quotes db1) (Quote.design quote)
              (User.pk user)) as Hnew.
  { rewrite <- Hm. by apply quote_exists_delete. }
  split_and!.
  - unfold post, QuoteListCreateView.post. rewrite Hcheck.
    unfold QuoteSerializer.run_field_validation.
    rewrite Hprice, Hlead, Hnone. cbn [negb andb orb QuoteSerializer.missing].
    cbn [QuoteSerializer.validate].
    eapply perform_create_duplicate; [done|]. by exists id, quote.
  - unfold QuoteDetailView.destroy.
    rewrite (proj2 (get_object_Some db id quote design)) by done.
    rewrite (proj2 (has_object_permission_true user quote design)) by auto.
    apply perform_destroy_allowed; auto.
  - apply (post_creates db1); try done. by rewrite Hnone.
  - apply one_quote_per_pair_insert; [|apply uuid4_fresh|done].
    unfold db1. cbn [quotes].
    intros i j quote1 quote2 Hi%lookup_delete_Some Hj%lookup_delete_Some.
    apply Hone; tauto.
Qed.

Lemma withdrawn_quote_can_be_submitted_again_witness :
  let db := fixtures.db in
  let user := Authenticated fixtures.manufacturer1 in
  let data := Data.mk None (Some (decimal.mk 16000 (-2))) (Some 9) None 0 in
  let db1 := mkDatabase (designs db) (delete 20%N (quotes db)) (orders db) in
  QuoteListCreateView.post db user (Some 10%N) data
  = (Error (ValidationError "You have already submitted a quote for this design."),
     db)
  ∧ QuoteDetailView.destroy db user 20%N = Some (OK tt, db1)
  ∧ (QuoteListCreateView.post db1 user (Some 10%N) data).1
    = OK (uuid4 (quotes db1),
          Quote.mk 10%N 2%N (decimal.mk 16000 (-2)) 9 PENDING None).
Proof.
  assert (one_quote_per_pair (quotes fixtures.db)) as Hone.
  { intros i j quote1 quote2. cbn [quotes fixtures.db].
    rewrite !lookup_insert, !lookup_singleton.
    repeat case_decide; intros; simplify_eq; done. }
  pose proof (withdrawn_quote_can_be_submitted_again fixtures.db
                fixtures.manufacturer1 20%N fixtures.quote_mf1_design_c1
                fixtures.design_c1_analyzed
                (Data.mk None (Some (decimal.mk 16000 (-2))) (Some 9) None 0)
                (decimal.mk 16000 (-2)) 9
                Hone eq_refl eq_refl eq_refl eq_refl (map_Exists_empty _)
                eq_refl ltac:(intros [=]) eq_refl eq_refl eq_refl eq_refl)
    as (Hduplicate & Hdestroy & Hpost & _).
  cbv zeta. split; [exact Hduplicate|]. split; [exact Hdestroy|].
  exact (f_equal fst Hpost).
Defined.

(** ** Updating quotes *)

(** X7: an update without a status member (price, lead time, notes, with
    values the fields accept) by an actor who is not staff succeeds exactly
    when the actor is the manufacturer of the quote and the quote is
    pending.  It then replaces the members sent, keeps the status, the
    design and the manufacturer, and writes nothing but the row of the
    quote; otherwise the answer is PermissionDenied and nothing is
    written. *)
Theorem detail_update_rules db now user id data quote design :
  User.is_staff user = false →
  quotes db !! id = Some quote →
  designs db !! Quote.design quote = Some design →
  Design.customer design ≠ Quote.manufacturer quote →
  Data.status data = None →
  let result := QuoteDetailView.patch db now (Authenticated user) id data in
  let updated :=
    Quote.mk (Quote.design quote) (Quote.manufacturer quote)
      (default (Quote.price_usd quote) (Data.price_usd data))
      (default (Quote.estimated_lead_time_days quote)
         (Data.estimated_lead_time_days data))
      (Quote.status quote)
      (default (Quote.notes quote) (Data.notes data)) in
  if bool_decide (Quote.manufacturer quote = User.pk user
                  ∧ Quote.status quote = PENDING)
  then result = (OK updated,
                 mkDatabase (designs db) (<[id := updated]> (quotes db))
                   (orders db))
  else ∃ message, result = (Error (PermissionDenied message), db).
Proof.
  intros Hstaff Hquote Hdesign Hinv Hdata result updated.
  unfold result, QuoteDetailView.patch.
  rewrite (proj2 (get_object_Some db id quote design)) by done.
  unfold CanUpdateQuote.has_object_permission. rewrite Hstaff, Hdata.
  case_bool_decide as Hrule.
  - destruct Hrule as [Hm Hs].
    rewrite (bool_decide_true (Quote.manufacturer quote = _)),
      (bool_decide_true (Quote.status quote = _)) by done.
    rewrite orb_true_r. cbn [negb andb].
    unfold QuoteSerializer.run_field_validation. rewrite Hdata.
    cbn [negb andb QuoteSerializer.validate QuoteSerializer.status].
    rewrite (bool_decide_false (Design.customer design = _)) by done.
    rewrite perform_update_no_cascade by (right; left; cbn; congruence).
    done.
  - destruct (negb _); [eauto|].
    destruct (decide (Quote.manufacturer quote = User.pk user)) as [Hm|Hm].
    + rewrite (bool_decide_false (Quote.status quote = _)) by tauto.
      rewrite andb_false_r. eauto.
    + rewrite (bool_decide_false (Quote.manufacturer quote = _)) by done.
      cbn [andb]. eauto.
Qed.

Lemma detail_update_rules_witness :
  let db := fixtures.db in
  let data := Data.mk None (Some (decimal.mk 14000 (-2))) None None 0 in
  let patch user := QuoteDetailView.patch db 1000000 (Authenticated user) 20%N data in
  (patch fixtures.manufacturer1).1
  = OK (Quote.mk 10%N 2%N (decimal.mk 14000 (-2)) 10 PENDING None)
  ∧ ∃ message,
      patch fixtures.customer1 = (Error (PermissionDenied message), db).
Proof.
  pose proof (λ user Hstaff,
              detail_update_rules fixtures.db 1000000 user 20%N
                (Data.mk None (Some (decimal.mk 14000 (-2))) None None 0)
                fixtures.quote_mf1_design_c1 fixtures.design_c1_analyzed
                Hstaff eq_refl eq_refl ltac:(intros [=]) eq_refl) as Hrules.
  cbv zeta in *. split.
  - pose proof (Hrules fixtures.manufacturer1 eq_refl) as Hupdate.
    rewrite bool_decide_true in Hupdate by (split; reflexivity).
    exact (f_equal fst Hupdate).
  - pose proof (Hrules fixtures.customer1 eq_refl) as Hdenied.
    rewrite bool_decide_false in Hdenied by (by intros [[=] _]).
    exact Hdenied.
Defined.

(** X8: what a PATCH can change besides the quote addressed.  It adds and
    removes no quote and no design.  Another quote is left as it was, or,
    when the body asks for accepted, a pending quote of the same design is
    set to rejected.  A design is left as it was, or, when the body asks
    for accepted, the design of the quote addressed is set to ordered. *)
Theorem patch_frame db now request_user id data :
  let db' := (QuoteDetailView.patch db now request_user id data).2 in
  dom (quotes db') = dom (quotes db)
  ∧ dom (designs db') = dom (designs db)
  ∧ (∀ k other, k ≠ id → quotes db !! k = Some other →
       quotes db' !! k = Some other
       ∨ (Quote.status other = PENDING
          ∧ Data.status data = Some "accepted"
          ∧ (∃ quote, quotes db !! id = Some quote
                      ∧ Quote.design other = Quote.design quote)
          ∧ quotes db' !! k = Some (Quote.set_status REJECTED other)))
  ∧ (∀ d design, designs db !! d = Some design →
       designs db' !! d = Some design
       ∨ (Data.status data = Some "accepted"
          ∧ (∃ quote, quotes db !! id = Some quote ∧ Quote.design quote = d)
          ∧ designs db' !! d = Some (Design.set_status ORDERED design))).
Proof.
  destruct (QuoteDetailView.patch db now request_user id data)
    as [[body|e] db'] eqn:Hpatch; cbn [snd].
  2:{ apply patch_Error in Hpatch as ->. split_and!; auto. }
  apply patch_OK in Hpatch
    as (user & quote & design & validated & -> & Hobj & _ & Hfields & _ & _ & ->).
  apply get_object_Some in Hobj as [Hquote Hdesign].
  assert (cascades db id quote validated → Data.status data = Some "accepted")
    as Haccepted.
  { intros (_ & Hnew & _).
    apply run_field_validation_patch in Hfields as [-> _].
    cbn [QuoteSerializer.status] in Hnew.
    destruct (Data.status data) as [raw|]; [|done]. cbn in Hnew.
    by apply to_internal_value_Some in Hnew as ->. }
  split_and!.
  - apply set_eq. intros k. rewrite !elem_of_dom, perform_update_quotes.
    case_decide as Hk; [subst k; by rewrite Hquote|].
    by rewrite fmap_is_Some.
  - apply set_eq. intros d. rewrite !elem_of_dom, perform_update_designs by done.
    case_bool_decide as Hd; [|done].
    destruct Hd as [_ ->]. by rewrite Hdesign.
  - intros k other Hk Hother.
    rewrite perform_update_quotes, decide_False, Hother by done.
    cbn [fmap option_fmap option_map].
    case_bool_decide as Hrej; [right|by left].
    destruct Hrej as (Hc & Hd & Hs). split_and!; eauto.
  - intros d design' Hdesign'.
    rewrite perform_update_designs by done.
    case_bool_decide as Hd; [right|by left].
    destruct Hd as [Hc ->]. rewrite Hdesign in Hdesign'. injection Hdesign' as <-.
    split_and!; eauto.
Qed.

(** The serializer lets only the owner of the design move a quote to
    accepted. *)
Lemma validate_accepted request_user quote design validated validated' :
  QuoteSerializer.validate request_user (Some (quote, design)) validated
  = OK validated' →
  QuoteSerializer.status validated = Some ACCEPTED →
  Quote.status quote ≠ ACCEPTED →
  ∃ user, request_user = Authenticated user
          ∧ User.pk user = Design.customer design
          ∧ Design.customer design ≠ Quote.manufacturer quote.
Proof.
  unfold QuoteSerializer.validate. intros Hvalid Hnew Hedge.
  rewrite Hnew in Hvalid.
  destruct (decide (Design.customer design = Quote.manufacturer quote)) as [Hinv|Hinv].
  { by rewrite bool_decide_true in Hvalid. }
  rewrite (bool_decide_false _ Hinv) in Hvalid.
  destruct request_user as [|user]; [done|].
  destruct (decide (User.pk user = Design.customer design)) as [Ho|Ho];
    [by exists user|].
  rewrite (bool_decide_false _ Ho) in Hvalid.
  destruct (decide (User.pk user = Quote.manufacturer quote)) as [Hm|Hm].
  - rewrite (bool_decide_true _ Hm) in Hvalid.
    rewrite !bool_decide_true in Hvalid by (done || congruence). done.
  - by rewrite (bool_decide_false _ Hm) in Hvalid.
Qed.

(** X9: an order is created only by a request of the owner of the design:
    whenever a PATCH changes the orders, the actor is authenticated and
    owns the design of the quote, the body asks for accepted, the quote was
    not accepted, and, unless the actor is staff, the quote was pending and
    the body holds the status alone.  A manufacturer, even a staff one,
    never creates an order for a design of somebody else. *)
Theorem only_the_design_owner_creates_orders db now request_user id data :
  orders (QuoteDetailView.patch db now request_user id data).2 ≠ orders db →
  ∃ user quote design,
    request_user = Authenticated user
    ∧ quotes db !! id = Some quote
    ∧ designs db !! Quote.design quote = Some design
    ∧ User.pk user = Design.customer design
    ∧ Design.customer design ≠ Quote.manufacturer quote
    ∧ Data.status data = Some "accepted"
    ∧ Quote.status quote ≠ ACCEPTED
    ∧ (User.is_staff user = true
       ∨ (Quote.status quote = PENDING ∧ Data.len data = 1%nat)).
Proof.
  destruct (QuoteDetailView.patch db now request_user id data)
    as [[body|e] db'] eqn:Hpatch; cbn [snd].
  2:{ apply patch_Error in Hpatch as ->. done. }
  apply patch_OK in Hpatch
    as (user & quote & design & validated & -> & Hobj & Hperm & Hfields & Hvalid
        & _ & ->).
  apply get_object_Some in Hobj as [Hquote Hdesign].
  rewrite perform_update_orders_cascades.
  case_bool_decide as Hc; [|done]. intros _.
  destruct Hc as (Hedge & Hnew & Hguard).
  destruct (validate_accepted _ _ _ _ _ Hvalid Hnew Hedge)
    as (user' & [= <-] & Howner & Hinv).
  assert (Data.status data = Some "accepted") as Hdata.
  { apply run_field_validation_patch in Hfields as [-> _].
    cbn [QuoteSerializer.status] in Hnew.
    destruct (Data.status data) as [raw|]; [|done]. cbn in Hnew.
    by apply to_internal_value_Some in Hnew as ->. }
  exists user, quote, design. split_and!; try done.
  destruct (User.is_staff user) eqn:Hstaff; [by left|right].
  apply granted_not_staff in Hperm as [Hs Hcases]; [|done].
  split; [done|].
  destruct Hcases as [(_ & Hlen & _)|[(_ & _ & _ & Hd)|[(_ & _ & Hd)|(_ & Hd)]]];
    [done|congruence..].
Qed.

Lemma only_the_design_owner_creates_orders_witness :
  ∃ user quote design,
    Authenticated fixtures.customer1 = Authenticated user
    ∧ quotes fixtures.db !! 20%N = Some quote
    ∧ designs fixtures.db !! Quote.design quote = Some design
    ∧ User.pk user = Design.customer design.
Proof.
  destruct (only_the_design_owner_creates_orders fixtures.db 1000000
              (Authenticated fixtures.customer1) 20%N
              (fixtures.only_status "accepted")
              ltac:(vm_compute; discriminate))
    as (user & quote & design & Huser & Hquote & Hdesign & Howner & _).
  exists user, quote, design.
  split; [exact Huser|]. split; [exact Hquote|]. split; [exact Hdesign|].
  exact Howner.
Defined.

(** X10: for actors who are not staff, accepted, rejected and expired are
    final: a quote that is not pending is left exactly as it is by every
    PATCH of such an actor, on this quote or on another one; a PATCH on
    the quote itself is refused with PermissionDenied. *)
Theorem settled_quotes_are_immutable db now user id data k quote :
  User.is_staff user = false →
  quotes db !! k = Some quote →
  Quote.status quote ≠ PENDING →
  quotes (QuoteDetailView.patch db now (Authenticated user) id data).2 !! k
  = Some quote
  ∧ (k = id →
     ∀ design, designs db !! Quote.design quote = Some design →
     ∃ message,
       QuoteDetailView.patch db now (Authenticated user) id data
       = (Error (PermissionDenied message), db)).
Proof.
  intros Hstaff Hquote Hsettled.
  destruct (QuoteDetailView.patch db now (Authenticated user) id data)
    as [[body|e] db'] eqn:Hpatch; cbn [snd].
  - apply patch_OK in Hpatch
      as (user' & quote' & design & validated & [= <-] & Hobj & Hperm & _ & _
          & _ & ->).
    apply get_object_Some in Hobj as [Hquote' Hdesign].
    apply granted_not_staff in Hperm as [Hpending _]; [|done].
    assert (k ≠ id) as Hk by (intros ->; congruence).
    split; [|done].
    rewrite perform_update_quotes, decide_False, Hquote by done.
    cbn [fmap option_fmap option_map].
    rewrite bool_decide_false; [done|]. by intros (_ & _ & ?).
  - apply patch_Error in Hpatch as Hsame. subst db'. split; [done|].
    intros -> design Hdesign. revert Hpatch. unfold QuoteDetailView.patch.
    rewrite (proj2 (get_object_Some db id quote design)) by done.
    destruct (CanUpdateQuote.has_object_permission _ _ _ _) as [|message]
      eqn:Hperm.
    + apply granted_not_staff in Hperm as [Hpending _]; done.
    + intros [= <-]. by exists message.
Qed.

Lemma settled_quotes_are_immutable_witness :
  let db := fixtures.db_accepted in
  let rejected := Quote.set_status REJECTED fixtures.quote_mf2_design_c1 in
  let data := Data.mk None (Some (decimal.mk 17000 (-2))) None None 0 in
  quotes db !! 21%N = Some rejected
  ∧ quotes (QuoteDetailView.patch db 2000000
              (Authenticated fixtures.manufacturer2) 21%N data).2 !! 21%N
    = Some rejected
  ∧ ∃ message,
      QuoteDetailView.patch db 2000000 (Authenticated fixtures.manufacturer2)
        21%N data
      = (Error (PermissionDenied message), db).
Proof.
  destruct (settled_quotes_are_immutable fixtures.db_accepted 2000000
              fixtures.manufacturer2 21%N
              (Data.mk None (Some (decimal.mk 17000 (-2))) None None 0) 21%N
              (Quote.set_status REJECTED fixtures.quote_mf2_design_c1)
              eq_refl ltac:(vm_compute; reflexivity) ltac:(intros [=]))
    as [Hsame Hdenied].
  cbv zeta. split; [vm_compute; reflexivity|]. split; [exact Hsame|].
  apply (Hdenied eq_refl (Design.set_status ORDERED fixtures.design_c1_analyzed)).
  vm_compute. reflexivity.
Defined.

Lemma run_field_validation_required data validated :
  QuoteSerializer.run_field_validation false data = OK validated →
  QuoteSerializer.run_field_validation true data = OK validated
  ∧ is_Some (Data.price_usd data)
  ∧ is_Some (Data.estimated_lead_time_days data).
Proof.
  unfold QuoteSerializer.run_field_validation. cbn [negb andb].
  destruct (Data.price_usd data), (Data.estimated_lead_time_days data);
    cbn [QuoteSerializer.missing orb]; done.
Qed.

(** X18: a PUT is the PATCH of a body that carries the price and the lead
    time: whenever it succeeds, the PATCH of the same body succeeds with
    the same answer and the same writes, and the body holds both fields;
    a failed PUT writes nothing.  As a body with the status alone lacks
    them and a body with more is a mixed update, an actor who is not staff
    and not the manufacturer of the quote, the owner of the design among
    them, changes nothing through PUT: accepting and rejecting a quote
    works through PATCH only. *)
Theorem put_is_a_complete_patch db now request_user id data :
  let result := QuoteDetailView.put db now request_user id data in
  (∀ body db', result = (OK body, db') →
     QuoteDetailView.patch db now request_user id data = (OK body, db')
     ∧ is_Some (Data.price_usd data)
     ∧ is_Some (Data.estimated_lead_time_days data))
  ∧ (∀ e db', result = (Error e, db') → db' = db)
  ∧ (∀ user quote,
       request_user = Authenticated user → User.is_staff user = false →
       quotes db !! id = Some quote →
       Quote.manufacturer quote ≠ User.pk user →
       ∃ e, result = (Error e, db)).
Proof.
  cbv zeta. unfold QuoteDetailView.put, QuoteDetailView.patch. split_and!.
  - intros body db'.
    destruct request_user as [|user]; [done|].
    destruct (QuoteDetailView.get_object db id) as [[quote design]|]; [|done].
    destruct (CanUpdateQuote.has_object_permission _ _ _ _); [|done].
    destruct (QuoteSerializer.run_field_validation false data)
      as [validated|] eqn:Hfields; [|done].
    apply run_field_validation_required in Hfields as (-> & Hprice & Hlead).
    destruct (QuoteSerializer.validate _ _ _); [|done].
    by intros [= <- <-].
  - intros e db'.
    repeat (match goal with
            | |- context [match ?x with _ => _ end] => destruct x
            end); by intros [= <-].
  - intros user quote -> Hstaff Hquote Hm.
    destruct (QuoteDetailView.get_object db id) as [[quote' design]|] eqn:Hobj;
      [|eauto].
    apply get_object_Some in Hobj as [Hquote' Hdesign].
    rewrite Hquote in Hquote'. injection Hquote' as <-.
    destruct (CanUpdateQuote.has_object_permission _ _ _ _) eqn:Hperm; [|eauto].
    apply granted_not_staff in Hperm as [_ Hcases]; [|done].
    destruct Hcases as [(_ & Hlen & _)|[(? & _)|[(? & _)|(? & _)]]]; try done.
    destruct (QuoteSerializer.run_field_validation false data)
      as [validated|] eqn:Hfields; [|eauto].
    apply run_field_validation_required in Hfields
      as (_ & [price Hprice] & [lead_time Hlead]).
    unfold Data.len in Hlen. rewrite Hprice, Hlead in Hlen.
    cbn [Data.present] in Hlen. lia.
Qed.

(** ** Invariants of the requests *)

Lemma post_frame db request_user design_id data :
  let db' := (QuoteListCreateView.post db request_user design_id data).2 in
  db' = db
  ∨ ∃ id quote design,
      db' = mkDatabase (designs db) (<[id := quote]> (quotes db)) (orders db)
      ∧ quotes db !! id = None
      ∧ designs db !! Quote.design quote = Some design
      ∧ Design.status design = ANALYSIS_COMPLETE.
Proof.
  destruct (post_quotes db request_user design_id data)
    as [[e ->]|(user & design_pk & id & quote & -> & -> & Hcheck & _ & Hfresh
                & Hd & _ & ->)]; [by left|right].
  apply has_permission_Granted in Hcheck
    as (? & ? & design & _ & _ & [= <-] & Hdesign & _ & Hstatus).
  exists id, quote, design. by rewrite Hd.
Qed.

(** X11: "an ordered design has no pending quote" is an invariant of the
    requests of actors who are not staff: if it holds, it holds after
    every PATCH of such an actor, after every POST, and after every
    DELETE that is refused or addresses a quote no order refers to (such
    a DELETE has an outcome; the permitted DELETE of a quote that an
    order refers to is not modelled). *)
Theorem ordered_designs_keep_no_pending_quote db :
  ordered_designs_have_no_pending_quote db →
  (∀ now user id data,
     User.is_staff user = false →
     ordered_designs_have_no_pending_quote
       (QuoteDetailView.patch db now (Authenticated user) id data).2)
  ∧ (∀ request_user design_id data,
       ordered_designs_have_no_pending_quote
         (QuoteListCreateView.post db request_user design_id data).2)
  ∧ (∀ request_user id,
       (¬ order_created_from (orders db) id →
        is_Some (QuoteDetailView.destroy db request_user id))
       ∧ ∀ r db',
           QuoteDetailView.destroy db request_user id = Some (r, db') →
           ordered_designs_have_no_pending_quote db').
Proof.
  intros Hinv. split_and!.
  - intros now user id data Hstaff.
    destruct (QuoteDetailView.patch db now (Authenticated user) id data)
      as [[body|e] db'] eqn:Hpatch; cbn [snd].
    2:{ by apply patch_Error in Hpatch as ->. }
    apply patch_OK in Hpatch
      as (user' & quote & design & validated & [= <-] & Hobj & Hperm & Hfields
          & _ & _ & ->).
    apply get_object_Some in Hobj as [Hquote Hdesign].
    apply granted_not_staff in Hperm as [Hpending Hcases]; [|done].
    assert (Design.status design ≠ ORDERED) as Hopen.
    { intros Hordered. by eapply Hinv. }
    intros k quote' design'.
    rewrite perform_update_quotes, perform_update_designs by done.
    destruct (decide (cascades db id quote validated)) as [Hc|Hc].
    + case_decide as Hk.
      * intros [= <-] _ _. destruct Hc as (_ & Hnew & _).
        cbn. rewrite Hnew. done.
      * destruct (quotes db !! k) as [other|] eqn:Hother; [|done].
        cbn [fmap option_fmap option_map].
        destruct (decide (Quote.design other = Quote.design quote)) as [Hd|Hd].
        -- destruct (decide (Quote.status other = PENDING)) as [Hs|Hs].
           ++ rewrite bool_decide_true by done. by intros [= <-].
           ++ rewrite bool_decide_false by tauto. by intros [= <-].
        -- rewrite bool_decide_false by tauto. intros [= <-].
           rewrite bool_decide_false by tauto. intros ? ?. by eapply Hinv.
    + rewrite (bool_decide_false (_ ∧ _ = _)) by tauto.
      case_decide as Hk.
      * intros [= <-]. cbn [QuoteSerializer.update Quote.design].
        rewrite Hdesign. by intros [= <-].
      * destruct (quotes db !! k) as [other|] eqn:Hother; [|done].
        cbn [fmap option_fmap option_map].
        rewrite bool_decide_false by tauto. intros [= <-] ? ?. by eapply Hinv.
  - intros request_user design_id data.
    destruct (post_frame db request_user design_id data)
      as [->|(id & quote & design & -> & Hfresh & Hdesign & Hstatus)]; [done|].
    intros k quote' design'. cbn [quotes designs].
    rewrite lookup_insert. case_decide as Hk.
    + intros [= <-]. rewrite Hdesign. intros [= <-]. congruence.
    + intros ? ? ?. by eapply Hinv.
  - intros request_user id. split; [apply destroy_is_Some|].
    intros r db'
      [(e & -> & ->)|(user & quote & design & _ & _ & _ & _ & _ & -> & ->)]
      %destroy_Some; [done|].
    intros k quote' design'. cbn [quotes designs].
    intros [_ Hk]%lookup_delete_Some ? ?. by eapply Hinv.
Qed.

Lemma ordered_designs_keep_no_pending_quote_witness :
  ordered_designs_have_no_pending_quote fixtures.db
  ∧ ordered_designs_have_no_pending_quote
      (QuoteDetailView.patch fixtures.db 1000000
         (Authenticated fixtures.customer1) 20%N
         (fixtures.only_status "accepted")).2.
Proof.
  assert (ordered_designs_have_no_pending_quote fixtures.db) as Hinv.
  { intros k quote design. cbn [quotes designs fixtures.db].
    rewrite !lookup_insert, !lookup_singleton.
    repeat case_decide; intros Hquote Hdesign Hordered; simplify_eq; done. }
  destruct (ordered_designs_keep_no_pending_quote fixtures.db Hinv)
    as (Hpatch & _ & _).
  split; [exact Hinv|]. apply Hpatch. reflexivity.
Defined.

(** X12: "the design of every order is there and is ordered" is an
    invariant: if it holds, it holds after every PATCH and every POST,
    whoever sends it, and after every DELETE that is refused or addresses
    a quote no order refers to (such a DELETE has an outcome; the
    permitted DELETE of a quote that an order refers to is not
    modelled). *)
Theorem orders_stay_on_ordered_designs db :
  orders_on_ordered_designs db →
  (∀ now request_user id data,
     orders_on_ordered_designs
       (QuoteDetailView.patch db now request_user id data).2)
  ∧ (∀ request_user design_id data,
       orders_on_ordered_designs
         (QuoteListCreateView.post db request_user design_id data).2)
  ∧ (∀ request_user id,
       (¬ order_created_from (orders db) id →
        is_Some (QuoteDetailView.destroy db request_user id))
       ∧ ∀ r db',
           QuoteDetailView.destroy db request_user id = Some (r, db') →
           orders_on_ordered_designs db').
Proof.
  intros Hinv. split_and!.
  - intros now request_user id data.
    destruct (QuoteDetailView.patch db now request_user id data)
      as [[body|e] db'] eqn:Hpatch; cbn [snd].
    2:{ by apply patch_Error in Hpatch as ->. }
    apply patch_OK in Hpatch
      as (user & quote & design & validated & -> & Hobj & _ & _ & _ & _ & ->).
    apply get_object_Some in Hobj as [Hquote Hdesign].
    intros i order. rewrite perform_update_orders_cascades.
    assert (∀ d design0,
              designs db !! d = Some design0 → Design.status design0 = ORDERED →
              ∃ design',
                designs (QuoteDetailView.perform_update db now id quote design
                           validated) !! d = Some design'
                ∧ Design.status design' = ORDERED) as Hkept.
    { intros d design0 Hd Hs. rewrite perform_update_designs by done.
      case_bool_decide; eauto. }
    case_bool_decide as Hc.
    + rewrite lookup_insert. case_decide as Hi.
      * intros [= <-]. cbn [order_for Order.design QuoteSerializer.update Quote.design].
        rewrite perform_update_designs by done.
        rewrite bool_decide_true by done. eauto.
      * intros (design0 & Hd & Hs)%Hinv. by eapply Hkept.
    + intros (design0 & Hd & Hs)%Hinv. by eapply Hkept.
  - intros request_user design_id data.
    by destruct (post_frame db request_user design_id data)
      as [->|(id & quote & design & -> & _)].
  - intros request_user id. split; [apply destroy_is_Some|].
    by intros r db'
      [(e & -> & ->)|(user & quote & design & _ & _ & _ & _ & _ & -> & ->)]
      %destroy_Some.
Qed.

Lemma orders_stay_on_ordered_designs_witness :
  orders_on_ordered_designs fixtures.db
  ∧ orders_on_ordered_designs
      (QuoteDetailView.patch fixtures.db 1000000
         (Authenticated fixtures.customer1) 20%N
         (fixtures.only_status "accepted")).2.
Proof.
  assert (orders_on_ordered_designs fixtures.db) as Hinv.
  { intros i order. cbn [orders fixtures.db]. by rewrite lookup_empty. }
  destruct (orders_stay_on_ordered_designs fixtures.db Hinv) as (Hpatch & _ & _).
  split; [exact Hinv|]. apply Hpatch.
Defined.

(** X13: once a quote has been accepted with the acceptance cascade (the
    quote was not accepted, no order was linked to it), no quote can be
    created for its design any more: every POST for the design by an
    authenticated actor answers with PermissionDenied and writes nothing;
    for a manufacturer who does not own the design the message names the
    status required and the status Ordered. *)
Theorem accepted_design_takes_no_more_quotes
    db now request_user id data quote design body db' :
  quotes db !! id = Some quote →
  designs db !! Quote.design quote = Some design →
  Quote.status quote ≠ ACCEPTED →
  Data.status data = Some "accepted" →
  ¬ order_created_from (orders db) id →
  QuoteDetailView.patch db now request_user id data = (OK body, db') →
  ∀ user' data',
    let result :=
      QuoteListCreateView.post db' (Authenticated user')
        (Some (Quote.design quote)) data' in
    (∃ message, result = (Error (PermissionDenied message), db'))
    ∧ (User.role user' = MANUFACTURER →
       User.pk user' ≠ Design.customer design →
       result
       = (Error (PermissionDenied
            "Design must be in 'Analysis Complete' status to receive quotes. Current status: Ordered."),
          db')).
Proof.
  intros Hquote Hdesign Hedge Hdata Hguard Hpatch user' data'.
  apply patch_OK in Hpatch
    as (user & quote' & design' & validated & -> & Hobj & _ & Hfields & _ & _ & ->).
  apply get_object_Some in Hobj as [Hquote' Hdesign'].
  rewrite Hquote in Hquote'. injection Hquote' as <-.
  rewrite Hdesign in Hdesign'. injection Hdesign' as <-.
  assert (cascades db id quote validated) as Hc.
  { split_and!; [done| |done].
    apply run_field_validation_patch in Hfields as [-> _].
    by rewrite Hdata. }
  set (db' := QuoteDetailView.perform_update _ _ _ _ _ _).
  assert (designs db' !! Quote.design quote
          = Some (Design.set_status ORDERED design)) as Hordered.
  { unfold db'. rewrite perform_update_designs by done.
    by rewrite bool_decide_true. }
  cbv zeta. split.
  - apply post_not_granted.
    intros (? & ? & design' & [= <-] & _ & [= <-] & Hd & _ & Hs)
      %has_permission_Granted.
    rewrite Hordered in Hd. by injection Hd as <-.
  - intros Hrole Howner. apply post_denied.
    unfold CanCreateQuoteForDesign.has_permission.
    rewrite Hordered, bool_decide_true by done.
    rewrite (bool_decide_false (_ = User.pk user')) by (cbn; congruence).
    by rewrite bool_decide_true.
Qed.

Lemma accepted_design_takes_no_more_quotes_witness :
  let accept :=
    QuoteDetailView.patch fixtures.db 1000000 (Authenticated fixtures.customer1)
      20%N (fixtures.only_status "accepted") in
  accept.1 = OK (Quote.set_status ACCEPTED fixtures.quote_mf1_design_c1)
  ∧ QuoteListCreateView.post accept.2 (Authenticated fixtures.manufacturer3)
      (Some 10%N) (Data.mk None (Some (decimal.mk 20000 (-2))) (Some 7) None 0)
    = (Error (PermissionDenied
         "Design must be in 'Analysis Complete' status to receive quotes. Current status: Ordered."),
       accept.2).
Proof.
  pose proof (accepted_design_takes_no_more_quotes fixtures.db 1000000
                (Authenticated fixtures.customer1) 20%N
                (fixtures.only_status "accepted")
                fixtures.quote_mf1_design_c1 fixtures.design_c1_analyzed
                (Quote.set_status ACCEPTED fixtures.quote_mf1_design_c1)
                (QuoteDetailView.patch fixtures.db 1000000
                   (Authenticated fixtures.customer1) 20%N
                   (fixtures.only_status "accepted")).2
                eq_refl eq_refl ltac:(intros [=]) eq_refl (map_Exists_empty _)
                ltac:(vm_compute; reflexivity)
                fixtures.manufacturer3
                (Data.mk None (Some (decimal.mk 20000 (-2))) (Some 7) None 0))
    as [_ Hpost].
  cbv zeta in *. split; [vm_compute; reflexivity|].
  apply Hpost; [reflexivity|intros [=]].
Defined.

(** ** The sign of a price *)

Section signs.
Import decimal pricing pricing_spec.
Implicit Types (m : member).

Lemma round_half_even_nonneg n k : 0 ≤ n → 0 ≤ round_half_even n k.
Proof.
  intros Hn. unfold round_half_even.
  assert (0 ≤ n / 10 ^ k) by (apply Z_div_nonneg_nonneg; [done|apply Z.pow_nonneg; lia]).
  repeat case_match; lia.
Qed.

Lemma round_half_up_nonneg n k : 0 ≤ n → 0 ≤ round_half_up n k.
Proof.
  intros Hn. unfold round_half_up.
  assert (0 ≤ n / 10 ^ k) by (apply Z_div_nonneg_nonneg; [done|apply Z.pow_nonneg; lia]).
  case_match; lia.
Qed.

Lemma fix_nonneg d r : fix_ d = Return r → 0 ≤ coef d → 0 ≤ coef r.
Proof.
  unfold fix_. intros Hfix Hd. revert Hfix.
  destruct (is_zero d); [by intros [= <-]|].
  case_bool_decide; [done|].
  case_bool_decide; [|by intros [= <-]].
  pose proof (round_half_even_nonneg (Z.abs (coef d))
                (Z.max (digits (coef d) + exp d - prec) Etiny - exp d)
                (Z.abs_nonneg _)) as Hq.
  case_bool_decide.
  - case_bool_decide; [done|]. intros [= <-]. cbn [coef].
    apply Z.mul_nonneg_nonneg; [lia|].
    apply Z_div_nonneg_nonneg; lia.
  - case_bool_decide; [done|]. intros [= <-]. cbn [coef].
    apply Z.mul_nonneg_nonneg; lia.
Qed.

Lemma mul_nonneg a b r :
  mul a b = Return r → 0 ≤ coef a → 0 ≤ coef b → 0 ≤ coef r.
Proof.
  unfold mul. intros Hmul Ha Hb. apply (fix_nonneg _ _ Hmul). cbn [coef]. nia.
Qed.

Lemma normalize_nonneg tmp other :
  0 ≤ coef tmp → 0 ≤ coef other →
  0 ≤ coef (normalize tmp other).1 ∧ 0 ≤ coef (normalize tmp other).2.
Proof.
  intros Ht Ho. unfold normalize. cbn [fst snd coef]. split.
  - apply Z.mul_nonneg_nonneg; [done|]. apply Z.pow_nonneg. lia.
  - case_bool_decide; cbn [coef]; [by apply Z.sgn_nonneg|done].
Qed.

Lemma add_nonneg a b r :
  add a b = Return r → 0 ≤ coef a → 0 ≤ coef b → 0 ≤ coef r.
Proof.
  unfold add. intros Hadd Ha Hb. revert Hadd.
  assert (∀ c k, 0 ≤ c → 0 ≤ c * 10 ^ k) as Hshift.
  { intros c k Hc. apply Z.mul_nonneg_nonneg; [done|]. apply Z.pow_nonneg. lia. }
  destruct (is_zero a && is_zero b); [by intros ?%fix_nonneg|].
  destruct (is_zero a).
  { intros Hadd%fix_nonneg; [done|]. by apply Hshift. }
  destruct (is_zero b).
  { intros Hadd%fix_nonneg; [done|]. by apply Hshift. }
  case_bool_decide.
  - destruct (normalize_nonneg b a Hb Ha) as [Hx Hy].
    destruct (normalize b a) as [x y].
    intros Hadd%fix_nonneg; [done|]. cbn [coef fst snd] in *. lia.
  - destruct (normalize_nonneg a b Ha Hb) as [Hx Hy].
    destruct (normalize a b) as [x y].
    intros Hadd%fix_nonneg; [done|]. cbn [coef fst snd] in *. lia.
Qed.

Lemma rescale_half_up_nonneg d e : 0 ≤ coef d → 0 ≤ coef (rescale_half_up d e).
Proof.
  intros Hd. unfold rescale_half_up.
  destruct (is_zero d); [done|].
  case_bool_decide; cbn [coef].
  - apply Z.mul_nonneg_nonneg; [done|]. apply Z.pow_nonneg. lia.
  - apply Z.mul_nonneg_nonneg; [by apply Z.sgn_nonneg|].
    apply round_half_up_nonneg, Z.abs_nonneg.
Qed.

Lemma quantize_cents_nonneg d r :
  quantize_cents d = Return r → 0 ≤ coef d → 0 ≤ coef r.
Proof.
  unfold quantize_cents. intros Hq Hd. revert Hq.
  destruct (is_zero d); [by intros ?%fix_nonneg|].
  repeat (case_bool_decide; [done|]).
  intros Hq%fix_nonneg; [done|]. by apply rescale_half_up_nonneg.
Qed.

Lemma div_nonneg a b r :
  div a b = Return r → 0 ≤ coef a → 0 ≤ coef b → 0 ≤ coef r.
Proof.
  unfold div. intros Hdiv Ha Hb. revert Hdiv.
  destruct (is_zero b); [done|].
  destruct (is_zero a); [by intros ?%fix_nonneg|].
  assert (0 ≤ Z.sgn (coef a) * Z.sgn (coef b)) as Hsign
    by (apply Z.mul_nonneg_nonneg; by apply Z.sgn_nonneg).
  set (sign := Z.sgn (coef a) * Z.sgn (coef b)) in *.
  set (shift := digits (coef b) - digits (coef a) + prec + 1).
  assert (∀ k, 0 ≤ 10 ^ k) as Hpow by (intros k; apply Z.pow_nonneg; lia).
  assert (∀ c r0,
            (if bool_decide (0 ≤ shift)
             then (Z.abs (coef a) * 10 ^ shift / Z.abs (coef b),
                   (Z.abs (coef a) * 10 ^ shift) mod Z.abs (coef b))
             else (Z.abs (coef a) / (Z.abs (coef b) * 10 ^ (- shift)),
                   Z.abs (coef a) mod (Z.abs (coef b) * 10 ^ (- shift))))
            = (c, r0) → 0 ≤ c) as Hc.
  { intros c r0. case_bool_decide; intros [= <- _].
    - apply Z_div_nonneg_nonneg; [|lia].
      apply Z.mul_nonneg_nonneg; [lia|apply Hpow].
    - apply Z_div_nonneg_nonneg; [lia|].
      apply Z.mul_nonneg_nonneg; [lia|apply Hpow]. }
  destruct (if bool_decide (0 ≤ shift) then _ else _) as [c r0] eqn:Hcr.
  specialize (Hc c r0 eq_refl). clear Hcr.
  case_bool_decide.
  { intros Hdiv%fix_nonneg; [done|]. cbn [coef].
    apply Z.mul_nonneg_nonneg; [done|]. case_bool_decide; lia. }
  match goal with
  | |- context [?strip (Z.to_nat ?n) c ?e] =>
      assert (∀ fuel c0 e0, 0 ≤ c0 → 0 ≤ (strip fuel c0 e0).1) as Hstrip;
      [|specialize (Hstrip (Z.to_nat n) c e Hc);
        destruct (strip (Z.to_nat n) c e) as [c' e']]
  end.
  { induction fuel as [|fuel IH]; intros c0 e0 Hc0; [done|].
    cbn [fst]. case_match; [|done].
    apply IH. apply Z_div_nonneg_nonneg; lia. }
  intros Hdiv%fix_nonneg; [done|]. cbn [coef fst] in *.
  by apply Z.mul_nonneg_nonneg.
Qed.

Lemma positive_checked m :
  positive m = compares m && negb (not_positive m).
Proof.
  destruct m as [[d|s| |]|]; cbn; try done.
  unfold le0. repeat case_bool_decide; done || lia.
Qed.

Lemma not_negative_checked m :
  not_negative m = compares m && negb (negative m).
Proof.
  destruct m as [[d|s| |]|]; cbn; try done.
  unfold lt0. repeat case_bool_decide; done || lia.
Qed.

Lemma positive_not_negative m : positive m = true → not_negative m = true.
Proof.
  destruct m as [[d|s| |]|]; cbn; try done.
  intros ?%bool_decide_eq_true. apply bool_decide_eq_true. lia.
Qed.

Lemma not_negative_Fin (d : Decimal) : not_negative d = true ↔ 0 ≤ coef d.
Proof. apply bool_decide_eq_true. Qed.

Lemma sign_not_negative (d : Decimal) : not_negative d = true → sign d = false.
Proof.
  intros ?%not_negative_Fin. unfold sign. apply bool_decide_eq_false. lia.
Qed.

Lemma __mul___not_negative (a b c : number) :
  __mul__ a b = Return c →
  not_negative a = true → not_negative b = true → not_negative c = true.
Proof.
  destruct a as [x|s| |], b as [y|t| |]; cbn [__mul__]; try done.
  - intros (r & Hr & [= <-])%bind_Return Hx%not_negative_Fin Hy%not_negative_Fin.
    apply not_negative_Fin. by eapply mul_nonneg.
  - destruct (is_zero x); [done|]. intros [= <-] Hx%sign_not_negative.
    by rewrite Hx.
  - destruct (is_zero y); [done|]. intros [= <-] ? Hy%sign_not_negative.
    by rewrite Hy, xorb_false_r.
  - intros [= <-]. by destruct s, t.
Qed.

Lemma __add___not_negative (a b c : number) :
  __add__ a b = Return c →
  not_negative a = true → not_negative b = true → not_negative c = true.
Proof.
  destruct a as [x|s| |], b as [y|t| |]; cbn [__add__]; try done.
  - intros (r & Hr & [= <-])%bind_Return Hx%not_negative_Fin Hy%not_negative_Fin.
    apply not_negative_Fin. by eapply add_nonneg.
  - by intros [= <-].
  - by intros [= <-].
  - case_bool_decide; [|done]. by intros [= <-].
Qed.

Lemma __truediv___not_negative (a b c : number) :
  __truediv__ a b = Return c →
  not_negative a = true → not_negative b = true → not_negative c = true.
Proof.
  destruct a as [x|s| |], b as [y|t| |]; cbn [__truediv__]; try done.
  - intros (r & Hr & [= <-])%bind_Return Hx%not_negative_Fin Hy%not_negative_Fin.
    apply not_negative_Fin. by eapply div_nonneg.
  - by intros [= <-].
  - intros [= <-] ? Hy%sign_not_negative. by rewrite Hy, xorb_false_r.
Qed.

Lemma quantize_not_negative (a c : number) :
  quantize a = Return c → not_negative a = true →
  ∃ p : Decimal, c = Fin p ∧ exp p = -2 ∧ 0 ≤ coef p.
Proof.
  intros [[-> _]|(d & p & -> & -> & Hp)]%quantize_Return; [done|].
  intros Hd%not_negative_Fin. exists p. split; [done|]. split.
  - by apply quantize_cents_exp in Hp as [? _].
  - by eapply quantize_cents_nonneg.
Qed.

Local Ltac checked H :=
  match type of H with (if ?b then _ else _) = [] => by destruct b end.

(** No validation error: every check has answered [False]. *)
Lemma validation_errors_nil design manufacturer :
  validation_errors design manufacturer = [] →
  not_positive (volume_cm3 design) = false
  ∧ (∃ props,
       material_properties_map manufacturer !! Design.material design
       = Some props
       ∧ not_positive (get props "density_g_cm3") = false
       ∧ negative (get props "cost_usd_kg") = false)
  ∧ negative (get (machining_factors manufacturer) "base_time_cost_unit")
    = false
  ∧ negative (get (machining_factors manufacturer)
                "time_multiplier_complexity_cost_unit") = false
  ∧ le0 (Manufacturer.markup_factor manufacturer) = false.
Proof.
  unfold validation_errors, errors_after_machining, errors_after_material.
  intros [[[Hvolume Hmaterial]%app_eq_nil Hmachining]%app_eq_nil
            Hmarkup]%app_eq_nil.
  unfold volume_errors in Hvolume. unfold material_errors in Hmaterial.
  unfold machining_errors in Hmachining. unfold markup_errors in Hmarkup.
  destruct (material_properties_map manufacturer !! Design.material design)
    as [props|]; [|done].
  apply app_eq_nil in Hmaterial as [Hdensity Hcost].
  apply app_eq_nil in Hmachining as [Hbase Hmultiplier].
  split_and!; [checked Hvolume| |checked Hbase|checked Hmultiplier
              |checked Hmarkup].
  exists props. split; [done|]. split; [checked Hdensity|checked Hcost].
Qed.

(** X14: every check of the pricing but one guards a sign: the volume,
    the density and the markup are positive and the unit cost, the base
    time cost and the time multiplier are not negative whenever a price
    is computed.  The complexity score of the design is not checked; when
    it is a number that is not negative, the price returned is a decimal
    at two places that is not negative. *)
Theorem price_is_not_negative design manufacturer r price :
  calculate_quote_price design manufacturer = Return r →
  price_usd r = Some price →
  positive (volume_cm3 design) = true
  ∧ (∃ props,
       material_properties_map manufacturer !! Design.material design
       = Some props
       ∧ positive (get props "density_g_cm3") = true
       ∧ not_negative (get props "cost_usd_kg") = true)
  ∧ not_negative (get (machining_factors manufacturer) "base_time_cost_unit")
    = true
  ∧ not_negative (get (machining_factors manufacturer)
                    "time_multiplier_complexity_cost_unit") = true
  ∧ 0 < coef (Manufacturer.markup_factor manufacturer)
  ∧ (not_negative (complexity_score design) = true →
     ∃ p : Decimal, price = Fin p ∧ exp p = -2 ∧ 0 ≤ coef p).
Proof.
  intros Hr Hprice.
  destruct (calculate_quote_price_formula _ _ r price Hr Hprice)
    as (props & volume & complexity & density & cost_kg & base & multiplier
        & cost_g & mass & material & complexity_cost & machine & subtotal
        & total & Hnil & Hanswer & Hvolume & Hcomplexity & Hprops & Hdensity
        & Hcost & Hbase & Hmultiplier & Hg & Hmass & Hmaterial & Hccost
        & Hmachine & Hsubtotal & Htotal & Hfinal).
  apply validation_errors_nil in Hnil
    as (Hv & (props' & Hprops' & Hd & Hc) & Hb & Hm & Hmarkup).
  rewrite Hprops in Hprops'. injection Hprops' as <-.
  unfold checks_answer, material_answers, machining_answers in Hanswer.
  rewrite Hprops in Hanswer. rewrite !andb_true_iff in Hanswer.
  destruct_and!.
  assert (positive (volume_cm3 design) = true) as Hvolume'
    by (rewrite positive_checked, Hv; by apply andb_true_iff).
  assert (positive (get props "density_g_cm3") = true) as Hdensity'
    by (rewrite positive_checked, Hd; by apply andb_true_iff).
  assert (not_negative (get props "cost_usd_kg") = true) as Hcost'
    by (rewrite not_negative_checked, Hc; by apply andb_true_iff).
  assert (not_negative (get (machining_factors manufacturer)
                          "base_time_cost_unit") = true) as Hbase'
    by (rewrite not_negative_checked, Hb; by apply andb_true_iff).
  assert (not_negative (get (machining_factors manufacturer)
                          "time_multiplier_complexity_cost_unit") = true)
    as Hmultiplier'
    by (rewrite not_negative_checked, Hm; by apply andb_true_iff).
  assert (0 < coef (Manufacturer.markup_factor manufacturer)) as Hmarkup'.
  { unfold le0 in Hmarkup. apply bool_decide_eq_false in Hmarkup. lia. }
  split_and!; [done|by exists props|done|done|done|].
  intros Hcomplexity'.
  rewrite Hvolume in Hvolume'. rewrite Hdensity in Hdensity'.
  rewrite Hcost in Hcost'. rewrite Hbase in Hbase'.
  rewrite Hmultiplier in Hmultiplier'. rewrite Hcomplexity in Hcomplexity'.
  apply (quantize_not_negative _ _ Hfinal).
  apply (__mul___not_negative _ _ _ Htotal);
    [|apply not_negative_Fin; lia].
  apply (__add___not_negative _ _ _ Hsubtotal).
  - apply (__mul___not_negative _ _ _ Hmaterial).
    + apply (__mul___not_negative _ _ _ Hmass);
        by apply positive_not_negative.
    + by apply (__truediv___not_negative _ _ _ Hg).
  - apply (__add___not_negative _ _ _ Hmachine); [done|].
    by apply (__mul___not_negative _ _ _ Hccost).
Qed.

Lemma price_is_not_negative_witness :
  ∃ r price,
    calculate_quote_price fixtures.design_pla fixtures.manufacturer_profile
    = Return r
    ∧ price_usd r = Some price
    ∧ positive (volume_cm3 fixtures.design_pla) = true
    ∧ ∃ p : Decimal, price = Fin p ∧ exp p = -2 ∧ 0 ≤ coef p.
Proof.
  assert (∃ r,
            calculate_quote_price fixtures.design_pla
              fixtures.manufacturer_profile = Return r
            ∧ price_usd r = Some (Fin (mk 1950 (-2)))) as (r & Hr & Hprice).
  { vm_compute. eexists. split; reflexivity. }
  exists r, (Fin (mk 1950 (-2))). split; [exact Hr|]. split; [exact Hprice|].
  destruct (price_is_not_negative _ _ r _ Hr Hprice)
    as (Hvolume & _ & _ & _ & _ & Hsign).
  split; [exact Hvolume|]. apply Hsign. vm_compute. reflexivity.
Defined.

(** The complexity score is needed: with a score of -10 the machine-time
    cost is 5 - 20, and the price of the design of the pricing example is
    -19.50, returned without an error. *)
Example negative_complexity_gives_negative_price :
  match
    calculate_quote_price
      (Design.mk 1%N ANALYSIS_COMPLETE "PLA"
         (Some {[ "volume_cm3" := Number (of_Z 100);
                  "complexity_score" := Number (of_Z (-10)) ]}))
      fixtures.manufacturer_profile
  with
  | Return r => errors r = [] ∧ price_usd r = Some (Fin (mk (-1950) (-2)))
  | Raise _ => False
  end.
Proof. vm_compute. split; reflexivity. Qed.

End signs.

(** ** Reviews *)

Lemma get_manufacturer_Some users manufacturer_id manufacturer :
  get_manufacturer users manufacturer_id = Some manufacturer
  ↔ ∃ id, manufacturer_id = Some id ∧ users !! id = Some manufacturer
          ∧ User.role manufacturer = MANUFACTURER.
Proof.
  unfold get_manufacturer. destruct manufacturer_id as [id|]; cbn.
  - destruct (users !! id) as [user|] eqn:Hrow; cbn.
    + case_bool_decide as Hrole; split.
      * intros [= <-]. by exists id.
      * intros (? & [= <-] & Hrow' & _). congruence.
      * done.
      * intros (? & [= <-] & Hrow' & ?). congruence.
    + split; [done|]. intros (? & [= <-] & ? & _). congruence.
  - split; [done|]. by intros (? & ? & _).
Qed.

(** X15: the create check of a review passes exactly for an authenticated
    customer and a target of the URL that is a user with the manufacturer
    role.  Nobody reviews themselves, as the comment in the code says: in
    a table of users that holds the actor under the actor's key, the
    target of a granted request is another user. *)
Theorem review_create_check request_user manufacturer_id users :
  (CanCreateReviewForManufacturer.has_permission request_user manufacturer_id
     users = Granted
   ↔ ∃ user id manufacturer,
       request_user = Authenticated user ∧ User.role user = CUSTOMER
       ∧ manufacturer_id = Some id ∧ users !! id = Some manufacturer
       ∧ User.role manufacturer = MANUFACTURER)
  ∧ (∀ user id,
       request_user = Authenticated user → manufacturer_id = Some id →
       users !! User.pk user = Some user →
       CanCreateReviewForManufacturer.has_permission request_user
         manufacturer_id users = Granted →
       id ≠ User.pk user).
Proof.
  assert (CanCreateReviewForManufacturer.has_permission request_user
            manufacturer_id users = Granted
          ↔ ∃ user id manufacturer,
              request_user = Authenticated user ∧ User.role user = CUSTOMER
              ∧ manufacturer_id = Some id ∧ users !! id = Some manufacturer
              ∧ User.role manufacturer = MANUFACTURER) as Hgranted.
  { unfold CanCreateReviewForManufacturer.has_permission. split.
    - destruct request_user as [|user]; [done|].
      case_bool_decide as Hrole; [|done].
      destruct manufacturer_id as [id|]; [|done].
      destruct (get_manufacturer users (Some id)) as [manufacturer|] eqn:Hget;
        [|done].
      apply get_manufacturer_Some in Hget as (? & [= <-] & Hrow & Hm).
      intros _. by exists user, id, manufacturer.
    - intros (user & id & manufacturer & -> & Hrole & -> & Hrow & Hm).
      rewrite bool_decide_true by done.
      by rewrite (proj2 (get_manufacturer_Some users (Some id) manufacturer))
        by eauto. }
  split; [exact Hgranted|].
  intros user id -> -> Hself
    (user' & id' & manufacturer & [= <-] & Hrole & [= <-] & Hrow & Hm)%Hgranted
    ->.
  rewrite Hself in Hrow. injection Hrow as <-. congruence.
Qed.

Lemma has_object_permission_write request_method request_user review :
  request_method ∉ SAFE_METHODS →
  IsReviewOwnerOrReadOnly.has_object_permission request_method request_user review
  = true
  ↔ ∃ user, request_user = Authenticated user
            ∧ (User.is_staff user = true
               ∨ Review.customer review = User.pk user).
Proof.
  intros Hunsafe. unfold IsReviewOwnerOrReadOnly.has_object_permission.
  rewrite bool_decide_false by done.
  destruct request_user as [|user].
  - split; [done|]. by intros (? & ? & _).
  - rewrite orb_true_iff, bool_decide_eq_true. split.
    + intros Hwho. by exists user.
    + by intros (? & [= <-] & Hwho).
Qed.

(** X16: reviews are public and only their author or staff may delete
    them.  Every request, authenticated or not, may retrieve an existing
    review.  A DELETE succeeds exactly for an authenticated actor who is
    staff or wrote the review; it then removes the review and nothing
    else.  Otherwise it writes nothing and answers 401 to an anonymous
    request and 403 to the others, the reviewed manufacturer among
    them. *)
Theorem review_delete_rules reviews request_user id review :
  reviews !! id = Some review →
  let may_delete :=
    ∃ user, request_user = Authenticated user
            ∧ (User.is_staff user = true
               ∨ Review.customer review = User.pk user) in
  ReviewDetailView.retrieve reviews request_user id = OK review
  ∧ (may_delete →
     ReviewDetailView.destroy reviews request_user id
     = (OK tt, delete id reviews))
  ∧ (¬ may_delete →
     ReviewDetailView.destroy reviews request_user id
     = (Error (if request_user is Authenticated _
               then PermissionDenied
                      "You do not have permission to perform this action."
               else NotAuthenticated), reviews)).
Proof.
  intros Hreview may_delete.
  unfold ReviewDetailView.retrieve, ReviewDetailView.destroy. rewrite Hreview.
  split; [done|].
  assert (DELETE ∉ SAFE_METHODS) as Hunsafe.
  { unfold SAFE_METHODS. rewrite !elem_of_cons, elem_of_nil. intuition congruence. }
  pose proof (has_object_permission_write DELETE request_user review Hunsafe)
    as Hwrite.
  destruct (IsReviewOwnerOrReadOnly.has_object_permission DELETE _ _).
  - split; [done|]. intros Hnot. destruct Hnot. by apply Hwrite.
  - split; [|by destruct request_user].
    intros Hmay%Hwrite. done.
Qed.

Lemma review_delete_rules_witness :
  let reviews := fixtures.reviews in
  let destroy user := ReviewDetailView.destroy reviews user 30%N in
  ReviewDetailView.retrieve reviews AnonymousUser 30%N
  = OK fixtures.review_c1_mf1
  ∧ destroy (Authenticated fixtures.customer1) = (OK tt, delete 30%N reviews)
  ∧ destroy (Authenticated fixtures.admin_user) = (OK tt, delete 30%N reviews)
  ∧ destroy (Authenticated fixtures.manufacturer1)
    = (Error (PermissionDenied
                "You do not have permission to perform this action."), reviews)
  ∧ destroy AnonymousUser = (Error NotAuthenticated, reviews).
Proof.
  pose proof (λ request_user,
              review_delete_rules fixtures.reviews request_user 30%N
                fixtures.review_c1_mf1 eq_refl) as Hrules.
  cbv zeta in *. split_and!.
  - apply (Hrules AnonymousUser).
  - apply (Hrules (Authenticated fixtures.customer1)).
    exists fixtures.customer1. split; [reflexivity|]. right. reflexivity.
  - apply (Hrules (Authenticated fixtures.admin_user)).
    exists fixtures.admin_user. split; [reflexivity|]. left. reflexivity.
  - apply (Hrules (Authenticated fixtures.manufacturer1)).
    intros (user & [= <-] & [[=]|[=]]).
  - apply (Hrules AnonymousUser). intros (user & [=] & _).
Defined.

Lemma one_review_per_order_insert reviews id review :
  one_review_per_order reviews →
  reviews !! id = None →
  ¬ ReviewListCreateView.review_exists reviews (Review.customer review)
      (Review.manufacturer review) (Review.order_id review) →
  one_review_per_order (<[id := review]> reviews).
Proof.
  intros Hone Hfresh Hnew i j review1 review2.
  rewrite !lookup_insert. repeat case_decide; subst.
  - done.
  - intros [= <-] Hj Hc Hm Ho. destruct Hnew. by exists j, review2.
  - intros Hi [= <-] Hc Hm Ho. destruct Hnew. by exists i, review1.
  - apply Hone.
Qed.

(** X17: for a manufacturer of the URL that exists, [perform_create]
    accepts a review exactly when the customer has no review yet for the
    manufacturer with the same order (or, for a review with no order,
    none with no order): a review with an order and one without, or for
    two orders, go side by side.  An accepted review is stored under a
    fresh key, as the customer's, for the manufacturer of the URL, with
    the rating, comment and order of the body.  A second review of the
    same customer for the same manufacturer and the same order, or a
    second one with no order, is refused with a message that says which,
    and nothing is written then.  So at most one review per customer,
    manufacturer and order (or no order) is an invariant of
    [perform_create] and of DELETE. *)
Theorem one_review_per_order_is_kept users reviews :
  one_review_per_order reviews →
  (∀ user manufacturer_id serializer,
     let result :=
       ReviewListCreateView.perform_create users reviews user manufacturer_id
         serializer in
     one_review_per_order result.2
     ∧ (∀ manufacturer,
          get_manufacturer users manufacturer_id = Some manufacturer →
          (∀ i other,
             reviews !! i = Some other →
             Review.customer other = User.pk user →
             Review.manufacturer other = User.pk manufacturer →
             Review.order_id other ≠ ReviewListCreateView.order_id serializer) →
          let review :=
            Review.mk (User.pk user) (User.pk manufacturer)
              (ReviewListCreateView.rating serializer)
              (ReviewListCreateView.comment serializer)
              (ReviewListCreateView.order_id serializer) in
          reviews !! uuid4 reviews = None
          ∧ result = (OK (uuid4 reviews, review),
                      <[uuid4 reviews := review]> reviews))
     ∧ (∀ id review, result.1 = OK (id, review) →
          reviews !! id = None ∧ result.2 = <[id := review]> reviews
          ∧ Review.customer review = User.pk user
          ∧ Review.order_id review = ReviewListCreateView.order_id serializer
          ∧ ∃ manufacturer,
              get_manufacturer users manufacturer_id = Some manufacturer
              ∧ Review.manufacturer review = User.pk manufacturer
              ∧ ¬ ReviewListCreateView.review_exists reviews (User.pk user)
                    (User.pk manufacturer)
                    (ReviewListCreateView.order_id serializer))
     ∧ (∀ manufacturer,
          get_manufacturer users manufacturer_id = Some manufacturer →
          ReviewListCreateView.review_exists reviews (User.pk user)
            (User.pk manufacturer) (ReviewListCreateView.order_id serializer) →
          result
          = (Error (ValidationError
               ("You have already submitted a review for this manufacturer "
                +:+ (if ReviewListCreateView.order_id serializer is Some _
                     then "for this order." else "(general review)."))),
             reviews)))
  ∧ (∀ request_user id,
       one_review_per_order (ReviewDetailView.destroy reviews request_user id).2).
Proof.
  intros Hone. split.
  - intros user manufacturer_id serializer result.
    unfold result, ReviewListCreateView.perform_create.
    destruct (get_manufacturer users manufacturer_id) as [manufacturer|];
      [|by split_and!].
    cbv zeta. case_bool_decide as Hexists.
    + split_and!; [done| |done|by intros ? [= <-] _].
      intros ? [= <-] Hnone. destruct Hexists as (i & other & Hi & ? & ? & ?).
      by destruct (Hnone i other).
    + cbn [fst snd]. split_and!.
      * apply one_review_per_order_insert; [done|apply uuid4_fresh|done].
      * intros ? [= <-] _. split; [apply uuid4_fresh|done].
      * intros id review [= <- <-]. split_and!; try done; [apply uuid4_fresh|].
        by exists manufacturer.
      * intros ? [= <-] ?. done.
  - intros request_user id. unfold ReviewDetailView.destroy.
    destruct (reviews !! id) as [review|]; [|done].
    destruct (IsReviewOwnerOrReadOnly.has_object_permission _ _ _); [|done].
    cbn [snd].
    intros i j review1 review2 Hi%lookup_delete_Some Hj%lookup_delete_Some.
    apply Hone; tauto.
Qed.

Lemma one_review_per_order_is_kept_witness :
  let perform_create user manufacturer_id order_id :=
    (ReviewListCreateView.perform_create fixtures.users fixtures.reviews user
       (Some manufacturer_id)
       (ReviewListCreateView.mkValidated 4 "Again." order_id)).1 in
  one_review_per_order fixtures.reviews
  ∧ perform_create fixtures.customer1 2%N None
    = Error (ValidationError
        "You have already submitted a review for this manufacturer (general review).")
  ∧ perform_create fixtures.customer2 2%N (Some 40%N)
    = Error (ValidationError
        "You have already submitted a review for this manufacturer for this order.")
  ∧ perform_create fixtures.customer1 2%N (Some 41%N)
    = OK (uuid4 fixtures.reviews, Review.mk 1%N 2%N 4 "Again." (Some 41%N)).
Proof.
  assert (one_review_per_order fixtures.reviews) as Hone.
  { intros i j review1 review2. unfold fixtures.reviews.
    rewrite !lookup_insert, !lookup_singleton.
    repeat case_decide; intros; simplify_eq; done. }
  destruct (one_review_per_order_is_kept fixtures.users fixtures.reviews Hone)
    as [Hcreate _].
  cbv zeta. split; [exact Hone|]. split_and!.
  - destruct (Hcreate fixtures.customer1 (Some 2%N)
                (ReviewListCreateView.mkValidated 4 "Again." None))
      as (_ & _ & _ & Hduplicate).
    refine (f_equal fst (Hduplicate fixtures.manufacturer1 eq_refl _)).
    exists 30%N, fixtures.review_c1_mf1. by repeat split.
  - destruct (Hcreate fixtures.customer2 (Some 2%N)
                (ReviewListCreateView.mkValidated 4 "Again." (Some 40%N)))
      as (_ & _ & _ & Hduplicate).
    refine (f_equal fst (Hduplicate fixtures.manufacturer1 eq_refl _)).
    exists 31%N, fixtures.review_c2_mf1_order. by repeat split.
  - destruct (Hcreate fixtures.customer1 (Some 2%N)
                (ReviewListCreateView.mkValidated 4 "Again." (Some 41%N)))
      as (_ & Haccepted & _).
    destruct (Haccepted fixtures.manufacturer1 eq_refl) as [_ Hresult].
    + intros i other. unfold fixtures.reviews.
      rewrite lookup_insert, lookup_singleton.
      repeat case_decide; intros; simplify_eq; done.
    + exact (f_equal fst Hresult).
Defined.
